(** * University Management System: record store and integrity layer

    A shallow embedding of [UMS.cpp]: the record classes with their CSV
    codec, the [DatabaseManager] (per-entity load and save, lookups,
    [isStudentEnrolled], [generateNextId]) and the operations of
    [UMSApplication] on the database: signing up and logging in, the
    operations of the administrator and of the teacher, the totals of the
    transcript and the seeding.  The menus and the views, which only
    read and print, and the backup are left out.

    C++ [int] is a 32-bit two's complement integer carried as [Z];
    [std::string] is [string]; [std::vector] is [list] with [push_back]
    appending at the end; a function that can throw returns [result]. *)

From Stdlib Require Import ZArith List String Ascii Bool Lia.
From Stdlib Require Import Numbers.DecimalString Numbers.DecimalZ
  Numbers.DecimalPos Numbers.DecimalN Numbers.DecimalFacts.
From Stdlib Require Import Floats Uint63 QArith.
Import ListNotations.

Local Open Scope string_scope.
Local Open Scope list_scope.

(** ** The pieces of the C++ standard library that the program uses *)

Module Cpp.

(** The exceptions the program can meet. *)
Inductive exn : Type :=
| invalid_argument   (* std::stoi: no conversion could be performed *)
| out_of_range       (* std::stoi: the value does not fit an int *)
| length_error.      (* std::string(n, c) with n > max_size() *)

(** A computation that returns or throws. *)
Inductive result (A : Type) : Type :=
| Ok (a : A)
| Throw (e : exn).
Arguments Ok {A} a.
Arguments Throw {A} e.

Definition bind {A B} (m : result A) (k : A -> result B) : result B :=
  match m with
  | Ok a => k a
  | Throw e => Throw e
  end.

(** [try { body } catch (...) { handler }] *)
Definition try_catch {A} (body : result A) (handler : A) : A :=
  match body with
  | Ok a => a
  | Throw _ => handler
  end.

Definition INT_MAX : Z := 2147483647.
Definition INT_MIN : Z := -2147483648.
Definition SIZE_MODULUS : Z := 2 ^ 64.

(** [basic_string::max_size()]: below [PTRDIFF_MAX] on the 64-bit
    implementations. *)
Definition string_max_size : Z := 2 ^ 63 - 1.

Definition push_back {A} (v : list A) (x : A) : list A := v ++ [x].

(** [v.empty()] on a vector. *)
Definition vempty {A} (v : list A) : bool :=
  match v with
  | [] => true
  | _ :: _ => false
  end.

(** [std::find_if] as the position of the first element that satisfies
    [p]; the length of the vector stands for [end()]. *)
Fixpoint find_if {A} (p : A -> bool) (v : list A) : nat :=
  match v with
  | [] => O
  | x :: r => if p x then O else S (find_if p r)
  end.

(** [v.erase(it)] *)
Fixpoint erase {A} (v : list A) (it : nat) : list A :=
  match v, it with
  | [], _ => []
  | _ :: r, O => r
  | x :: r, S k => x :: erase r k
  end.

(** Assignments to the fields of [*it]. *)
Fixpoint assign {A} (v : list A) (it : nat) (f : A -> A) : list A :=
  match v, it with
  | [], _ => []
  | x :: r, O => f x :: r
  | x :: r, S k => x :: assign r k f
  end.

(** [std::string(n, c)], [n] already reduced to a [size_t]. *)
Fixpoint replicate (n : nat) (c : ascii) : string :=
  match n with
  | O => EmptyString
  | S k => String c (replicate k c)
  end.

Definition string_fill (n : Z) (c : ascii) : result string :=
  if (string_max_size <? n)%Z then Throw length_error
  else Ok (replicate (Z.to_nat n) c).

(** [s.empty()] *)
Definition empty (s : string) : bool :=
  match s with
  | EmptyString => true
  | String _ _ => false
  end.

(** *** Input streams and [std::getline] *)

Record istream : Type := mkStream {
  buf : string;       (* the characters not yet read *)
  eofbit : bool;
  failbit : bool
}.

Definition open (s : string) : istream := mkStream s false false.

(** Characters up to the first [delim]; the delimiter is extracted and
    dropped.  [None] as the rest: the end of the input was reached first. *)
Fixpoint extract (delim : ascii) (s : string) : string * option string :=
  match s with
  | EmptyString => (EmptyString, None)
  | String c r =>
      if Ascii.eqb c delim then (EmptyString, Some r)
      else let (t, k) := extract delim r in (String c t, k)
  end.

(** [std::getline(ss, tok, delim)]: the stream afterwards and the token.
    A stream that is not good fails at once; reading nothing at all at
    the end of the input sets [eofbit] and [failbit]; reading up to the
    end of the input sets [eofbit] only. *)
Definition getline (ss : istream) (delim : ascii) : istream * string :=
  if eofbit ss || failbit ss then (mkStream (buf ss) (eofbit ss) true, EmptyString)
  else match buf ss with
       | EmptyString => (mkStream EmptyString true true, EmptyString)
       | _ =>
           match extract delim (buf ss) with
           | (tok, Some rest) => (mkStream rest false false, tok)
           | (tok, None) => (mkStream EmptyString true false, tok)
           end
       end.

(** [while (std::getline(ss, tok, delim)) v.push_back(tok);] *)
Fixpoint getline_loop (fuel : nat) (ss : istream) (delim : ascii)
    (v : list string) : list string :=
  match fuel with
  | O => v
  | S k =>
      let (ss', tok) := getline ss delim in
      if failbit ss' then v else getline_loop k ss' delim (push_back v tok)
  end.

(** Every successful [getline] but the last consumes a character, so
    [S (length s)] rounds read the whole of [s] (see [getline_loop_fields]). *)
Definition read_all (delim : ascii) (s : string) : list string :=
  getline_loop (S (String.length s)) (open s) delim [].

(** *** [std::stoi] and [std::to_string] *)

Definition isspace (c : ascii) : bool :=
  let n := nat_of_ascii c in
  (n =? 32)%nat || ((9 <=? n)%nat && (n <=? 13)%nat).

Definition digit_of (c : ascii) : option Z :=
  let n := nat_of_ascii c in
  if ((48 <=? n)%nat && (n <=? 57)%nat)%bool
  then Some (Z.of_nat n - 48)%Z else None.

Fixpoint skip_space (s : string) : string :=
  match s with
  | String c r => if isspace c then skip_space r else s
  | EmptyString => s
  end.

(** The value of the longest prefix of decimal digits, from [acc]. *)
Fixpoint digits_value (s : string) (acc : Z) : Z :=
  match s with
  | String c r =>
      match digit_of c with
      | Some d => digits_value r (10 * acc + d)
      | None => acc
      end
  | EmptyString => acc
  end.

Definition starts_with_digit (s : string) : bool :=
  match s with
  | String c _ => match digit_of c with Some _ => true | None => false end
  | EmptyString => false
  end.

Definition in_int_range (z : Z) : bool :=
  ((INT_MIN <=? z) && (z <=? INT_MAX))%Z.

(** [std::stoi(s)]: leading white space is skipped, then an optional
    sign, then the longest run of digits; what follows is ignored. *)
Definition stoi (s : string) : result Z :=
  let s1 := skip_space s in
  let (neg, s2) :=
    match s1 with
    | String "-" r => (true, r)
    | String "+" r => (false, r)
    | _ => (false, s1)
    end in
  if starts_with_digit s2 then
    let v := digits_value s2 0 in
    let z := if neg then (- v)%Z else v in
    if in_int_range z then Ok z else Throw out_of_range
  else Throw invalid_argument.

(** [std::to_string] on an integer. *)
Definition to_string (z : Z) : string :=
  NilZero.string_of_int (Z.to_int z).

End Cpp.

Export Cpp.

Notation "x <- m ;; k" := (bind m (fun x => k))
  (at level 61, m at next level, right associativity).

(** [tokens[i]] once [tokens.size()] has been checked. *)
Definition tok (tokens : list string) (i : nat) : string :=
  nth i tokens EmptyString.

(** The splitting loop that opens every [fromCSV]. *)
Definition split_csv (csv : string) : list string := read_all "," csv.

(** ** The record classes and their CSV codec *)

Module Department.
Record t : Type := mk {
  deptId : string;
  deptName : string;
  headOfDept : string;
  description : string
}.

(** [Department()] *)
Definition default : t := mk "" "" "" "".

Definition toCSV (d : t) : string :=
  deptId d ++ "," ++ deptName d ++ "," ++ headOfDept d ++ "," ++ description d.

Definition fromCSV (csv : string) : t :=
  let tokens := split_csv csv in
  if (4 <=? List.length tokens)%nat then
    mk (tok tokens 0) (tok tokens 1) (tok tokens 2) (tok tokens 3)
  else default.
End Department.

Module Semester.
Record t : Type := mk {
  semesterId : string;
  semesterName : string;
  startDate : string;
  endDate : string;
  status : string
}.

Definition default : t := mk "" "" "" "" "".

Definition toCSV (s : t) : string :=
  semesterId s ++ "," ++ semesterName s ++ "," ++ startDate s ++ "," ++
  endDate s ++ "," ++ status s.

Definition fromCSV (csv : string) : t :=
  let tokens := split_csv csv in
  if (5 <=? List.length tokens)%nat then
    mk (tok tokens 0) (tok tokens 1) (tok tokens 2) (tok tokens 3) (tok tokens 4)
  else default.
End Semester.

Module Course.
Record t : Type := mk {
  courseId : string;
  courseName : string;
  teacherId : string;
  departmentId : string;
  semesterId : string;
  credits : Z;
  schedule : string;
  maxStudents : Z
}.

Definition default : t := mk "" "" "" "" "" 0 "" 0.

Definition toCSV (c : t) : string :=
  courseId c ++ "," ++ courseName c ++ "," ++ teacherId c ++ "," ++
  departmentId c ++ "," ++ semesterId c ++ "," ++ to_string (credits c) ++ "," ++
  schedule c ++ "," ++ to_string (maxStudents c).

(** The two [std::stoi] calls run in field order; the first to throw
    ends the decoding. *)
Definition fromCSV (csv : string) : result t :=
  let tokens := split_csv csv in
  if (8 <=? List.length tokens)%nat then
    cr <- stoi (tok tokens 5) ;;
    ms <- stoi (tok tokens 7) ;;
    Ok (mk (tok tokens 0) (tok tokens 1) (tok tokens 2) (tok tokens 3)
           (tok tokens 4) cr (tok tokens 6) ms)
  else Ok default.
End Course.

Module Exam.
Record t : Type := mk {
  examId : string;
  courseId : string;
  examName : string;
  examDate : string;
  examTime : string;
  examType : string;
  totalMarks : Z
}.

Definition default : t := mk "" "" "" "" "" "" 0.

Definition toCSV (e : t) : string :=
  examId e ++ "," ++ courseId e ++ "," ++ examName e ++ "," ++ examDate e ++ "," ++
  examTime e ++ "," ++ examType e ++ "," ++ to_string (totalMarks e).

Definition fromCSV (csv : string) : result t :=
  let tokens := split_csv csv in
  if (7 <=? List.length tokens)%nat then
    tm <- stoi (tok tokens 6) ;;
    Ok (mk (tok tokens 0) (tok tokens 1) (tok tokens 2) (tok tokens 3)
           (tok tokens 4) (tok tokens 5) tm)
  else Ok default.
End Exam.

Module Grade.
Record t : Type := mk {
  studentId : string;
  examId : string;
  marksObtained : Z;
  letterGrade : string;
  comments : string
}.

Definition default : t := mk "" "" 0 "" "".

Definition toCSV (g : t) : string :=
  studentId g ++ "," ++ examId g ++ "," ++ to_string (marksObtained g) ++ "," ++
  letterGrade g ++ "," ++ comments g.

Definition fromCSV (csv : string) : result t :=
  let tokens := split_csv csv in
  if (5 <=? List.length tokens)%nat then
    m <- stoi (tok tokens 2) ;;
    Ok (mk (tok tokens 0) (tok tokens 1) m (tok tokens 3) (tok tokens 4))
  else Ok default.
End Grade.

(** What the [User] constructor takes from its environment: [std::hash]
    on strings, which the implementation chooses, and the clock. *)
Record Env : Type := mkEnv {
  std_hash : string -> Z;   (* a size_t *)
  time_now : Z              (* std::time(0) *)
}.

Module SimpleHash.
Definition hash (env : Env) (input : string) : string :=
  to_string (std_hash env (input ++ "UMS_SALT_2025")).
End SimpleHash.

Module User.
Record t : Type := mk {
  id : string;
  username : string;
  passwordHash : string;
  role : string;
  name : string;
  email : string;
  phone : string;
  address : string;
  departmentId : string;
  dateJoined : string
}.

Definition default : t := mk "" "" "" "" "" "" "" "" "" "".

(** The constructor: the password is stored hashed and the joining
    date is the current time. *)
Definition new (env : Env) (id username password role name email
                phone address deptId : string) : t :=
  mk id username (SimpleHash.hash env password) role name email
     phone address deptId (to_string (time_now env)).

Definition toCSV (u : t) : string :=
  id u ++ "," ++ username u ++ "," ++ passwordHash u ++ "," ++ role u ++ "," ++
  name u ++ "," ++ email u ++ "," ++ phone u ++ "," ++ address u ++ "," ++
  departmentId u ++ "," ++ dateJoined u.

Definition fromCSV (csv : string) : t :=
  let tokens := split_csv csv in
  if (10 <=? List.length tokens)%nat then
    mk (tok tokens 0) (tok tokens 1) (tok tokens 2) (tok tokens 3) (tok tokens 4)
       (tok tokens 5) (tok tokens 6) (tok tokens 7) (tok tokens 8) (tok tokens 9)
  else default.
End User.

Module Enrollment.
Record t : Type := mk {
  studentId : string;
  courseId : string;
  grade : string;
  status : string
}.

Definition default : t := mk "" "" "" "".

Definition toCSV (e : t) : string :=
  studentId e ++ "," ++ courseId e ++ "," ++ grade e ++ "," ++ status e.

Definition fromCSV (csv : string) : t :=
  let tokens := split_csv csv in
  if (4 <=? List.length tokens)%nat then
    mk (tok tokens 0) (tok tokens 1) (tok tokens 2) (tok tokens 3)
  else default.
End Enrollment.

Module Attendance.
Record t : Type := mk {
  studentId : string;
  courseId : string;
  date : string;
  status : string
}.

Definition default : t := mk "" "" "" "".

Definition toCSV (a : t) : string :=
  studentId a ++ "," ++ courseId a ++ "," ++ date a ++ "," ++ status a.

Definition fromCSV (csv : string) : t :=
  let tokens := split_csv csv in
  if (4 <=? List.length tokens)%nat then
    mk (tok tokens 0) (tok tokens 1) (tok tokens 2) (tok tokens 3)
  else default.
End Attendance.

(** ** The files *)

(** The eight data files as the program sees them: what an [ifstream]
    on a path would read ([None]: it does not open) and whether an
    [ofstream] on the path opens. *)
Record FileSystem : Type := mkFS {
  contents : string -> option string;
  writable : string -> bool
}.

Definition newline : ascii := "010"%char.
Definition endl : string := String newline EmptyString.

(** [std::ofstream file(path); for (r : v) file << toCSV(r) << std::endl;]
    The file is truncated when it opens; nothing happens when it does not. *)
Definition write_lines (fs : FileSystem) (path : string) (lines : list string)
    : FileSystem :=
  if writable fs path then
    mkFS (fun p => if (p =? path)%string
                   then Some (String.concat "" (map (fun l => (l ++ endl)%string) lines))
                   else contents fs p)
         (writable fs)
  else fs.

(** [while (std::getline(file, line)) if (!line.empty()) v.push_back(fromCSV(line));] *)
Fixpoint load_lines {T} (fromCSV : string -> T) (lines : list string)
    (v : list T) : list T :=
  match lines with
  | [] => v
  | line :: rest =>
      if empty line then load_lines fromCSV rest v
      else load_lines fromCSV rest (push_back v (fromCSV line))
  end.

(** The same loop around a [fromCSV] that can throw: nothing catches, so
    the first exception leaves the loop and the loader. *)
Fixpoint load_lines_throwing {T} (fromCSV : string -> result T)
    (lines : list string) (v : list T) : result (list T) :=
  match lines with
  | [] => Ok v
  | line :: rest =>
      if empty line then load_lines_throwing fromCSV rest v
      else x <- fromCSV line ;; load_lines_throwing fromCSV rest (push_back v x)
  end.

(** The vector is cleared, then filled if the file opens. *)
Definition load_file {T} (fromCSV : string -> T) (fs : FileSystem)
    (path : string) : list T :=
  match contents fs path with
  | Some text => load_lines fromCSV (read_all newline text) []
  | None => []
  end.

Definition load_file_throwing {T} (fromCSV : string -> result T)
    (fs : FileSystem) (path : string) : result (list T) :=
  match contents fs path with
  | Some text => load_lines_throwing fromCSV (read_all newline text) []
  | None => Ok []
  end.

(** ** The database manager *)

Module DatabaseManager.

Definition USERS_FILE := "data/users.csv".
Definition DEPARTMENTS_FILE := "data/departments.csv".
Definition SEMESTERS_FILE := "data/semesters.csv".
Definition COURSES_FILE := "data/courses.csv".
Definition EXAMS_FILE := "data/exams.csv".
Definition GRADES_FILE := "data/grades.csv".
Definition ENROLLMENTS_FILE := "data/enrollments.csv".
Definition ATTENDANCE_FILE := "data/attendance.csv".

Record t : Type := mk {
  users : list User.t;
  departments : list Department.t;
  semesters : list Semester.t;
  courses : list Course.t;
  exams : list Exam.t;
  grades : list Grade.t;
  enrollments : list Enrollment.t;
  attendanceRecords : list Attendance.t
}.

Definition set_users (v : list User.t) (db : t) : t :=
  mk v (departments db) (semesters db) (courses db) (exams db) (grades db)
     (enrollments db) (attendanceRecords db).
Definition set_departments (v : list Department.t) (db : t) : t :=
  mk (users db) v (semesters db) (courses db) (exams db) (grades db)
     (enrollments db) (attendanceRecords db).
Definition set_semesters (v : list Semester.t) (db : t) : t :=
  mk (users db) (departments db) v (courses db) (exams db) (grades db)
     (enrollments db) (attendanceRecords db).
Definition set_courses (v : list Course.t) (db : t) : t :=
  mk (users db) (departments db) (semesters db) v (exams db) (grades db)
     (enrollments db) (attendanceRecords db).
Definition set_exams (v : list Exam.t) (db : t) : t :=
  mk (users db) (departments db) (semesters db) (courses db) v (grades db)
     (enrollments db) (attendanceRecords db).
Definition set_grades (v : list Grade.t) (db : t) : t :=
  mk (users db) (departments db) (semesters db) (courses db) (exams db) v
     (enrollments db) (attendanceRecords db).
Definition set_enrollments (v : list Enrollment.t) (db : t) : t :=
  mk (users db) (departments db) (semesters db) (courses db) (exams db)
     (grades db) v (attendanceRecords db).
Definition set_attendanceRecords (v : list Attendance.t) (db : t) : t :=
  mk (users db) (departments db) (semesters db) (courses db) (exams db)
     (grades db) (enrollments db) v.

(** The manager together with the files it reads and writes. *)
Definition state : Type := (t * FileSystem)%type.

Definition saveUsers (st : state) : state :=
  let (db, fs) := st in
  (db, write_lines fs USERS_FILE (map User.toCSV (users db))).

Definition saveDepartments (st : state) : state :=
  let (db, fs) := st in
  (db, write_lines fs DEPARTMENTS_FILE (map Department.toCSV (departments db))).

Definition saveSemesters (st : state) : state :=
  let (db, fs) := st in
  (db, write_lines fs SEMESTERS_FILE (map Semester.toCSV (semesters db))).

Definition saveCourses (st : state) : state :=
  let (db, fs) := st in
  (db, write_lines fs COURSES_FILE (map Course.toCSV (courses db))).

Definition saveExams (st : state) : state :=
  let (db, fs) := st in
  (db, write_lines fs EXAMS_FILE (map Exam.toCSV (exams db))).

Definition saveGrades (st : state) : state :=
  let (db, fs) := st in
  (db, write_lines fs GRADES_FILE (map Grade.toCSV (grades db))).

Definition saveEnrollments (st : state) : state :=
  let (db, fs) := st in
  (db, write_lines fs ENROLLMENTS_FILE (map Enrollment.toCSV (enrollments db))).

Definition saveAttendance (st : state) : state :=
  let (db, fs) := st in
  (db, write_lines fs ATTENDANCE_FILE (map Attendance.toCSV (attendanceRecords db))).

(** The administrator that [loadUsers] creates when there is no user. *)
Definition default_admin (env : Env) : User.t :=
  User.new env "admin001" "admin" "admin123" "admin" "System Administrator"
           "admin@university.edu" "" "" "".

Definition loadUsers (env : Env) (st : state) : state :=
  let (db, fs) := st in
  let loaded := load_file User.fromCSV fs USERS_FILE in
  if vempty loaded then
    saveUsers (set_users (push_back loaded (default_admin env)) db, fs)
  else (set_users loaded db, fs).

Definition loadDepartments (st : state) : state :=
  let (db, fs) := st in
  (set_departments (load_file Department.fromCSV fs DEPARTMENTS_FILE) db, fs).

Definition loadSemesters (st : state) : state :=
  let (db, fs) := st in
  (set_semesters (load_file Semester.fromCSV fs SEMESTERS_FILE) db, fs).

Definition loadCourses (st : state) : result state :=
  let (db, fs) := st in
  v <- load_file_throwing Course.fromCSV fs COURSES_FILE ;;
  Ok (set_courses v db, fs).

Definition loadExams (st : state) : result state :=
  let (db, fs) := st in
  v <- load_file_throwing Exam.fromCSV fs EXAMS_FILE ;;
  Ok (set_exams v db, fs).

Definition loadGrades (st : state) : result state :=
  let (db, fs) := st in
  v <- load_file_throwing Grade.fromCSV fs GRADES_FILE ;;
  Ok (set_grades v db, fs).

Definition loadEnrollments (st : state) : state :=
  let (db, fs) := st in
  (set_enrollments (load_file Enrollment.fromCSV fs ENROLLMENTS_FILE) db, fs).

Definition loadAttendance (st : state) : state :=
  let (db, fs) := st in
  (set_attendanceRecords (load_file Attendance.fromCSV fs ATTENDANCE_FILE) db, fs).

Definition loadAllData (env : Env) (st : state) : result state :=
  let st := loadUsers env st in
  let st := loadDepartments st in
  let st := loadSemesters st in
  st <- loadCourses st ;;
  st <- loadExams st ;;
  st <- loadGrades st ;;
  let st := loadEnrollments st in
  Ok (loadAttendance st).

(** *** Lookups *)

Definition findCourse (db : t) (courseId : string) : option Course.t :=
  find (fun c => (Course.courseId c =? courseId)%string) (courses db).

Definition findExam (db : t) (examId : string) : option Exam.t :=
  find (fun e => (Exam.examId e =? examId)%string) (exams db).

Definition getCourseExams (db : t) (courseId : string) : list Exam.t :=
  filter (fun e => (Exam.courseId e =? courseId)%string) (exams db).

Definition getStudentGrades (db : t) (studentId : string) : list Grade.t :=
  filter (fun g => (Grade.studentId g =? studentId)%string) (grades db).

Definition isStudentEnrolled (db : t) (studentId courseId : string) : bool :=
  existsb (fun e => (Enrollment.studentId e =? studentId)%string
                    && (Enrollment.courseId e =? courseId)%string
                    && (Enrollment.status e =? "enrolled")%string)
          (enrollments db).

(** *** The identifier allocator *)

(** [int] addition; past [INT_MAX] it wraps on the machines the program
    is built for. *)
Definition int_add (a b : Z) : Z :=
  ((a + b - INT_MIN) mod 2 ^ 32 + INT_MIN)%Z.

(** [size_t] subtraction. *)
Definition size_sub (a b : Z) : Z := ((a - b) mod SIZE_MODULUS)%Z.

(** One round of the loop over [existingIds]. *)
Definition next_max (prefix : string) (maxNum : Z) (id : string) : Z :=
  if ((String.length prefix <? String.length id)%nat
      && (substring 0 (String.length prefix) id =? prefix)%string)%bool
  then
    try_catch
      (num <- stoi (substring (String.length prefix)
                              (String.length id - String.length prefix) id) ;;
       Ok (Z.max maxNum num))
      maxNum
  else maxNum.

Definition generateNextId (prefix : string) (existingIds : list string)
    : result string :=
  let maxNum := fold_left (next_max prefix) existingIds 0%Z in
  let number := to_string (int_add maxNum 1) in
  pad <- string_fill (size_sub 3 (Z.of_nat (String.length number))) "0" ;;
  Ok (prefix ++ pad ++ number)%string.

(** *** Saving everything *)

Definition saveAllData (st : state) : state :=
  let st := saveUsers st in
  let st := saveDepartments st in
  let st := saveSemesters st in
  let st := saveCourses st in
  let st := saveExams st in
  let st := saveGrades st in
  let st := saveEnrollments st in
  saveAttendance st.

(** *** The other lookups *)

Definition findUser (db : t) (username : string) : option User.t :=
  find (fun u => (User.username u =? username)%string) (users db).

Definition findUserById (db : t) (id : string) : option User.t :=
  find (fun u => (User.id u =? id)%string) (users db).

Definition findDepartment (db : t) (deptId : string) : option Department.t :=
  find (fun d => (Department.deptId d =? deptId)%string) (departments db).

Definition findSemester (db : t) (semesterId : string) : option Semester.t :=
  find (fun s => (Semester.semesterId s =? semesterId)%string) (semesters db).

Definition getTeacherCourses (db : t) (teacherId : string) : list Course.t :=
  filter (fun c => (Course.teacherId c =? teacherId)%string) (courses db).

Definition getStudentEnrollments (db : t) (studentId : string)
    : list Enrollment.t :=
  filter (fun e => (Enrollment.studentId e =? studentId)%string) (enrollments db).

End DatabaseManager.

(** ** The application *)

Module UMSApplication.
Import DatabaseManager.

(** [(double)n] for an [int]. *)
Definition double_of_int (z : Z) : float :=
  if (z <? 0)%Z then (- PrimFloat.of_uint63 (Uint63.of_Z (- z)))%float
  else PrimFloat.of_uint63 (Uint63.of_Z z).

(** The ladder of [enterGrades], on IEEE binary64 as the program
    computes it. *)
Definition letterGrade_of (marks totalMarks : Z) : string :=
  let percentage := (double_of_int marks / double_of_int totalMarks * 100)%float in
  if (90 <=? percentage)%float then "A+"
  else if (85 <=? percentage)%float then "A"
  else if (80 <=? percentage)%float then "A-"
  else if (75 <=? percentage)%float then "B+"
  else if (70 <=? percentage)%float then "B"
  else if (65 <=? percentage)%float then "B-"
  else if (60 <=? percentage)%float then "C+"
  else if (55 <=? percentage)%float then "C"
  else if (50 <=? percentage)%float then "C-"
  else "F".

Definition same_grade_key (studentId examId : string) (g : Grade.t) : bool :=
  ((Grade.studentId g =? studentId)%string && (Grade.examId g =? examId)%string)%bool.

(** The end of [enterGrades]: the record of the pair is updated where it
    stands, or a new record is appended. *)
Definition store_grade (db : t) (studentId examId : string) (marks : Z)
    (letterGrade comments : string) : t * string :=
  let it := find_if (same_grade_key studentId examId) (grades db) in
  if (it <? List.length (grades db))%nat then
    (set_grades
       (assign (grades db) it
          (fun g => Grade.mk (Grade.studentId g) (Grade.examId g) marks
                             letterGrade comments)) db,
     "Grade updated successfully!")
  else
    (set_grades
       (push_back (grades db)
          (Grade.mk studentId examId marks letterGrade comments)) db,
     "Grade entered successfully!").

(** [enterGrades], with what the teacher types as arguments; the result
    is the database afterwards and the last message printed. *)
Definition enterGrades (db : t) (currentUser : User.t)
    (courseId examId studentId : string) (marks : Z) (comments : string)
    : t * string :=
  match findCourse db courseId with
  | None => (db, "Invalid course or not your course!")
  | Some course =>
      if negb (Course.teacherId course =? User.id currentUser)%string
      then (db, "Invalid course or not your course!")
      else if vempty (getCourseExams db courseId)
      then (db, "No exams found for this course!")
      else
        match findExam db examId with
        | None => (db, "Invalid exam ID!")
        | Some exam =>
            if negb (Exam.courseId exam =? courseId)%string
            then (db, "Invalid exam ID!")
            else if negb (isStudentEnrolled db studentId courseId)
            then (db, "Student not enrolled in this course!")
            else if ((marks <? 0)%Z || (Exam.totalMarks exam <? marks)%Z)%bool
            then (db, "Invalid marks!")
            else
              store_grade db studentId examId marks
                (letterGrade_of marks (Exam.totalMarks exam)) comments
        end
  end.

Definition deleteUser (db : t) (id : string) : t * string :=
  let it := find_if (fun u => (User.id u =? id)%string) (users db) in
  if (it <? List.length (users db))%nat then
    if (User.role (nth it (users db) User.default) =? "admin")%string
    then (db, "Cannot delete admin user!")
    else (set_users (erase (users db) it) db, "User deleted successfully!")
  else (db, "User not found!").


(** *** Signing up and logging in

    Every operation below takes what the user types as arguments and
    gives the database afterwards with the text printed after the last
    input, without the final [std::endl]. *)

(** [performLogin], up to its return to the welcome menu: the user who
    becomes [currentUser], if any. *)
Definition performLogin (env : Env) (db : t) (username password : string)
    : option User.t * string :=
  match findUser db username with
  | Some user =>
      if (User.passwordHash user =? SimpleHash.hash env password)%string
      then (Some user, ("Login successful! Welcome, " ++ User.name user)%string)
      else (None, "Invalid credentials!")
  | None => (None, "Invalid credentials!")
  end.

(** [performSignup], up to its return to the welcome menu.  The
    department is asked for only when there is one. *)
Definition performSignup (env : Env) (db : t) (choice : Z)
    (username password name email phone address deptId : string)
    : result (t * string) :=
  if (choice =? 3)%Z then Ok (db, "")
  else
    let role := if (choice =? 1)%Z then "student" else "teacher" in
    match findUser db username with
    | Some _ => Ok (db, "Username already exists! Please try again.")
    | None =>
        let deptId := if vempty (departments db) then "" else deptId in
        if negb (vempty (departments db))
           && match findDepartment db deptId with
              | Some _ => false
              | None => true
              end
        then Ok (db, "Invalid department ID!")
        else
          let existingIds := map User.id (users db) in
          let prefix := if (role =? "student")%string then "STU" else "TCH" in
          newId <- generateNextId prefix existingIds ;;
          Ok (set_users
                (push_back (users db)
                   (User.new env newId username password role name email
                             phone address deptId)) db,
              (role ++ " registration successful! Your ID is: " ++ newId ++ endl
               ++ "You can now login with your credentials.")%string)
    end.

(** *** The administrator's operations *)

Definition createDepartment (db : t)
    (deptId deptName headOfDept description : string) : t * string :=
  match findDepartment db deptId with
  | Some _ => (db, "Department ID already exists!")
  | None =>
      (set_departments
         (push_back (departments db)
            (Department.mk deptId deptName headOfDept description)) db,
       "Department created successfully!")
  end.

Definition deleteDepartment (db : t) (deptId : string) : t * string :=
  let it := find_if (fun d => (Department.deptId d =? deptId)%string)
                    (departments db) in
  if (it <? List.length (departments db))%nat then
    (set_departments (erase (departments db) it) db,
     "Department deleted successfully!")
  else (db, "Department not found!").

(** The constructor gives a new semester the status [upcoming]. *)
Definition createSemester (db : t)
    (semesterId semesterName startDate endDate : string) : t * string :=
  match findSemester db semesterId with
  | Some _ => (db, "Semester ID already exists!")
  | None =>
      (set_semesters
         (push_back (semesters db)
            (Semester.mk semesterId semesterName startDate endDate "upcoming")) db,
       "Semester created successfully!")
  end.

(** [findSemester] gives a pointer to the first semester of that
    identifier; the status is written through it. *)
Definition updateSemesterStatus (db : t) (semesterId newStatus : string)
    : t * string :=
  let it := find_if (fun s => (Semester.semesterId s =? semesterId)%string)
                    (semesters db) in
  if (it <? List.length (semesters db))%nat then
    (set_semesters
       (assign (semesters db) it
          (fun s => Semester.mk (Semester.semesterId s) (Semester.semesterName s)
                                (Semester.startDate s) (Semester.endDate s)
                                newStatus)) db,
     "Semester status updated successfully!")
  else (db, "Semester not found!").

Definition deleteSemester (db : t) (semesterId : string) : t * string :=
  let it := find_if (fun s => (Semester.semesterId s =? semesterId)%string)
                    (semesters db) in
  if (it <? List.length (semesters db))%nat then
    (set_semesters (erase (semesters db) it) db,
     "Semester deleted successfully!")
  else (db, "Semester not found!").

Definition createUser (env : Env) (db : t)
    (role id username password name email : string) : t * string :=
  match findUserById db id with
  | Some _ => (db, "User ID already exists!")
  | None =>
      match findUser db username with
      | Some _ => (db, "Username already exists!")
      | None =>
          (set_users
             (push_back (users db)
                (User.new env id username password role name email "" "" "")) db,
           (role ++ " created successfully!")%string)
      end
  end.

(** The department and the semester are asked for only when there is
    one; otherwise the field of the new course stays empty. *)
Definition createCourse (db : t)
    (courseId courseName teacherId departmentId semesterId : string)
    (credits : Z) (schedule : string) (maxStudents : Z) : t * string :=
  match findCourse db courseId with
  | Some _ => (db, "Course ID already exists!")
  | None =>
      if match findUserById db teacherId with
         | Some teacher => negb (User.role teacher =? "teacher")%string
         | None => true
         end
      then (db, "Invalid teacher ID!")
      else
        let departmentId :=
          if vempty (departments db) then "" else departmentId in
        if negb (vempty (departments db))
           && match findDepartment db departmentId with
              | Some _ => false
              | None => true
              end
        then (db, "Invalid department ID!")
        else
          let semesterId := if vempty (semesters db) then "" else semesterId in
          if negb (vempty (semesters db))
             && match findSemester db semesterId with
                | Some _ => false
                | None => true
                end
          then (db, "Invalid semester ID!")
          else
            (set_courses
               (push_back (courses db)
                  (Course.mk courseId courseName teacherId departmentId
                             semesterId credits schedule maxStudents)) db,
             "Course created successfully!")
  end.

Definition deleteCourse (db : t) (courseId : string) : t * string :=
  let it := find_if (fun c => (Course.courseId c =? courseId)%string)
                    (courses db) in
  if (it <? List.length (courses db))%nat then
    (set_courses (erase (courses db) it) db, "Course deleted successfully!")
  else (db, "Course not found!").

(** *** The teacher's operations *)

(** The test that opens every operation of a teacher on a course:
    [!course || course->teacherId != currentUser->id]. *)
Definition not_own_course (db : t) (currentUser : User.t) (courseId : string)
    : bool :=
  match findCourse db courseId with
  | Some course => negb (Course.teacherId course =? User.id currentUser)%string
  | None => true
  end.

Definition createExam (db : t) (currentUser : User.t)
    (courseId examName examDate examTime examType : string) (totalMarks : Z)
    : result (t * string) :=
  if not_own_course db currentUser courseId
  then Ok (db, "Invalid course or not your course!")
  else
    let existingIds := map Exam.examId (exams db) in
    examId <- generateNextId "EX" existingIds ;;
    Ok (set_exams
          (push_back (exams db)
             (Exam.mk examId courseId examName examDate examTime examType
                      totalMarks)) db,
        ("Exam created successfully! Exam ID: " ++ examId)%string).

(** Nothing is printed when the second search fails, which the first
    one excludes. *)
Definition deleteExam (db : t) (currentUser : User.t) (examId : string)
    : t * string :=
  match findExam db examId with
  | None => (db, "Exam not found!")
  | Some exam =>
      if not_own_course db currentUser (Exam.courseId exam)
      then (db, "Not authorized to delete this exam!")
      else
        let it := find_if (fun e => (Exam.examId e =? examId)%string) (exams db) in
        if (it <? List.length (exams db))%nat then
          (set_exams (erase (exams db) it) db, "Exam deleted successfully!")
        else (db, "")
  end.

(** The constructor gives a new enrollment no grade and the status
    [enrolled]. *)
Definition enrollStudent (db : t) (currentUser : User.t)
    (courseId studentId : string) : t * string :=
  if not_own_course db currentUser courseId
  then (db, "Invalid course or not your course!")
  else
    if match findUserById db studentId with
       | Some student => negb (User.role student =? "student")%string
       | None => true
       end
    then (db, "Invalid student ID!")
    else if isStudentEnrolled db studentId courseId
    then (db, "Student already enrolled!")
    else
      (set_enrollments
         (push_back (enrollments db)
            (Enrollment.mk studentId courseId "" "enrolled")) db,
       "Student enrolled successfully!").

Definition attendanceManagement (db : t) (currentUser : User.t)
    (courseId studentId date status : string) : t * string :=
  if not_own_course db currentUser courseId
  then (db, "Invalid course or not your course!")
  else if negb (isStudentEnrolled db studentId courseId)
  then (db, "Student not enrolled in this course!")
  else
    (set_attendanceRecords
       (push_back (attendanceRecords db)
          (Attendance.mk studentId courseId date status)) db,
     "Attendance marked successfully!").

(** *** The transcript *)

(** The two totals that [printTranscript] prints, credits attempted and
    credits earned, both accumulated in [double]. *)
Definition printTranscript (db : t) (currentUser : User.t) : float * float :=
  fold_left
    (fun (totals : float * float) enrollment =>
       let (totalCredits, earnedCredits) := totals in
       match findCourse db (Enrollment.courseId enrollment) with
       | Some course =>
           let totalCredits :=
             (totalCredits + double_of_int (Course.credits course))%float in
           if negb (Enrollment.grade enrollment =? "F")%string
              && negb (empty (Enrollment.grade enrollment))
           then (totalCredits,
                 (earnedCredits + double_of_int (Course.credits course))%float)
           else (totalCredits, earnedCredits)
       | None => totals
       end)
    (getStudentEnrollments db (User.id currentUser))
    (0%float, 0%float).

(** *** Seeding

    Seven collections are cleared and filled again; the users are not
    cleared, the six seeded users are appended to them. *)
Definition seedData (env : Env) (st : state) : state :=
  let (db, fs) := st in
  let users :=
    users db ++
    [User.new env "TCH001" "teacher1" "pass123" "teacher" "Dr. John Smith"
              "john.smith@university.edu" "123-456-7890" "123 University Ave" "CSE";
     User.new env "TCH002" "teacher2" "pass123" "teacher" "Prof. Jane Doe"
              "jane.doe@university.edu" "123-456-7891" "124 University Ave" "MATH";
     User.new env "STU001" "student1" "pass123" "student" "Alice Johnson"
              "alice.j@student.edu" "123-456-7892" "125 Campus St" "CSE";
     User.new env "STU002" "student2" "pass123" "student" "Bob Wilson"
              "bob.w@student.edu" "123-456-7893" "126 Campus St" "CSE";
     User.new env "STU003" "student3" "pass123" "student" "Carol Brown"
              "carol.b@student.edu" "123-456-7894" "127 Campus St" "MATH";
     User.new env "STU004" "student4" "pass123" "student" "David Lee"
              "david.l@student.edu" "123-456-7895" "128 Campus St" "MATH"] in
  let departments :=
    [Department.mk "CSE" "Computer Science & Engineering" "Dr. Alice Smith"
                   "Computer Science Department";
     Department.mk "MATH" "Mathematics" "Dr. Bob Johnson" "Mathematics Department"] in
  let semesters :=
    [Semester.mk "FALL2025" "Fall 2025" "2025-08-15" "2025-12-15" "active";
     Semester.mk "SPRING2026" "Spring 2026" "2026-01-15" "2026-05-15" "upcoming"] in
  let courses :=
    [Course.mk "CS101" "Introduction to Computer Science" "TCH001" "CSE" "FALL2025"
               3 "Mon-Wed-Fri 9:00-10:00" 30;
     Course.mk "MATH201" "Calculus II" "TCH002" "MATH" "FALL2025"
               4 "Tue-Thu 10:00-11:30" 25] in
  let exams :=
    [Exam.mk "EX001" "CS101" "Midterm Exam" "2025-10-15" "10:00-12:00" "midterm" 100;
     Exam.mk "EX002" "CS101" "Final Exam" "2025-12-10" "14:00-17:00" "final" 150;
     Exam.mk "EX003" "MATH201" "Quiz 1" "2025-09-20" "10:00-10:30" "quiz" 25] in
  let enrollments :=
    [Enrollment.mk "STU001" "CS101" "" "enrolled";
     Enrollment.mk "STU002" "CS101" "" "enrolled";
     Enrollment.mk "STU003" "MATH201" "" "enrolled";
     Enrollment.mk "STU004" "MATH201" "" "enrolled"] in
  let grades :=
    [Grade.mk "STU001" "EX001" 85 "B+" "Good work";
     Grade.mk "STU002" "EX001" 92 "A-" "Excellent";
     Grade.mk "STU003" "EX003" 78 "B" "Satisfactory"] in
  let attendanceRecords :=
    [Attendance.mk "STU001" "CS101" "2025-08-15" "present";
     Attendance.mk "STU002" "CS101" "2025-08-15" "present";
     Attendance.mk "STU003" "MATH201" "2025-08-15" "absent"] in
  saveAllData
    (mk users departments semesters courses exams grades enrollments
        attendanceRecords, fs).

End UMSApplication.

(** ** Definitions used in the statements *)

(** *** Text *)

(** The tokens of the splitting loop, by recursion on the text: the
    fields between delimiters, without the empty field that a final
    delimiter (or an empty text) would leave at the end. *)
Fixpoint fields (d : ascii) (s : string) : list string :=
  match s with
  | EmptyString => []
  | String c r =>
      if Ascii.eqb c d then EmptyString :: fields d r
      else match fields d r with
           | [] => [String c EmptyString]
           | t :: ts => String c t :: ts
           end
  end.

(** [s] holds no [d]. *)
Fixpoint free_of (d : ascii) (s : string) : bool :=
  match s with
  | EmptyString => true
  | String c r => negb (Ascii.eqb c d) && free_of d r
  end.

(** The value is an [int]. *)
Definition is_int (z : Z) : Prop := (INT_MIN <= z <= INT_MAX)%Z.

(** [s] is made of decimal digits. *)
Fixpoint all_digits (s : string) : bool :=
  match s with
  | EmptyString => true
  | String c r =>
      match digit_of c with Some _ => all_digits r | None => false end
  end.

(** Fields joined by commas, as every [toCSV] does. *)
Fixpoint join (fs : list string) : string :=
  match fs with
  | [] => EmptyString
  | f :: rest =>
      match rest with
      | [] => f
      | _ :: _ => (f ++ String "," (join rest))%string
      end
  end.

(** No field of a record may hold the delimiter. *)
Definition comma_free (s : string) : Prop := free_of "," s = true.

(** [s.length()] as a [size_t]. *)
Definition slen (s : string) : Z := Z.of_nat (String.length s).

(** *** The allocator and the loaders *)

(** The number that [generateNextId] reads in an identifier: the
    identifier is longer than the prefix, starts with it, and [std::stoi]
    accepts what follows. *)
Definition suffix_number (prefix id : string) : option Z :=
  if ((String.length prefix <? String.length id)%nat
      && (substring 0 (String.length prefix) id =? prefix)%string)%bool
  then
    match stoi (substring (String.length prefix)
                          (String.length id - String.length prefix) id) with
    | Ok num => Some num
    | Throw _ => None
    end
  else None.

(** The largest number met by the loop of [generateNextId]. *)
Definition maxNum_of (prefix : string) (existingIds : list string) : Z :=
  fold_left (DatabaseManager.next_max prefix) existingIds 0%Z.

(** A number padded with zeros to three characters. *)
Definition zero_pad3 (number : string) : string :=
  (replicate (3 - String.length number) "0" ++ number)%string.

(** The lines a loader reads from a file: none when it does not open. *)
Definition file_lines (fs : FileSystem) (path : string) : list string :=
  match contents fs path with
  | Some text => read_all newline text
  | None => []
  end.

(** The lines a loader decodes. *)
Definition decoded_lines (lines : list string) : list string :=
  filter (fun line => negb (empty line)) lines.

(** Decoding line by line with a [fromCSV] that can throw: the records
    in the order of the lines, or the first exception. *)
Fixpoint map_throwing {T} (fromCSV : string -> result T) (lines : list string)
    : result (list T) :=
  match lines with
  | [] => Ok []
  | line :: rest =>
      x <- fromCSV line ;;
      xs <- map_throwing fromCSV rest ;;
      Ok (x :: xs)
  end.

(** A line with fewer than [n] comma-separated fields. *)
Definition short_line (n : nat) (line : string) : Prop :=
  (List.length (split_csv line) < n)%nat.

(** The file is missing, or opens and holds nothing. *)
Definition missing_or_empty (fs : FileSystem) (path : string) : Prop :=
  contents fs path = None \/ contents fs path = Some EmptyString.

(** *** Grades *)

(** The key of a grade: the student and the exam. *)
Definition grade_key (g : Grade.t) : string * string :=
  (Grade.studentId g, Grade.examId g).

(** At most one grade for a student and an exam. *)
Definition unique_grades (gs : list Grade.t) : Prop :=
  NoDup (map grade_key gs).

(** The grades of a student for an exam. *)
Definition records_of (studentId examId : string) (gs : list Grade.t)
    : list Grade.t :=
  filter (UMSApplication.same_grade_key studentId examId) gs.

(** The checks of [enterGrades] all pass: the course exists and is
    taught by the current user, the exam exists and belongs to the
    course, the student is enrolled, the marks are within the exam's
    total. *)
Definition accepted (db : DatabaseManager.t) (currentUser : User.t)
    (courseId examId studentId : string) (exam : Exam.t) (marks : Z) : Prop :=
  (exists course, DatabaseManager.findCourse db courseId = Some course /\
                  Course.teacherId course = User.id currentUser) /\
  DatabaseManager.findExam db examId = Some exam /\
  Exam.courseId exam = courseId /\
  DatabaseManager.isStudentEnrolled db studentId courseId = true /\
  (0 <= marks <= Exam.totalMarks exam)%Z.

(** *** Concrete databases and files for the examples *)

Definition empty_db : DatabaseManager.t :=
  DatabaseManager.mk [] [] [] [] [] [] [] [].

(** A data directory that holds one file. *)
Definition single_file (path text : string) : FileSystem :=
  mkFS (fun p => if (p =? path)%string then Some text else None) (fun _ => true).

(** A hash and a clock for the examples. *)
Definition sample_env : Env := mkEnv (fun _ => 42%Z) 1700000000%Z.

(** A teacher, a course, an exam, an enrolled student and a first grade. *)
Definition sample_teacher : User.t :=
  User.mk "TCH001" "teacher1" "0" "teacher" "Dr. Smith" "smith@university.edu"
          "" "" "D1" "0".

Definition sample_exam : Exam.t :=
  Exam.mk "EX001" "CS101" "Midterm" "2025-10-15" "10:00-12:00" "midterm" 100.

Definition sample_db : DatabaseManager.t :=
  DatabaseManager.mk
    [sample_teacher] [] []
    [Course.mk "CS101" "Programming" "TCH001" "D1" "S1" 3 "Mon 9:00" 30]
    [sample_exam]
    [Grade.mk "STU002" "EX001" 92 "A-" "Excellent";
     Grade.mk "STU001" "EX001" 85 "B+" "Good work"]
    [Enrollment.mk "STU001" "CS101" "" "enrolled";
     Enrollment.mk "STU002" "CS101" "" "enrolled"]
    [].

(** *** The fields of a line *)

(** What each [toCSV] joins with commas. *)
Definition Department_fields (d : Department.t) : list string :=
  [Department.deptId d; Department.deptName d; Department.headOfDept d;
   Department.description d].

Definition Semester_fields (s : Semester.t) : list string :=
  [Semester.semesterId s; Semester.semesterName s; Semester.startDate s;
   Semester.endDate s; Semester.status s].

Definition Course_fields (c : Course.t) : list string :=
  [Course.courseId c; Course.courseName c; Course.teacherId c;
   Course.departmentId c; Course.semesterId c; to_string (Course.credits c);
   Course.schedule c; to_string (Course.maxStudents c)].

Definition Exam_fields (e : Exam.t) : list string :=
  [Exam.examId e; Exam.courseId e; Exam.examName e; Exam.examDate e;
   Exam.examTime e; Exam.examType e; to_string (Exam.totalMarks e)].

Definition Grade_fields (g : Grade.t) : list string :=
  [Grade.studentId g; Grade.examId g; to_string (Grade.marksObtained g);
   Grade.letterGrade g; Grade.comments g].

Definition User_fields (u : User.t) : list string :=
  [User.id u; User.username u; User.passwordHash u; User.role u; User.name u;
   User.email u; User.phone u; User.address u; User.departmentId u;
   User.dateJoined u].

Definition Enrollment_fields (e : Enrollment.t) : list string :=
  [Enrollment.studentId e; Enrollment.courseId e; Enrollment.grade e;
   Enrollment.status e].

Definition Attendance_fields (a : Attendance.t) : list string :=
  [Attendance.studentId a; Attendance.courseId a; Attendance.date a;
   Attendance.status a].

(** Fields that a line of a CSV file carries unharmed: none holds a
    comma and the last one is not empty. *)
Definition csv_safe (fs : list string) : Prop :=
  Forall comma_free fs /\ last fs EmptyString <> EmptyString.

Definition newline_free (s : string) : Prop := free_of newline s = true.

(** Fields that a file carries unharmed: none holds a line break
    either. *)
Definition file_safe (fs : list string) : Prop :=
  csv_safe fs /\ Forall newline_free fs.

(** Every record of the database can be written and read back. *)
Definition storable (db : DatabaseManager.t) : Prop :=
  Forall (fun u => file_safe (User_fields u)) (DatabaseManager.users db) /\
  Forall (fun d => file_safe (Department_fields d)) (DatabaseManager.departments db) /\
  Forall (fun s => file_safe (Semester_fields s)) (DatabaseManager.semesters db) /\
  Forall (fun c => file_safe (Course_fields c) /\ is_int (Course.credits c) /\
                   is_int (Course.maxStudents c)) (DatabaseManager.courses db) /\
  Forall (fun e => file_safe (Exam_fields e) /\ is_int (Exam.totalMarks e))
         (DatabaseManager.exams db) /\
  Forall (fun g => file_safe (Grade_fields g) /\ is_int (Grade.marksObtained g))
         (DatabaseManager.grades db) /\
  Forall (fun e => file_safe (Enrollment_fields e)) (DatabaseManager.enrollments db) /\
  Forall (fun a => file_safe (Attendance_fields a))
         (DatabaseManager.attendanceRecords db).

(** The eight data files. *)
Definition data_files : list string :=
  [DatabaseManager.USERS_FILE; DatabaseManager.DEPARTMENTS_FILE;
   DatabaseManager.SEMESTERS_FILE; DatabaseManager.COURSES_FILE;
   DatabaseManager.EXAMS_FILE; DatabaseManager.GRADES_FILE;
   DatabaseManager.ENROLLMENTS_FILE; DatabaseManager.ATTENDANCE_FILE].

Definition all_writable (fs : FileSystem) : Prop :=
  forall path, In path data_files -> writable fs path = true.

(** The text of a file written line by line, each line ended by
    [std::endl]. *)
Definition file_text (lines : list string) : string :=
  String.concat "" (map (fun l => (l ++ endl)%string) lines).

(** A data directory in which every file can be created. *)
Definition empty_directory : FileSystem :=
  mkFS (fun _ => None) (fun _ => true).

(** *** Invariants of the collections *)

(** No two records of [v] have the same [key]. *)
Definition unique_by {A} (key : A -> string) (v : list A) : Prop :=
  NoDup (map key v).

(** The first course of the identifier exists and is taught by the
    user. *)
Definition teaches (db : DatabaseManager.t) (user : User.t) (courseId : string)
    : Prop :=
  exists course, DatabaseManager.findCourse db courseId = Some course /\
                 Course.teacherId course = User.id user.

(** The pairs of a student and a course with an enrollment of status
    [enrolled]. *)
Definition active_pairs (es : list Enrollment.t) : list (string * string) :=
  map (fun e => (Enrollment.studentId e, Enrollment.courseId e))
      (filter (fun e => (Enrollment.status e =? "enrolled")%string) es).

(** The place of a letter on the scale, [F] lowest. *)
Definition grade_rank (letter : string) : nat :=
  if (letter =? "A+")%string then 9
  else if (letter =? "A")%string then 8
  else if (letter =? "A-")%string then 7
  else if (letter =? "B+")%string then 6
  else if (letter =? "B")%string then 5
  else if (letter =? "B-")%string then 4
  else if (letter =? "C+")%string then 3
  else if (letter =? "C")%string then 2
  else if (letter =? "C-")%string then 1
  else 0.

(** *** Binary64 arithmetic *)

Local Open Scope Z_scope.

(** What a location says of a remainder [r] of a division by [D]. *)
Definition loc_ok (l : location) (r D : Z) : Prop :=
  match l with
  | loc_Exact => r = 0
  | loc_Inexact c => r <> 0 /\ (2 * r ?= D) = c
  end.

(** The record holds the quotient of [N] by [D] and the place of the
    remainder. *)
Definition rec_ok (mrs : shr_record) (N D : Z) : Prop :=
  0 < D /\ 0 <= shr_m mrs /\
  0 <= N - shr_m mrs * D < D /\
  loc_ok (loc_of_shr_record mrs) (N - shr_m mrs * D) D.

(** [RN_spec A B f]: [f] is [A / B] rounded to nearest on 53 bits.  With
    [2 ^ s] the scale that brings [A / B] between [2 ^ 52] and [2 ^ 53],
    the mantissa [Xr] is the integer below or above [A * 2 ^ s / B], at
    most one half away from it, and that integer itself when the
    quotient is one; a mantissa of [2 ^ 53] moves to the next exponent. *)
Definition RN_spec (A B : Z) (f : spec_float) : Prop :=
  exists s Xr,
    1 <= s <= 200 /\
    2 ^ 52 <= Xr <= 2 ^ 53 /\
    2 ^ 52 <= (A * 2 ^ s) / B < 2 ^ 53 /\
    (A * 2 ^ s) / B <= Xr <= (A * 2 ^ s) / B + 1 /\
    2 * Xr * B - 2 * (A * 2 ^ s) <= B /\
    2 * (A * 2 ^ s) - 2 * Xr * B <= B /\
    ((A * 2 ^ s) mod B = 0 -> Xr = (A * 2 ^ s) / B) /\
    f = if Xr <? 2 ^ 53 then S754_finite false (Z.to_pos Xr) (- s)
        else S754_finite false (Z.to_pos (2 ^ 52)) (1 - s).

(** One hundred: [100 * 2 ^ 46] at exponent [-46]. *)
Definition sf_100 : spec_float := S754_finite false 7036874417766400 (-46).

(** [(double)z], in the binary64 specification. *)
Definition sf_of_int (z : Z) : spec_float := binary_normalize prec emax z 0 false.

(** [(double)m / t * 100], in the binary64 specification. *)
Definition sf_percentage (m t : Z) : spec_float :=
  SFmul prec emax (SFdiv prec emax (sf_of_int m) (sf_of_int t)) sf_100.

(** The percentage of the specification, [marks / totalMarks * 100], as
    a rational number. *)
Definition exact_percentage (marks totalMarks : Z) : Q :=
  (marks # Z.to_pos totalMarks) * 100.

(** The ladder of the specification: descending thresholds, each band
    including its lower bound. *)
Definition ladder (percentage : Q) : string :=
  if Qle_bool 90 percentage then "A+"
  else if Qle_bool 85 percentage then "A"
  else if Qle_bool 80 percentage then "A-"
  else if Qle_bool 75 percentage then "B+"
  else if Qle_bool 70 percentage then "B"
  else if Qle_bool 65 percentage then "B-"
  else if Qle_bool 60 percentage then "C+"
  else if Qle_bool 55 percentage then "C"
  else if Qle_bool 50 percentage then "C-"
  else "F".

Local Close Scope Z_scope.

(** * Properties *)

(** ** The splitting loop *)

Lemma extract_delim d s t r :
  extract d s = (t, Some r) ->
  fields d s = t :: fields d r /\ (String.length r < String.length s)%nat.
Proof.
  revert t r. induction s as [|c s IH]; intros t r; simpl.
  - discriminate.
  - destruct (Ascii.eqb c d).
    + intros [= <- <-]. split; [reflexivity | lia].
    + destruct (extract d s) as [t' k] eqn:E. intros [= <- ->].
      destruct (IH _ _ eq_refl) as [-> Hlen]. split; [reflexivity | lia].
Qed.

Lemma extract_eof d s t :
  s <> EmptyString -> extract d s = (t, None) -> fields d s = [t].
Proof.
  revert t. induction s as [|c s IH]; intros t Hne; simpl.
  - congruence.
  - destruct (Ascii.eqb c d); [discriminate|].
    destruct (extract d s) as [t' k] eqn:E. intros [= <- ->].
    destruct s as [|c' s'].
    + simpl in E. injection E as <-. reflexivity.
    + rewrite (IH t'); [reflexivity | discriminate | reflexivity].
Qed.

(** With fuel beyond the length of the text the loop reads all of it. *)
Lemma getline_loop_fields d fuel : forall s v,
  (String.length s < fuel)%nat ->
  getline_loop fuel (open s) d v = v ++ fields d s.
Proof.
  induction fuel as [|k IH]; intros s v Hlen; [lia|].
  destruct s as [|c s].
  - simpl. now rewrite List.app_nil_r.
  - cbn [getline_loop]. unfold getline, open. cbn [eofbit failbit buf orb].
    destruct (extract d (String c s)) as [t [r|]] eqn:E; cbn [failbit].
    + apply extract_delim in E as [-> Hr]. unfold push_back.
      change (mkStream r false false) with (open r).
      rewrite IH by (simpl in *; lia). now rewrite <- List.app_assoc.
    + apply extract_eof in E as ->; [|discriminate].
      destruct k; reflexivity.
Qed.

Lemma read_all_fields d s : read_all d s = fields d s.
Proof. unfold read_all. now rewrite getline_loop_fields by lia. Qed.

(** More fuel than [read_all] gives changes nothing. *)
Lemma getline_loop_enough d s fuel :
  (String.length s < fuel)%nat ->
  getline_loop fuel (open s) d [] = read_all d s.
Proof. intros H. now rewrite getline_loop_fields, read_all_fields. Qed.

Lemma fields_free d s :
  free_of d s = true -> s <> EmptyString -> fields d s = [s].
Proof.
  induction s as [|c s IH]; simpl; [congruence|].
  destruct (Ascii.eqb c d); simpl; [discriminate|]. intros Hf _.
  destruct s as [|c' s']; [reflexivity|].
  rewrite IH; [reflexivity | assumption | discriminate].
Qed.

Lemma fields_cons d s rest :
  free_of d s = true ->
  fields d (s ++ String d rest) = s :: fields d rest.
Proof.
  induction s as [|c s IH]; simpl.
  - now rewrite Ascii.eqb_refl.
  - destruct (Ascii.eqb c d); simpl; [discriminate|]. intros Hf.
    now rewrite IH.
Qed.

(** A final delimiter leaves no empty last field. *)
Lemma fields_last_empty d s :
  free_of d s = true -> fields d (s ++ String d EmptyString) = [s].
Proof. intros H. now rewrite fields_cons. Qed.

(** The loop on small texts: an empty field inside a line is kept, a
    final one is lost. *)
Example read_all_trailing : read_all "," "a,b," = ["a"; "b"].
Proof. reflexivity. Qed.

Example read_all_inner : read_all "," "a,,b" = ["a"; ""; "b"].
Proof. reflexivity. Qed.

Example read_all_empty : read_all "," "" = [].
Proof. reflexivity. Qed.

(** ** Decimal numerals: [std::to_string] and [std::stoi] *)

Lemma digit_char c d :
  digit_of c = Some d ->
  isspace c = false /\ c <> "-"%char /\ c <> "+"%char /\ Ascii.eqb c "," = false.
Proof.
  destruct c as [[] [] [] [] [] [] [] []]; vm_compute; intros [=];
    repeat split; discriminate.
Qed.

Lemma digits_value_step c r acc d :
  digit_of c = Some d -> digits_value (String c r) acc = digits_value r (10 * acc + d).
Proof. intros H. simpl. now rewrite H. Qed.

(** Evaluates the digit that [digits_value_step] leaves in the goal. *)
Ltac eval_digit :=
  match goal with
  | |- context [(Z.of_nat ?n - 48)%Z] =>
      let v := eval vm_compute in (Z.of_nat n - 48)%Z in
      change (Z.of_nat n - 48)%Z with v
  end.

Lemma string_of_uint_digits d : all_digits (NilEmpty.string_of_uint d) = true.
Proof. induction d; simpl; auto. Qed.

Lemma digits_value_acc d : forall acc,
  digits_value (NilEmpty.string_of_uint d) (Z.pos acc) = Z.pos (Pos.of_uint_acc d acc).
Proof.
  induction d; intros acc; cbn [NilEmpty.string_of_uint Pos.of_uint_acc];
    [reflexivity | ..];
    erewrite digits_value_step by reflexivity; eval_digit;
    rewrite <- IHd; f_equal; lia.
Qed.

Lemma digits_value_uint d :
  digits_value (NilEmpty.string_of_uint d) 0 = Z.of_N (Pos.of_uint d).
Proof.
  induction d; cbn [NilEmpty.string_of_uint Pos.of_uint];
    [reflexivity | ..];
    erewrite digits_value_step by reflexivity; eval_digit;
    [exact IHd | ..]; cbn [Z.of_N]; rewrite <- digits_value_acc; f_equal.
Qed.

Lemma all_digits_free s : all_digits s = true -> free_of "," s = true.
Proof.
  induction s as [|c s IH]; simpl; [reflexivity|].
  destruct (digit_of c) eqn:E; [|discriminate].
  apply digit_char in E as (_ & _ & _ & ->). exact IH.
Qed.

(** On a numeral, [stoi] is the value of the digits, if it fits. *)
Lemma stoi_digits s :
  all_digits s = true -> s <> EmptyString ->
  stoi s = if in_int_range (digits_value s 0) then Ok (digits_value s 0)
           else Throw out_of_range.
Proof.
  destruct s as [|c r]; [congruence|]. intros H _. simpl in H.
  destruct (digit_of c) eqn:E; [|discriminate]. clear H.
  destruct c as [[] [] [] [] [] [] [] []]; try discriminate E; reflexivity.
Qed.

Lemma stoi_minus_digits s :
  all_digits s = true -> s <> EmptyString ->
  stoi (String "-" s) =
    if in_int_range (- digits_value s 0) then Ok (- digits_value s 0)%Z
    else Throw out_of_range.
Proof.
  destruct s as [|c r]; [congruence|]. intros H _. simpl in H.
  destruct (digit_of c) eqn:E; [|discriminate]. clear H.
  destruct c as [[] [] [] [] [] [] [] []]; try discriminate E; reflexivity.
Qed.

Lemma to_string_pos p :
  to_string (Z.pos p) = NilEmpty.string_of_uint (Pos.to_uint p).
Proof.
  unfold to_string. simpl.
  pose proof (DecimalPos.Unsigned.to_uint_nonnil p).
  now destruct (Pos.to_uint p).
Qed.

Lemma to_string_neg p :
  to_string (Z.neg p) = String "-" (NilEmpty.string_of_uint (Pos.to_uint p)).
Proof.
  unfold to_string. simpl.
  pose proof (DecimalPos.Unsigned.to_uint_nonnil p).
  now destruct (Pos.to_uint p).
Qed.

Lemma string_of_uint_nonempty d :
  d <> Decimal.Nil -> NilEmpty.string_of_uint d <> EmptyString.
Proof. destruct d; simpl; congruence. Qed.

Lemma in_int_range_true z : is_int z -> in_int_range z = true.
Proof. unfold is_int, in_int_range. intros H. apply andb_true_intro. split; lia. Qed.

(** Reading back what was printed. *)
Lemma stoi_to_string z : is_int z -> stoi (to_string z) = Ok z.
Proof.
  intros Hz. destruct z as [|p|p].
  - reflexivity.
  - rewrite to_string_pos, stoi_digits.
    + rewrite digits_value_uint, DecimalPos.Unsigned.of_to. simpl Z.of_N.
      now rewrite in_int_range_true.
    + apply string_of_uint_digits.
    + apply string_of_uint_nonempty, DecimalPos.Unsigned.to_uint_nonnil.
  - rewrite to_string_neg, stoi_minus_digits.
    + rewrite digits_value_uint, DecimalPos.Unsigned.of_to. simpl Z.of_N.
      change (- Z.pos p)%Z with (Z.neg p). now rewrite in_int_range_true.
    + apply string_of_uint_digits.
    + apply string_of_uint_nonempty, DecimalPos.Unsigned.to_uint_nonnil.
Qed.

Lemma to_string_free z : free_of "," (to_string z) = true.
Proof.
  destruct z as [|p|p].
  - reflexivity.
  - rewrite to_string_pos. apply all_digits_free, string_of_uint_digits.
  - rewrite to_string_neg. simpl. apply all_digits_free, string_of_uint_digits.
Qed.

Lemma to_string_nonempty z : to_string z <> EmptyString.
Proof.
  destruct z as [|p|p].
  - discriminate.
  - rewrite to_string_pos.
    apply string_of_uint_nonempty, DecimalPos.Unsigned.to_uint_nonnil.
  - rewrite to_string_neg. discriminate.
Qed.

(** [std::stoi] on small texts. *)
Example stoi_prefix : stoi " -12abc" = Ok (-12)%Z.
Proof. reflexivity. Qed.

Example stoi_no_digit : stoi "abc" = Throw invalid_argument.
Proof. reflexivity. Qed.

Example stoi_too_large : stoi "2147483648" = Throw out_of_range.
Proof. reflexivity. Qed.

Example to_string_small : to_string (-120)%Z = "-120" /\ to_string 0 = "0".
Proof. split; reflexivity. Qed.

(** ** The CSV codec *)

Lemma comma_free_to_string z : comma_free (to_string z).
Proof. apply to_string_free. Qed.

(** Splitting a joined line gives the fields back when the last one is
    not empty ... *)
Lemma fields_join fs :
  Forall comma_free fs -> last fs "x" <> EmptyString ->
  fields "," (join fs) = fs.
Proof.
  induction fs as [|f rest IH]; intros Hall Hlast; [reflexivity|].
  inversion Hall as [|? ? Hf Hrest]; subst.
  destruct rest as [|g rest'].
  - simpl in *. now apply fields_free.
  - change (join (f :: g :: rest')) with (f ++ String "," (join (g :: rest')))%string.
    rewrite fields_cons by exact Hf. f_equal. apply IH; assumption.
Qed.

(** ... and loses the last field when it is empty. *)
Lemma fields_join_empty_last fs :
  Forall comma_free fs -> fields "," (join (fs ++ [EmptyString])) = fs.
Proof.
  induction fs as [|f rest IH]; intros Hall; [reflexivity|].
  inversion Hall as [|? ? Hf Hrest]; subst.
  destruct rest as [|g rest'].
  - simpl. rewrite fields_cons by exact Hf. reflexivity.
  - change (join ((f :: g :: rest') ++ [EmptyString]))
      with (f ++ String "," (join ((g :: rest') ++ [EmptyString])))%string.
    rewrite fields_cons by exact Hf. f_equal. now apply IH.
Qed.

(** Rewrites the split of a [toCSV] line whose fields are [fs]. *)
Ltac split_line fs :=
  unfold split_csv; rewrite read_all_fields;
  change (fields "," _) with (fields "," (join fs));
  rewrite fields_join
    by (try (simpl; apply to_string_nonempty);
        repeat constructor; try assumption; apply comma_free_to_string).

Lemma Department_roundtrip d :
  comma_free (Department.deptId d) -> comma_free (Department.deptName d) ->
  comma_free (Department.headOfDept d) -> comma_free (Department.description d) ->
  Department.description d <> EmptyString ->
  Department.fromCSV (Department.toCSV d) = d.
Proof.
  destruct d as [a b c e]; simpl. intros Ha Hb Hc He Hne.
  unfold Department.fromCSV, Department.toCSV. split_line [a; b; c; e].
  reflexivity.
Qed.

Lemma Semester_roundtrip s :
  comma_free (Semester.semesterId s) -> comma_free (Semester.semesterName s) ->
  comma_free (Semester.startDate s) -> comma_free (Semester.endDate s) ->
  comma_free (Semester.status s) -> Semester.status s <> EmptyString ->
  Semester.fromCSV (Semester.toCSV s) = s.
Proof.
  destruct s as [a b c e f]; simpl. intros Ha Hb Hc He Hf Hne.
  unfold Semester.fromCSV, Semester.toCSV. split_line [a; b; c; e; f].
  reflexivity.
Qed.

(** The last field of a course and of an exam is a number, never empty. *)
Lemma Course_roundtrip c :
  comma_free (Course.courseId c) -> comma_free (Course.courseName c) ->
  comma_free (Course.teacherId c) -> comma_free (Course.departmentId c) ->
  comma_free (Course.semesterId c) -> comma_free (Course.schedule c) ->
  is_int (Course.credits c) -> is_int (Course.maxStudents c) ->
  Course.fromCSV (Course.toCSV c) = Ok c.
Proof.
  destruct c as [a b c' e f cr g ms]; simpl. intros Ha Hb Hc He Hf Hg Hcr Hms.
  unfold Course.fromCSV, Course.toCSV.
  split_line [a; b; c'; e; f; to_string cr; g; to_string ms].
  cbn [tok nth Nat.leb List.length]. rewrite !stoi_to_string by assumption. reflexivity.
Qed.

Lemma Exam_roundtrip e :
  comma_free (Exam.examId e) -> comma_free (Exam.courseId e) ->
  comma_free (Exam.examName e) -> comma_free (Exam.examDate e) ->
  comma_free (Exam.examTime e) -> comma_free (Exam.examType e) ->
  is_int (Exam.totalMarks e) ->
  Exam.fromCSV (Exam.toCSV e) = Ok e.
Proof.
  destruct e as [a b c d f g tm]; simpl. intros Ha Hb Hc Hd Hf Hg Htm.
  unfold Exam.fromCSV, Exam.toCSV.
  split_line [a; b; c; d; f; g; to_string tm].
  cbn [tok nth Nat.leb List.length]. rewrite stoi_to_string by assumption. reflexivity.
Qed.

Lemma Grade_roundtrip g :
  comma_free (Grade.studentId g) -> comma_free (Grade.examId g) ->
  comma_free (Grade.letterGrade g) -> comma_free (Grade.comments g) ->
  is_int (Grade.marksObtained g) -> Grade.comments g <> EmptyString ->
  Grade.fromCSV (Grade.toCSV g) = Ok g.
Proof.
  destruct g as [a b m l c]; simpl. intros Ha Hb Hl Hc Hm Hne.
  unfold Grade.fromCSV, Grade.toCSV. split_line [a; b; to_string m; l; c].
  cbn [tok nth Nat.leb List.length]. rewrite stoi_to_string by assumption. reflexivity.
Qed.

(** A grade without comments is written with a final comma, read back
    as four fields, and decoded as the empty record. *)
Lemma Grade_roundtrip_no_comments g :
  comma_free (Grade.studentId g) -> comma_free (Grade.examId g) ->
  comma_free (Grade.letterGrade g) -> Grade.comments g = EmptyString ->
  Grade.fromCSV (Grade.toCSV g) = Ok Grade.default.
Proof.
  destruct g as [a b m l c]; simpl. intros Ha Hb Hl ->.
  unfold Grade.fromCSV, Grade.toCSV, split_csv. rewrite read_all_fields.
  change (fields "," _)
    with (fields "," (join ([a; b; to_string m; l] ++ [EmptyString]))).
  rewrite fields_join_empty_last
    by (repeat constructor; try assumption; apply comma_free_to_string).
  reflexivity.
Qed.

Lemma User_roundtrip u :
  comma_free (User.id u) -> comma_free (User.username u) ->
  comma_free (User.passwordHash u) -> comma_free (User.role u) ->
  comma_free (User.name u) -> comma_free (User.email u) ->
  comma_free (User.phone u) -> comma_free (User.address u) ->
  comma_free (User.departmentId u) -> comma_free (User.dateJoined u) ->
  User.dateJoined u <> EmptyString ->
  User.fromCSV (User.toCSV u) = u.
Proof.
  destruct u as [a b c d e f g h i j]; simpl. intros Ha Hb Hc Hd He Hf Hg Hh Hi Hj Hne.
  unfold User.fromCSV, User.toCSV. split_line [a; b; c; d; e; f; g; h; i; j].
  reflexivity.
Qed.

Lemma Enrollment_roundtrip e :
  comma_free (Enrollment.studentId e) -> comma_free (Enrollment.courseId e) ->
  comma_free (Enrollment.grade e) -> comma_free (Enrollment.status e) ->
  Enrollment.status e <> EmptyString ->
  Enrollment.fromCSV (Enrollment.toCSV e) = e.
Proof.
  destruct e as [a b c d]; simpl. intros Ha Hb Hc Hd Hne.
  unfold Enrollment.fromCSV, Enrollment.toCSV. split_line [a; b; c; d].
  reflexivity.
Qed.

Lemma Attendance_roundtrip r :
  comma_free (Attendance.studentId r) -> comma_free (Attendance.courseId r) ->
  comma_free (Attendance.date r) -> comma_free (Attendance.status r) ->
  Attendance.status r <> EmptyString ->
  Attendance.fromCSV (Attendance.toCSV r) = r.
Proof.
  destruct r as [a b c d]; simpl. intros Ha Hb Hc Hd Hne.
  unfold Attendance.fromCSV, Attendance.toCSV. split_line [a; b; c; d].
  reflexivity.
Qed.

(** C1: a grade entered without comments (the prompt calls them
    optional, the constructor defaults them to the empty string) does not
    survive encoding and decoding: every field of it is comma free, yet
    [Grade::fromCSV(g.toCSV())] is the empty record and not [g]. *)
Theorem Grade_roundtrip_fails_without_comments :
  let g := Grade.mk "STU001" "EX001" 85 "B+" "" in
  Grade.toCSV g = "STU001,EX001,85,B+," /\
  split_csv (Grade.toCSV g) = ["STU001"; "EX001"; "85"; "B+"] /\
  Grade.fromCSV (Grade.toCSV g) = Ok Grade.default /\
  Grade.fromCSV (Grade.toCSV g) <> Ok g.
Proof. repeat split; try reflexivity. discriminate. Qed.

(** ** How long a printed number is *)

Lemma digit_range c d : digit_of c = Some d -> (0 <= d <= 9)%Z.
Proof.
  unfold digit_of.
  destruct (48 <=? nat_of_ascii c)%nat eqn:E1; [|discriminate].
  destruct (nat_of_ascii c <=? 57)%nat eqn:E2; [|discriminate].
  intros [= <-]. apply Nat.leb_le in E1, E2. lia.
Qed.

Lemma digits_value_upper s : forall acc,
  all_digits s = true -> (0 <= acc)%Z ->
  (digits_value s acc < (acc + 1) * 10 ^ slen s)%Z.
Proof.
  unfold slen. induction s as [|c r IH]; intros acc Hd Hacc.
  - simpl. lia.
  - simpl in Hd. destruct (digit_of c) as [d|] eqn:E; [|discriminate].
    rewrite (digits_value_step _ _ _ _ E).
    pose proof (digit_range _ _ E) as Hr.
    specialize (IH (10 * acc + d)%Z Hd ltac:(lia)).
    cbn [String.length]. rewrite Nat2Z.inj_succ, Z.pow_succ_r by lia.
    assert (0 < 10 ^ Z.of_nat (String.length r))%Z by (apply Z.pow_pos_nonneg; lia).
    nia.
Qed.

Lemma of_uint_acc_lower d : forall acc,
  (Z.pos acc * 10 ^ slen (NilEmpty.string_of_uint d) <= Z.pos (Pos.of_uint_acc d acc))%Z.
Proof.
  unfold slen.
  induction d; intros acc; cbn [NilEmpty.string_of_uint Pos.of_uint_acc String.length];
    [simpl; lia | ..];
    rewrite Nat2Z.inj_succ, Z.pow_succ_r by lia;
    match goal with
    | |- (_ <= Z.pos (Pos.of_uint_acc _ ?a))%Z => specialize (IHd a)
    end;
    assert (0 < 10 ^ Z.of_nat (String.length (NilEmpty.string_of_uint d)))%Z
      by (apply Z.pow_pos_nonneg; lia);
    nia.
Qed.

(** The numeral of a positive number has no leading zero. *)
Lemma to_uint_no_leading_zero p d : Pos.to_uint p <> Decimal.D0 d.
Proof.
  intros E.
  pose proof (DecimalPos.Unsigned.to_of (Pos.to_uint p)) as H.
  rewrite DecimalPos.Unsigned.of_to in H. simpl in H.
  rewrite E in H. rewrite DecimalFacts.unorm_D0 in H.
  unfold Decimal.unorm in H.
  destruct (Decimal.nzhead d) eqn:Hd; try discriminate H.
  - injection H as ->. exact (DecimalPos.Unsigned.to_uint_nonzero p E).
  - exact (DecimalFacts.nzhead_nonzero d _ Hd).
Qed.

Lemma to_uint_lower p :
  (10 ^ (slen (NilEmpty.string_of_uint (Pos.to_uint p)) - 1) <= Z.pos p)%Z.
Proof.
  pose proof (DecimalPos.Unsigned.of_to p) as Hv.
  pose proof (to_uint_no_leading_zero p) as H0.
  pose proof (DecimalPos.Unsigned.to_uint_nonnil p) as Hn.
  destruct (Pos.to_uint p) as [|d|d|d|d|d|d|d|d|d|d];
    [congruence | now elim (H0 d) | ..];
    cbn [Pos.of_uint] in Hv; injection Hv as Hv; rewrite <- Hv;
    unfold slen; cbn [NilEmpty.string_of_uint String.length];
    rewrite Nat2Z.inj_succ;
    match goal with
    | |- (_ <= Z.pos (Pos.of_uint_acc _ ?a))%Z =>
        pose proof (of_uint_acc_lower d a) as Hl
    end;
    unfold slen in Hl;
    replace (Z.succ (Z.of_nat (String.length (NilEmpty.string_of_uint d))) - 1)%Z
      with (Z.of_nat (String.length (NilEmpty.string_of_uint d))) by lia;
    assert (0 < 10 ^ Z.of_nat (String.length (NilEmpty.string_of_uint d)))%Z
      by (apply Z.pow_pos_nonneg; lia);
    nia.
Qed.

Lemma to_uint_upper p :
  (Z.pos p < 10 ^ slen (NilEmpty.string_of_uint (Pos.to_uint p)))%Z.
Proof.
  pose proof (digits_value_upper (NilEmpty.string_of_uint (Pos.to_uint p)) 0
                (string_of_uint_digits _) ltac:(lia)) as H.
  rewrite digits_value_uint, DecimalPos.Unsigned.of_to in H. simpl Z.of_N in H. lia.
Qed.

(** A positive [int] prints as one to ten digits; four or more from 1000 on. *)
Lemma to_string_length_pos z :
  (0 < z <= INT_MAX)%Z ->
  (1 <= slen (to_string z) <= 10)%Z /\
  (z < 1000 -> slen (to_string z) <= 3)%Z /\
  (1000 <= z -> 4 <= slen (to_string z))%Z.
Proof.
  intros Hz. destruct z as [|p|p]; try lia. rewrite to_string_pos.
  pose proof (to_uint_lower p) as Hl. pose proof (to_uint_upper p) as Hu.
  set (n := slen (NilEmpty.string_of_uint (Pos.to_uint p))) in *.
  assert (0 <= n)%Z by (unfold n, slen; lia).
  unfold INT_MAX in Hz.
  assert (Hlow : (1 <= n)%Z).
  { destruct (Z.eq_dec n 0) as [E|]; [|lia]. rewrite E in Hu. simpl in Hu. lia. }
  assert (Hhigh : (n <= 10)%Z).
  { destruct (Z_le_gt_dec n 10) as [|G]; [assumption|].
    assert (10 ^ 10 <= 10 ^ (n - 1))%Z by (apply Z.pow_le_mono_r; lia). lia. }
  repeat split; try assumption.
  - intros Hs. destruct (Z_le_gt_dec n 3) as [|G]; [assumption|].
    assert (10 ^ 3 <= 10 ^ (n - 1))%Z by (apply Z.pow_le_mono_r; lia). lia.
  - intros Hs. destruct (Z_le_gt_dec 4 n) as [|G]; [assumption|].
    assert (10 ^ n <= 10 ^ 3)%Z by (apply Z.pow_le_mono_r; lia). lia.
Qed.

(** ** The identifier allocator *)

Lemma stoi_is_int s z : stoi s = Ok z -> is_int z.
Proof.
  unfold stoi.
  destruct (match skip_space s with
            | String "-" r => (true, r)
            | String "+" r => (false, r)
            | _ => (false, skip_space s)
            end) as [neg s2].
  destruct (starts_with_digit s2); [|discriminate].
  destruct (in_int_range _) eqn:E; [|discriminate].
  intros [= <-]. unfold in_int_range in E. apply andb_prop in E as [E1 E2].
  unfold is_int. lia.
Qed.

Lemma next_max_bounds prefix m id :
  (0 <= m <= INT_MAX)%Z ->
  (m <= DatabaseManager.next_max prefix m id <= INT_MAX)%Z.
Proof.
  intros Hm. unfold DatabaseManager.next_max.
  destruct (_ && _)%bool; [|lia].
  destruct (stoi _) as [num|e] eqn:E; simpl; [|lia].
  apply stoi_is_int in E. unfold is_int in E. lia.
Qed.

Lemma fold_next_max_bounds prefix ids : forall m,
  (0 <= m <= INT_MAX)%Z ->
  (m <= fold_left (DatabaseManager.next_max prefix) ids m <= INT_MAX)%Z.
Proof.
  induction ids as [|id ids IH]; intros m Hm; simpl; [lia|].
  pose proof (next_max_bounds prefix m id Hm).
  specialize (IH (DatabaseManager.next_max prefix m id) ltac:(lia)). lia.
Qed.

Lemma maxNum_of_bounds prefix ids : (0 <= maxNum_of prefix ids <= INT_MAX)%Z.
Proof. apply fold_next_max_bounds. unfold INT_MAX. lia. Qed.

Lemma next_max_suffix_number prefix m id :
  DatabaseManager.next_max prefix m id =
    match suffix_number prefix id with
    | Some num => Z.max m num
    | None => m
    end.
Proof.
  unfold DatabaseManager.next_max, suffix_number.
  destruct (_ && _)%bool; [|reflexivity]. now destruct (stoi _).
Qed.

Lemma fold_next_max_attained prefix ids : forall m,
  fold_left (DatabaseManager.next_max prefix) ids m = m \/
  exists id, In id ids /\
    suffix_number prefix id = Some (fold_left (DatabaseManager.next_max prefix) ids m).
Proof.
  induction ids as [|x ids IH]; intros m; simpl; [now left|].
  destruct (IH (DatabaseManager.next_max prefix m x)) as [E | (id & Hin & E)].
  - rewrite E. rewrite next_max_suffix_number.
    destruct (suffix_number prefix x) as [num|] eqn:Hx; [|now left].
    destruct (Z.max_spec m num) as [[_ ->] | [_ ->]]; [right | now left].
    exists x. split; [now left | exact Hx].
  - right. exists id. split; [now right | exact E].
Qed.

(** The number the loop ends with is the largest of 0 and the numbers
    read in the identifiers. *)
Lemma maxNum_of_is_max prefix ids :
  (forall id num, In id ids -> suffix_number prefix id = Some num ->
                  (num <= maxNum_of prefix ids)%Z) /\
  (maxNum_of prefix ids = 0%Z \/
   exists id, In id ids /\ suffix_number prefix id = Some (maxNum_of prefix ids)).
Proof.
  split; [|apply fold_next_max_attained].
  intros id num Hin Hs. unfold maxNum_of.
  revert Hin. generalize 0%Z at 1 as m.
  induction ids as [|x ids IH]; intros m Hin; [contradiction|]. simpl.
  destruct Hin as [-> | Hin]; [|now apply IH].
  rewrite (next_max_suffix_number prefix m id), Hs.
  clear IH. generalize (Z.max m num) (Z.le_max_r m num). intros a Ha.
  revert a Ha. induction ids as [|y ids IH]; intros a Ha; simpl; [exact Ha|].
  apply IH. rewrite next_max_suffix_number.
  destruct (suffix_number prefix y); lia.
Qed.

Lemma int_add_small m :
  (0 <= m < INT_MAX)%Z -> DatabaseManager.int_add m 1 = (m + 1)%Z.
Proof.
  unfold DatabaseManager.int_add, INT_MAX, INT_MIN. intros H.
  rewrite Z.mod_small by lia. lia.
Qed.

Lemma size_sub_small len :
  (0 <= len <= 3)%Z -> DatabaseManager.size_sub 3 len = (3 - len)%Z.
Proof.
  unfold DatabaseManager.size_sub, SIZE_MODULUS. intros H.
  apply Z.mod_small. lia.
Qed.

Lemma size_sub_wraps len :
  (3 < len <= 11)%Z ->
  DatabaseManager.size_sub 3 len = (2 ^ 64 + 3 - len)%Z.
Proof.
  unfold DatabaseManager.size_sub, SIZE_MODULUS. intros H.
  symmetry. apply (Z.mod_unique _ _ (-1)); lia.
Qed.

(** Below 999 the allocator returns the next number on three digits. *)
Theorem generateNextId_below_999 prefix ids :
  (maxNum_of prefix ids < 999)%Z ->
  DatabaseManager.generateNextId prefix ids =
    Ok (prefix ++ zero_pad3 (to_string (maxNum_of prefix ids + 1)))%string.
Proof.
  intros Hlt. pose proof (maxNum_of_bounds prefix ids) as Hb.
  unfold DatabaseManager.generateNextId. fold (maxNum_of prefix ids).
  rewrite int_add_small by (unfold INT_MAX in *; lia).
  destruct (to_string_length_pos (maxNum_of prefix ids + 1)
              ltac:(unfold INT_MAX in *; lia)) as (Hl & Hs & _).
  specialize (Hs ltac:(lia)). fold (slen (to_string (maxNum_of prefix ids + 1))).
  rewrite size_sub_small by lia. unfold string_fill, string_max_size.
  destruct (_ <? _)%Z eqn:E; [apply Z.ltb_lt in E; lia|].
  cbn [bind]. unfold zero_pad3.
  replace (Z.to_nat (3 - slen (to_string (maxNum_of prefix ids + 1))))
    with (3 - String.length (to_string (maxNum_of prefix ids + 1)))%nat
    by (unfold slen; lia).
  reflexivity.
Qed.

(** From 999 on the padding length [3 - length] wraps around as a
    [size_t] and the [std::string] constructor throws. *)
Theorem generateNextId_from_999 prefix ids :
  (999 <= maxNum_of prefix ids)%Z ->
  DatabaseManager.generateNextId prefix ids = Throw length_error.
Proof.
  intros Hge. pose proof (maxNum_of_bounds prefix ids) as Hb.
  unfold DatabaseManager.generateNextId. fold (maxNum_of prefix ids).
  destruct (Z.eq_dec (maxNum_of prefix ids) INT_MAX) as [-> | Hne].
  - reflexivity.
  - rewrite int_add_small by lia.
    destruct (to_string_length_pos (maxNum_of prefix ids + 1) ltac:(lia))
      as (Hl & _ & Hs).
    specialize (Hs ltac:(lia)). fold (slen (to_string (maxNum_of prefix ids + 1))).
    rewrite size_sub_wraps by lia. unfold string_fill, string_max_size.
    destruct (_ <? _)%Z eqn:E; [reflexivity | apply Z.ltb_ge in E; lia].
Qed.

Lemma length_app_string (a b : string) :
  String.length (a ++ b) = (String.length a + String.length b)%nat.
Proof. induction a; simpl; auto. Qed.

Lemma substring_all s : substring 0 (String.length s) s = s.
Proof. induction s; simpl; [reflexivity | now f_equal]. Qed.

Lemma substring_prefix p x : substring 0 (String.length p) (p ++ x) = p.
Proof. induction p; simpl; [now destruct x | now f_equal]. Qed.

Lemma substring_suffix p x :
  substring (String.length p) (String.length (p ++ x) - String.length p) (p ++ x) = x.
Proof.
  rewrite length_app_string.
  replace (String.length p + String.length x - String.length p)%nat
    with (String.length x) by lia.
  induction p; simpl; [apply substring_all | assumption].
Qed.

Lemma all_digits_zeros k s :
  all_digits s = true -> all_digits (replicate k "0" ++ s) = true.
Proof. intros H. induction k; simpl; assumption. Qed.

Lemma digits_value_zeros k s :
  digits_value (replicate k "0" ++ s) 0 = digits_value s 0.
Proof. induction k; simpl; [reflexivity | assumption]. Qed.

(** A padded positive number reads back as the number. *)
Lemma stoi_zero_pad3 n :
  (0 < n <= INT_MAX)%Z -> stoi (zero_pad3 (to_string n)) = Ok n.
Proof.
  intros Hn. unfold zero_pad3. destruct n as [|p|p]; try lia.
  rewrite to_string_pos, stoi_digits.
  - rewrite digits_value_zeros, digits_value_uint, DecimalPos.Unsigned.of_to.
    simpl Z.of_N. rewrite in_int_range_true; [reflexivity|].
    unfold is_int, INT_MIN. lia.
  - apply all_digits_zeros, string_of_uint_digits.
  - intros E. apply (f_equal String.length) in E.
    rewrite length_app_string in E. simpl in E.
    pose proof (string_of_uint_nonempty _ (DecimalPos.Unsigned.to_uint_nonnil p)).
    destruct (NilEmpty.string_of_uint (Pos.to_uint p)); [congruence | simpl in E; lia].
Qed.

Lemma zero_pad3_nonempty s : s <> EmptyString -> zero_pad3 s <> EmptyString.
Proof.
  unfold zero_pad3. intros Hs E. apply (f_equal String.length) in E.
  rewrite length_app_string in E. destruct s; [congruence | simpl in E; lia].
Qed.

(** The loop ends at or above every number it parses. *)
Lemma fold_next_max_ge prefix id num ids : forall m,
  (0 <= m <= INT_MAX)%Z ->
  In id ids ->
  (String.length prefix < String.length id)%nat ->
  substring 0 (String.length prefix) id = prefix ->
  stoi (substring (String.length prefix)
                  (String.length id - String.length prefix) id) = Ok num ->
  (num <= fold_left (DatabaseManager.next_max prefix) ids m)%Z.
Proof.
  induction ids as [|x ids IH]; intros m Hm Hin Hlen Hpre Hnum; [contradiction|].
  simpl. pose proof (next_max_bounds prefix m x Hm) as Hb.
  destruct Hin as [-> | Hin].
  - pose proof (fold_next_max_bounds prefix ids _
                  (conj (Z.le_trans _ _ _ (proj1 Hm) (proj1 Hb)) (proj2 Hb))) as Hf.
    assert (Hx : (num <= DatabaseManager.next_max prefix m id)%Z).
    { unfold DatabaseManager.next_max.
      apply Nat.ltb_lt in Hlen. rewrite Hlen, Hpre, String.eqb_refl, Hnum.
      simpl. lia. }
    lia.
  - apply IH; try assumption. lia.
Qed.

(** Whatever the allocator returns is not one of the existing identifiers. *)
Theorem generateNextId_fresh prefix ids s :
  DatabaseManager.generateNextId prefix ids = Ok s -> ~ In s ids.
Proof.
  intros Hgen Hin. pose proof (maxNum_of_bounds prefix ids) as Hb.
  destruct (Z_lt_ge_dec (maxNum_of prefix ids) 999) as [Hlt | Hge].
  - rewrite generateNextId_below_999 in Hgen by assumption.
    injection Hgen as <-.
    set (n := (maxNum_of prefix ids + 1)%Z) in *.
    assert (Hn : (0 < n <= INT_MAX)%Z) by (unfold n, INT_MAX in *; lia).
    assert (n <= maxNum_of prefix ids)%Z; [|lia].
    apply (fold_next_max_ge prefix (prefix ++ zero_pad3 (to_string n))%string).
    + unfold INT_MAX; lia.
    + exact Hin.
    + rewrite length_app_string.
      pose proof (zero_pad3_nonempty _ (to_string_nonempty n)).
      destruct (zero_pad3 (to_string n)); [congruence | simpl; lia].
    + apply substring_prefix.
    + rewrite substring_suffix. now apply stoi_zero_pad3.
  - rewrite generateNextId_from_999 in Hgen by lia. discriminate.
Qed.

(** C2: with an identifier numbered 999 present the allocator does not
    return the prefix followed by 1000: the padding length [3 - 4] is
    computed on [size_t], wraps to [2^64 - 1], and the [std::string]
    constructor throws [std::length_error]. *)
Theorem generateNextId_999_throws :
  maxNum_of "STU" ["STU999"] = 999%Z /\
  DatabaseManager.size_sub 3 (slen (to_string 1000)) = (2 ^ 64 - 1)%Z /\
  DatabaseManager.generateNextId "STU" ["STU999"] = Throw length_error /\
  DatabaseManager.generateNextId "STU" ["STU999"] <> Ok "STU1000".
Proof. repeat split; try reflexivity. discriminate. Qed.

(** C5: the example of the claim holds, [STU004] after [STU001] and
    [STU003]; but once the numbers reach 999 no identifier is produced at
    all, fresh or not: the call ends in [std::length_error]. *)
Theorem generateNextId_no_identifier_past_999 :
  DatabaseManager.generateNextId "STU" ["STU001"; "STU003"] = Ok "STU004" /\
  (forall s, DatabaseManager.generateNextId "EX" ["EX001"; "EX1000"; "EX999"] <> Ok s) /\
  DatabaseManager.generateNextId "EX" ["EX001"; "EX1000"; "EX999"] = Throw length_error.
Proof. repeat split; try reflexivity. intros s. discriminate. Qed.

(** ** Loading *)

Lemma load_lines_app {T} (f : string -> T) l1 l2 v :
  load_lines f (l1 ++ l2) v = load_lines f l2 (load_lines f l1 v).
Proof.
  revert v. induction l1 as [|x l1 IH]; intros v; simpl; [reflexivity|].
  destruct (empty x); apply IH.
Qed.

Lemma load_lines_map {T} (f : string -> T) lines : forall v,
  load_lines f lines v = v ++ map f (decoded_lines lines).
Proof.
  induction lines as [|x lines IH]; intros v; simpl.
  - now rewrite List.app_nil_r.
  - destruct (empty x); simpl; [apply IH|].
    rewrite IH. unfold push_back. now rewrite <- List.app_assoc.
Qed.

Lemma load_lines_throwing_app {T} (f : string -> result T) l1 l2 v :
  load_lines_throwing f (l1 ++ l2) v =
    (v1 <- load_lines_throwing f l1 v ;; load_lines_throwing f l2 v1).
Proof.
  revert v. induction l1 as [|x l1 IH]; intros v; simpl; [reflexivity|].
  destruct (empty x); [apply IH|].
  destruct (f x); simpl; [apply IH | reflexivity].
Qed.

Lemma load_lines_throwing_acc {T} (f : string -> result T) lines : forall v,
  load_lines_throwing f lines v =
    (xs <- load_lines_throwing f lines [] ;; Ok (v ++ xs)).
Proof.
  induction lines as [|x lines IH]; intros v; simpl.
  - now rewrite List.app_nil_r.
  - destruct (empty x); [apply IH|].
    destruct (f x) as [y|e]; simpl; [|reflexivity].
    rewrite IH. rewrite (IH (push_back [] y)).
    destruct (load_lines_throwing f lines []); simpl; [|reflexivity].
    unfold push_back. now rewrite <- List.app_assoc.
Qed.

Lemma leb_short n line : short_line n line -> (n <=? List.length (split_csv line))%nat = false.
Proof. unfold short_line. intros H. apply Nat.leb_gt. exact H. Qed.

Lemma load_file_lines {T} (f : string -> T) fs path :
  load_file f fs path = load_lines f (file_lines fs path) [].
Proof. unfold load_file, file_lines. now destruct (contents fs path). Qed.

Lemma load_file_throwing_lines {T} (f : string -> result T) fs path :
  load_file_throwing f fs path = load_lines_throwing f (file_lines fs path) [].
Proof. unfold load_file_throwing, file_lines. now destruct (contents fs path). Qed.

Lemma User_fromCSV_short line : short_line 10 line -> User.fromCSV line = User.default.
Proof. intros H. unfold User.fromCSV. now rewrite leb_short. Qed.

Lemma Department_fromCSV_short line :
  short_line 4 line -> Department.fromCSV line = Department.default.
Proof. intros H. unfold Department.fromCSV. now rewrite leb_short. Qed.

Lemma Semester_fromCSV_short line :
  short_line 5 line -> Semester.fromCSV line = Semester.default.
Proof. intros H. unfold Semester.fromCSV. now rewrite leb_short. Qed.

Lemma Course_fromCSV_short line :
  short_line 8 line -> Course.fromCSV line = Ok Course.default.
Proof. intros H. unfold Course.fromCSV. now rewrite leb_short. Qed.

Lemma Exam_fromCSV_short line : short_line 7 line -> Exam.fromCSV line = Ok Exam.default.
Proof. intros H. unfold Exam.fromCSV. now rewrite leb_short. Qed.

Lemma Grade_fromCSV_short line : short_line 5 line -> Grade.fromCSV line = Ok Grade.default.
Proof. intros H. unfold Grade.fromCSV. now rewrite leb_short. Qed.

Lemma Enrollment_fromCSV_short line :
  short_line 4 line -> Enrollment.fromCSV line = Enrollment.default.
Proof. intros H. unfold Enrollment.fromCSV. now rewrite leb_short. Qed.

Lemma Attendance_fromCSV_short line :
  short_line 4 line -> Attendance.fromCSV line = Attendance.default.
Proof. intros H. unfold Attendance.fromCSV. now rewrite leb_short. Qed.

(** What a loader reads is what its [fromCSV] gives on the lines that
    are not empty, in their order. *)
Lemma load_file_decoded {T} (f : string -> T) fs path :
  load_file f fs path = map f (decoded_lines (file_lines fs path)).
Proof. now rewrite load_file_lines, load_lines_map. Qed.

Lemma load_lines_throwing_decoded {T} (f : string -> result T) lines :
  load_lines_throwing f lines [] = map_throwing f (decoded_lines lines).
Proof.
  induction lines as [|x lines IH]; [reflexivity|]. simpl.
  destruct (empty x); simpl; [exact IH|].
  destruct (f x) as [y|e]; simpl; [|reflexivity].
  rewrite load_lines_throwing_acc, IH.
  now destruct (map_throwing f (decoded_lines lines)).
Qed.

Lemma load_file_throwing_decoded {T} (f : string -> result T) fs path :
  load_file_throwing f fs path = map_throwing f (decoded_lines (file_lines fs path)).
Proof. now rewrite load_file_throwing_lines, load_lines_throwing_decoded. Qed.

Lemma decoded_lines_empty before after :
  decoded_lines (before ++ EmptyString :: after)
    = decoded_lines before ++ decoded_lines after.
Proof. unfold decoded_lines. now rewrite filter_app. Qed.

Lemma decoded_lines_middle before line after :
  line <> EmptyString ->
  decoded_lines (before ++ line :: after)
    = decoded_lines before ++ line :: decoded_lines after.
Proof.
  intros H. unfold decoded_lines. rewrite filter_app. simpl.
  now destruct line.
Qed.

Lemma map_throwing_middle {T} (f : string -> result T) l1 line l2 x :
  f line = Ok x ->
  map_throwing f (l1 ++ line :: l2) =
    (v1 <- map_throwing f l1 ;;
     v2 <- map_throwing f l2 ;;
     Ok (v1 ++ x :: v2)).
Proof.
  intros Hx. induction l1 as [|y l1 IH]; simpl.
  - rewrite Hx. simpl. now destruct (map_throwing f l2).
  - destruct (f y) as [z|e]; simpl; [|reflexivity]. rewrite IH.
    destruct (map_throwing f l1); simpl; [|reflexivity].
    now destruct (map_throwing f l2).
Qed.

(** The collection that a loader without exception leaves, at a short
    line. *)
Lemma load_file_at_short_line {T} (f : string -> T) (dflt : T) n fs path
    before line after :
  (forall l, short_line n l -> f l = dflt) ->
  file_lines fs path = before ++ line :: after ->
  line <> EmptyString -> short_line n line ->
  load_file f fs path =
    map f (decoded_lines before) ++ dflt :: map f (decoded_lines after).
Proof.
  intros Hf Hl Hne Hs.
  rewrite load_file_decoded, Hl, decoded_lines_middle, map_app by assumption.
  simpl. now rewrite (Hf line Hs).
Qed.

Lemma load_file_throwing_at_short_line {T} (f : string -> result T) (dflt : T) n
    fs path before line after :
  (forall l, short_line n l -> f l = Ok dflt) ->
  file_lines fs path = before ++ line :: after ->
  line <> EmptyString -> short_line n line ->
  load_file_throwing f fs path =
    (v1 <- map_throwing f (decoded_lines before) ;;
     v2 <- map_throwing f (decoded_lines after) ;;
     Ok (v1 ++ dflt :: v2)).
Proof.
  intros Hf Hl Hne Hs.
  rewrite load_file_throwing_decoded, Hl, decoded_lines_middle by assumption.
  apply map_throwing_middle. now apply Hf.
Qed.

Section ShortLine.
Import DatabaseManager.

Variables (env : Env) (db : DatabaseManager.t) (fs : FileSystem).
Variables (before after : list string) (line : string).
Hypothesis line_not_empty : line <> EmptyString.

(** C3, as the code has it.  Every loader decodes the lines of its
    file that are not empty, all of them and in their order, and skips
    the empty lines only: an empty line leaves no record, a line that is
    not empty always leaves one.  So a line with too few fields, which
    decodes without raising to the empty record of its class, is not
    skipped: the empty record stands in the vector where the line stood
    in the file, between the records of the lines before and after it. *)
Theorem short_line_loads_as_empty_record :
  ((file_lines fs USERS_FILE = before ++ line :: after -> short_line 10 line ->
    User.fromCSV line = User.default /\
    loadUsers env (db, fs) =
      (set_users (load_file User.fromCSV fs USERS_FILE) db, fs) /\
    load_file User.fromCSV fs USERS_FILE =
      map User.fromCSV (decoded_lines before) ++
      User.default :: map User.fromCSV (decoded_lines after)) /\
   (file_lines fs DEPARTMENTS_FILE = before ++ line :: after -> short_line 4 line ->
    Department.fromCSV line = Department.default /\
    departments (fst (loadDepartments (db, fs))) =
      map Department.fromCSV (decoded_lines before) ++
      Department.default :: map Department.fromCSV (decoded_lines after)) /\
   (file_lines fs SEMESTERS_FILE = before ++ line :: after -> short_line 5 line ->
    Semester.fromCSV line = Semester.default /\
    semesters (fst (loadSemesters (db, fs))) =
      map Semester.fromCSV (decoded_lines before) ++
      Semester.default :: map Semester.fromCSV (decoded_lines after)) /\
   (file_lines fs COURSES_FILE = before ++ line :: after -> short_line 8 line ->
    Course.fromCSV line = Ok Course.default /\
    loadCourses (db, fs) =
      (v1 <- map_throwing Course.fromCSV (decoded_lines before) ;;
       v2 <- map_throwing Course.fromCSV (decoded_lines after) ;;
       Ok (set_courses (v1 ++ Course.default :: v2) db, fs))) /\
   (file_lines fs EXAMS_FILE = before ++ line :: after -> short_line 7 line ->
    Exam.fromCSV line = Ok Exam.default /\
    loadExams (db, fs) =
      (v1 <- map_throwing Exam.fromCSV (decoded_lines before) ;;
       v2 <- map_throwing Exam.fromCSV (decoded_lines after) ;;
       Ok (set_exams (v1 ++ Exam.default :: v2) db, fs))) /\
   (file_lines fs GRADES_FILE = before ++ line :: after -> short_line 5 line ->
    Grade.fromCSV line = Ok Grade.default /\
    loadGrades (db, fs) =
      (v1 <- map_throwing Grade.fromCSV (decoded_lines before) ;;
       v2 <- map_throwing Grade.fromCSV (decoded_lines after) ;;
       Ok (set_grades (v1 ++ Grade.default :: v2) db, fs))) /\
   (file_lines fs ENROLLMENTS_FILE = before ++ line :: after -> short_line 4 line ->
    Enrollment.fromCSV line = Enrollment.default /\
    enrollments (fst (loadEnrollments (db, fs))) =
      map Enrollment.fromCSV (decoded_lines before) ++
      Enrollment.default :: map Enrollment.fromCSV (decoded_lines after)) /\
   (file_lines fs ATTENDANCE_FILE = before ++ line :: after -> short_line 4 line ->
    Attendance.fromCSV line = Attendance.default /\
    attendanceRecords (fst (loadAttendance (db, fs))) =
      map Attendance.fromCSV (decoded_lines before) ++
      Attendance.default :: map Attendance.fromCSV (decoded_lines after))) /\
  (load_file User.fromCSV fs USERS_FILE =
     map User.fromCSV (decoded_lines (file_lines fs USERS_FILE)) /\
   departments (fst (loadDepartments (db, fs))) =
     map Department.fromCSV (decoded_lines (file_lines fs DEPARTMENTS_FILE)) /\
   semesters (fst (loadSemesters (db, fs))) =
     map Semester.fromCSV (decoded_lines (file_lines fs SEMESTERS_FILE)) /\
   loadCourses (db, fs) =
     (v <- map_throwing Course.fromCSV (decoded_lines (file_lines fs COURSES_FILE)) ;;
      Ok (set_courses v db, fs)) /\
   loadExams (db, fs) =
     (v <- map_throwing Exam.fromCSV (decoded_lines (file_lines fs EXAMS_FILE)) ;;
      Ok (set_exams v db, fs)) /\
   loadGrades (db, fs) =
     (v <- map_throwing Grade.fromCSV (decoded_lines (file_lines fs GRADES_FILE)) ;;
      Ok (set_grades v db, fs)) /\
   enrollments (fst (loadEnrollments (db, fs))) =
     map Enrollment.fromCSV (decoded_lines (file_lines fs ENROLLMENTS_FILE)) /\
   attendanceRecords (fst (loadAttendance (db, fs))) =
     map Attendance.fromCSV (decoded_lines (file_lines fs ATTENDANCE_FILE))) /\
  (decoded_lines (before ++ EmptyString :: after)
     = decoded_lines before ++ decoded_lines after /\
   decoded_lines (before ++ line :: after)
     = decoded_lines before ++ line :: decoded_lines after /\
   List.length (decoded_lines (before ++ line :: after))
     = S (List.length (decoded_lines (before ++ EmptyString :: after)))).
Proof.
  split; [|split].
  - repeat match goal with |- _ /\ _ => split end; intros Hl Hs.
    + split; [now apply User_fromCSV_short|].
      assert (E : load_file User.fromCSV fs USERS_FILE =
                  map User.fromCSV (decoded_lines before) ++
                  User.default :: map User.fromCSV (decoded_lines after))
        by (eapply load_file_at_short_line; eauto using User_fromCSV_short).
      split; [|exact E]. unfold loadUsers. rewrite E.
      now destruct (map User.fromCSV (decoded_lines before)).
    + split; [now apply Department_fromCSV_short|]. simpl.
      eapply load_file_at_short_line; eauto using Department_fromCSV_short.
    + split; [now apply Semester_fromCSV_short|]. simpl.
      eapply load_file_at_short_line; eauto using Semester_fromCSV_short.
    + split; [now apply Course_fromCSV_short|]. unfold loadCourses.
      erewrite load_file_throwing_at_short_line; eauto using Course_fromCSV_short.
      destruct (map_throwing Course.fromCSV (decoded_lines before)); simpl;
        [|reflexivity].
      now destruct (map_throwing Course.fromCSV (decoded_lines after)).
    + split; [now apply Exam_fromCSV_short|]. unfold loadExams.
      erewrite load_file_throwing_at_short_line; eauto using Exam_fromCSV_short.
      destruct (map_throwing Exam.fromCSV (decoded_lines before)); simpl;
        [|reflexivity].
      now destruct (map_throwing Exam.fromCSV (decoded_lines after)).
    + split; [now apply Grade_fromCSV_short|]. unfold loadGrades.
      erewrite load_file_throwing_at_short_line; eauto using Grade_fromCSV_short.
      destruct (map_throwing Grade.fromCSV (decoded_lines before)); simpl;
        [|reflexivity].
      now destruct (map_throwing Grade.fromCSV (decoded_lines after)).
    + split; [now apply Enrollment_fromCSV_short|]. simpl.
      eapply load_file_at_short_line; eauto using Enrollment_fromCSV_short.
    + split; [now apply Attendance_fromCSV_short|]. simpl.
      eapply load_file_at_short_line; eauto using Attendance_fromCSV_short.
  - unfold loadCourses, loadExams, loadGrades. simpl.
    rewrite !load_file_throwing_decoded.
    repeat split; apply load_file_decoded.
  - rewrite decoded_lines_empty, decoded_lines_middle by assumption.
    repeat split. rewrite !length_app. simpl. lia.
Qed.
End ShortLine.

(** At a file of three lines, the second empty and the third with two
    fields. *)
Lemma short_line_loads_as_empty_record_witness :
  DatabaseManager.departments
    (fst (DatabaseManager.loadDepartments
            (empty_db,
             single_file DatabaseManager.DEPARTMENTS_FILE
               ("D1,CS,Ada,Computing" ++ endl ++ endl ++ "x,y" ++ endl)))) =
  [Department.mk "D1" "CS" "Ada" "Computing"; Department.default].
Proof.
  refine (proj2 (proj1 (proj2 (proj1 (short_line_loads_as_empty_record
            sample_env empty_db
            (single_file DatabaseManager.DEPARTMENTS_FILE
               ("D1,CS,Ada,Computing" ++ endl ++ endl ++ "x,y" ++ endl))
            ["D1,CS,Ada,Computing"; ""] [] "x,y" _))) _ _)).
  - discriminate.
  - reflexivity.
  - vm_compute. lia.
Defined.

(** C3 as stated fails: the departments file holds one line, with two
    fields where four are required; were the line skipped the collection
    would be empty, but it holds one record, the empty one. *)
Lemma short_line_is_not_skipped :
  let fs := single_file DatabaseManager.DEPARTMENTS_FILE ("x,y" ++ endl) in
  file_lines fs DatabaseManager.DEPARTMENTS_FILE = ["x,y"] /\
  List.length (split_csv "x,y") = 2%nat /\
  DatabaseManager.departments (fst (DatabaseManager.loadDepartments (empty_db, fs)))
    = [Department.default] /\
  DatabaseManager.departments (fst (DatabaseManager.loadDepartments (empty_db, fs)))
    <> [].
Proof. repeat split; try reflexivity. discriminate. Qed.

(** C4: a course line whose credits are not a number makes
    [Course::fromCSV] throw [std::invalid_argument] from [std::stoi];
    neither [loadCourses] nor [loadAllData] catches it, so the exception
    leaves the store and the line is not dropped.  [generateNextId] does
    guard its own [std::stoi] with [try]/[catch]. *)
Theorem loadCourses_throws_on_non_numeric_field :
  let line := "CS101,Programming,TCH001,D1,S1,three,Mon 9:00,30" in
  let fs := single_file DatabaseManager.COURSES_FILE (line ++ endl) in
  Course.fromCSV line = Throw invalid_argument /\
  DatabaseManager.loadCourses (empty_db, fs) = Throw invalid_argument /\
  (forall env, DatabaseManager.loadAllData env (empty_db, fs) = Throw invalid_argument) /\
  Exam.fromCSV "EX001,CS101,Midterm,2025-10-01,10:00,midterm,hundred"
    = Throw invalid_argument /\
  Grade.fromCSV "STU001,EX001,absent,F,none" = Throw invalid_argument /\
  Grade.fromCSV "STU001,EX001,99999999999,F,none" = Throw out_of_range.
Proof. repeat split; reflexivity. Qed.

(** ** Empty and missing files *)

Lemma file_lines_missing_or_empty fs path :
  missing_or_empty fs path -> file_lines fs path = [].
Proof. unfold file_lines. now intros [-> | ->]. Qed.

Lemma load_file_missing_or_empty {T} (f : string -> T) fs path :
  missing_or_empty fs path -> load_file f fs path = [].
Proof. intros H. now rewrite load_file_lines, file_lines_missing_or_empty. Qed.

Lemma load_file_throwing_missing_or_empty {T} (f : string -> result T) fs path :
  missing_or_empty fs path -> load_file_throwing f fs path = Ok [].
Proof. intros H. now rewrite load_file_throwing_lines, file_lines_missing_or_empty. Qed.

Lemma write_lines_contents fs path lines :
  writable fs path = true ->
  contents (write_lines fs path lines) path =
    Some (String.concat "" (map (fun l => (l ++ endl)%string) lines)).
Proof. intros H. unfold write_lines. rewrite H. simpl. now rewrite String.eqb_refl. Qed.

Section LoadUsers.
Import DatabaseManager.

Variables (env : Env) (db : DatabaseManager.t) (fs : FileSystem).

(** C9: when no user comes out of the users file (a missing and an
    empty file are two such cases) [loadUsers] leaves exactly one
    user, the default administrator, and saves the users at once: the
    users file, if it can be written, then holds the line of that
    administrator.  The loaders of the seven other classes leave an
    empty collection on a missing or empty file. *)
Theorem loadUsers_default_admin :
  (load_file User.fromCSV fs USERS_FILE = [] ->
   let admin := default_admin env in
   users (fst (loadUsers env (db, fs))) = [admin] /\
   User.id admin = "admin001" /\ User.username admin = "admin" /\
   User.role admin = "admin" /\
   User.passwordHash admin = SimpleHash.hash env "admin123" /\
   loadUsers env (db, fs) = saveUsers (set_users [admin] db, fs) /\
   snd (loadUsers env (db, fs)) = write_lines fs USERS_FILE [User.toCSV admin] /\
   (writable fs USERS_FILE = true ->
    contents (snd (loadUsers env (db, fs))) USERS_FILE
      = Some (User.toCSV admin ++ endl)%string)) /\
  (missing_or_empty fs USERS_FILE -> load_file User.fromCSV fs USERS_FILE = []) /\
  (missing_or_empty fs DEPARTMENTS_FILE ->
   departments (fst (loadDepartments (db, fs))) = []) /\
  (missing_or_empty fs SEMESTERS_FILE ->
   semesters (fst (loadSemesters (db, fs))) = []) /\
  (missing_or_empty fs COURSES_FILE ->
   loadCourses (db, fs) = Ok (set_courses [] db, fs)) /\
  (missing_or_empty fs EXAMS_FILE ->
   loadExams (db, fs) = Ok (set_exams [] db, fs)) /\
  (missing_or_empty fs GRADES_FILE ->
   loadGrades (db, fs) = Ok (set_grades [] db, fs)) /\
  (missing_or_empty fs ENROLLMENTS_FILE ->
   enrollments (fst (loadEnrollments (db, fs))) = []) /\
  (missing_or_empty fs ATTENDANCE_FILE ->
   attendanceRecords (fst (loadAttendance (db, fs))) = []).
Proof.
  split; [intros Hempty admin|].
  - assert (E : loadUsers env (db, fs) = saveUsers (set_users [admin] db, fs))
      by (unfold loadUsers; now rewrite Hempty).
    rewrite E. repeat split.
    intros Hw. simpl. now rewrite write_lines_contents by assumption.
  - repeat match goal with |- _ /\ _ => split end; intros H; simpl;
      unfold loadCourses, loadExams, loadGrades;
      rewrite ?load_file_throwing_missing_or_empty by assumption;
      try reflexivity; now apply load_file_missing_or_empty.
Qed.
End LoadUsers.

(** With no data directory at all. *)
Lemma loadUsers_default_admin_witness :
  DatabaseManager.users
    (fst (DatabaseManager.loadUsers sample_env
            (empty_db, mkFS (fun _ => None) (fun _ => true))))
  = [DatabaseManager.default_admin sample_env].
Proof.
  refine (proj1 (proj1 (loadUsers_default_admin sample_env empty_db
                          (mkFS (fun _ => None) (fun _ => true))) _)).
  reflexivity.
Defined.

(** ** Enrollment *)

(** C8: [isStudentEnrolled] answers true exactly when the enrollments
    hold a record of the student and the course whose status is the
    string [enrolled]; records of the pair that are completed or dropped
    do not count. *)
Theorem isStudentEnrolled_iff db studentId courseId :
  (DatabaseManager.isStudentEnrolled db studentId courseId = true <->
   exists e, In e (DatabaseManager.enrollments db) /\
             Enrollment.studentId e = studentId /\
             Enrollment.courseId e = courseId /\
             Enrollment.status e = "enrolled") /\
  ((forall e, In e (DatabaseManager.enrollments db) ->
              Enrollment.studentId e = studentId ->
              Enrollment.courseId e = courseId ->
              Enrollment.status e = "completed" \/ Enrollment.status e = "dropped") ->
   DatabaseManager.isStudentEnrolled db studentId courseId = false).
Proof.
  assert (Hiff : DatabaseManager.isStudentEnrolled db studentId courseId = true <->
                 exists e, In e (DatabaseManager.enrollments db) /\
                           Enrollment.studentId e = studentId /\
                           Enrollment.courseId e = courseId /\
                           Enrollment.status e = "enrolled").
  { unfold DatabaseManager.isStudentEnrolled. rewrite existsb_exists.
    split; intros (e & Hin & H); exists e; (split; [exact Hin|]).
    - apply andb_prop in H as [H Hst]. apply andb_prop in H as [Hs Hc].
      now rewrite String.eqb_eq in Hs, Hc, Hst.
    - destruct H as (Hs & Hc & Hst). now rewrite <- Hs, <- Hc, Hst, !String.eqb_refl. }
  split; [exact Hiff|].
  intros Hall. apply not_true_is_false. intros Ht.
  apply Hiff in Ht as (e & Hin & Hs & Hc & Hst).
  destruct (Hall e Hin Hs Hc) as [H | H]; rewrite H in Hst; discriminate.
Qed.

Lemma isStudentEnrolled_iff_witness :
  DatabaseManager.isStudentEnrolled
    (DatabaseManager.set_enrollments
       [Enrollment.mk "STU001" "CS101" "A" "completed";
        Enrollment.mk "STU001" "MATH201" "" "enrolled";
        Enrollment.mk "STU001" "CS101" "" "dropped"] empty_db)
    "STU001" "CS101" = false.
Proof.
  apply (proj2 (isStudentEnrolled_iff _ "STU001" "CS101")).
  simpl. intros e [<- | [<- | [<- | []]]]; simpl; intros _ H;
    try discriminate H; auto.
Defined.

(** ** Iterators *)

Lemma find_if_split {A} (p : A -> bool) (v : list A) :
  (find_if p v < List.length v)%nat ->
  exists l1 u l2, v = l1 ++ u :: l2 /\ find_if p v = List.length l1 /\
                  p u = true /\ Forall (fun x => p x = false) l1.
Proof.
  induction v as [|x v IH]; simpl; [lia|].
  destruct (p x) eqn:E; intros H.
  - exists [], x, v. repeat split; auto.
  - destruct (IH ltac:(lia)) as (l1 & u & l2 & -> & Hi & Hu & Hl1).
    exists (x :: l1), u, l2. repeat split; simpl; auto.
Qed.

Lemma find_if_end {A} (p : A -> bool) (v : list A) :
  ~ (find_if p v < List.length v)%nat -> Forall (fun x => p x = false) v.
Proof.
  induction v as [|x v IH]; simpl; [constructor|].
  destruct (p x) eqn:E; intros H; [lia|].
  constructor; [exact E | apply IH; lia].
Qed.

Lemma find_if_app {A} (p : A -> bool) l1 u l2 :
  Forall (fun x => p x = false) l1 -> p u = true ->
  find_if p (l1 ++ u :: l2) = List.length l1.
Proof.
  induction 1 as [|x l1 Hx _ IH]; intros Hu; simpl; [now rewrite Hu|].
  rewrite Hx. f_equal. now apply IH.
Qed.

Lemma find_app_first {A} (p : A -> bool) l1 u l2 :
  Forall (fun x => p x = false) l1 -> p u = true ->
  find p (l1 ++ u :: l2) = Some u.
Proof.
  induction 1 as [|x l1 Hx _ IH]; intros Hu; simpl; [now rewrite Hu|].
  rewrite Hx. now apply IH.
Qed.

Lemma erase_middle {A} (l1 : list A) u l2 :
  erase (l1 ++ u :: l2) (List.length l1) = l1 ++ l2.
Proof. induction l1; simpl; [reflexivity | now f_equal]. Qed.

Lemma assign_middle {A} (l1 : list A) u l2 f :
  assign (l1 ++ u :: l2) (List.length l1) f = l1 ++ f u :: l2.
Proof. induction l1; simpl; [reflexivity | now f_equal]. Qed.

(** ** Deleting a user *)

(** C10: [deleteUser] looks at the first user with the given
    identifier.  If that user is an administrator the deletion is refused
    and the database is left as it was.  Whenever the database does
    change, it loses exactly that first user, whose role is not
    [admin], and nothing else. *)
Theorem deleteUser_never_removes_admin db id :
  (forall u,
     find (fun u => (User.id u =? id)%string) (DatabaseManager.users db) = Some u ->
     User.role u = "admin" ->
     UMSApplication.deleteUser db id = (db, "Cannot delete admin user!")) /\
  (fst (UMSApplication.deleteUser db id) = db \/
   exists l1 u l2,
     DatabaseManager.users db = l1 ++ u :: l2 /\
     Forall (fun x => User.id x <> id) l1 /\
     User.id u = id /\ User.role u <> "admin" /\
     fst (UMSApplication.deleteUser db id) = DatabaseManager.set_users (l1 ++ l2) db).
Proof.
  unfold UMSApplication.deleteUser.
  set (p := fun u => (User.id u =? id)%string).
  destruct (Nat.ltb_spec (find_if p (DatabaseManager.users db))
                         (List.length (DatabaseManager.users db))) as [Hlt | Hge].
  - destruct (find_if_split p _ Hlt) as (l1 & u & l2 & E & Hi & Hu & Hl1).
    rewrite E, (find_if_app p l1 u l2 Hl1 Hu), nth_middle, erase_middle.
    split.
    + intros u' Hfind Hrole. rewrite (find_app_first p l1 u l2 Hl1 Hu) in Hfind.
      injection Hfind as <-. now rewrite Hrole.
    + destruct (String.eqb_spec (User.role u) "admin") as [Hr | Hr];
        [left; reflexivity | right].
      exists l1, u, l2. repeat split; try assumption.
      * eapply Forall_impl; [|exact Hl1]. unfold p. simpl. intros x Hx.
        now apply String.eqb_neq.
      * unfold p in Hu. now apply String.eqb_eq.
  - split; [|left; reflexivity].
    intros u Hfind _. exfalso. apply find_some in Hfind as [Hin Hp].
    assert (Hall : Forall (fun x => p x = false) (DatabaseManager.users db))
      by (apply find_if_end; lia).
    rewrite Forall_forall in Hall. fold p in Hp.
    rewrite (Hall u Hin) in Hp. discriminate.
Qed.

(** Deleting the default administrator of an otherwise empty database. *)
Lemma deleteUser_never_removes_admin_witness :
  UMSApplication.deleteUser
    (DatabaseManager.set_users [DatabaseManager.default_admin sample_env] empty_db)
    "admin001"
  = (DatabaseManager.set_users [DatabaseManager.default_admin sample_env] empty_db,
     "Cannot delete admin user!").
Proof.
  apply (proj1 (deleteUser_never_removes_admin _ "admin001")
           (DatabaseManager.default_admin sample_env)); reflexivity.
Defined.

(** ** Entering grades *)

Lemma same_grade_key_true sid eid g :
  UMSApplication.same_grade_key sid eid g = true <-> grade_key g = (sid, eid).
Proof.
  unfold UMSApplication.same_grade_key, grade_key.
  rewrite andb_true_iff, !String.eqb_eq. split.
  - now intros [-> ->].
  - now intros [= -> ->].
Qed.

Lemma same_grade_key_false sid eid g :
  UMSApplication.same_grade_key sid eid g = false <-> grade_key g <> (sid, eid).
Proof.
  rewrite <- same_grade_key_true. destruct (UMSApplication.same_grade_key sid eid g).
  - split; [discriminate | intros H; now elim H].
  - split; [discriminate | reflexivity].
Qed.

Lemma records_of_none sid eid gs :
  Forall (fun g => UMSApplication.same_grade_key sid eid g = false) gs ->
  records_of sid eid gs = [].
Proof.
  unfold records_of. induction 1 as [|g gs Hg _ IH]; simpl; [reflexivity|].
  now rewrite Hg.
Qed.

Lemma not_in_keys_none sid eid gs :
  ~ In (sid, eid) (map grade_key gs) ->
  Forall (fun g => UMSApplication.same_grade_key sid eid g = false) gs.
Proof.
  intros Hn. apply Forall_forall. intros g Hg. apply same_grade_key_false.
  intros E. apply Hn. rewrite <- E. now apply in_map.
Qed.

(** Passing the checks, [enterGrades] comes down to storing the grade. *)
Lemma enterGrades_accepted db user cid eid sid exam marks comments :
  accepted db user cid eid sid exam marks ->
  UMSApplication.enterGrades db user cid eid sid marks comments =
    UMSApplication.store_grade db sid eid marks
      (UMSApplication.letterGrade_of marks (Exam.totalMarks exam)) comments.
Proof.
  intros ((course & Hc & Ht) & He & Hec & Hen & Hm).
  unfold UMSApplication.enterGrades. rewrite Hc, Ht, String.eqb_refl. simpl negb.
  cbn iota.
  assert (Hex : vempty (DatabaseManager.getCourseExams db cid) = false).
  { unfold DatabaseManager.findExam in He. apply find_some in He as [Hin _].
    assert (Hf : In exam (DatabaseManager.getCourseExams db cid)).
    { unfold DatabaseManager.getCourseExams. apply filter_In. split; [exact Hin|].
      now apply String.eqb_eq. }
    now destruct (DatabaseManager.getCourseExams db cid). }
  rewrite Hex, He, Hec, String.eqb_refl, Hen. simpl negb. cbn iota.
  destruct (marks <? 0)%Z eqn:E1; [apply Z.ltb_lt in E1; lia|].
  destruct (Exam.totalMarks exam <? marks)%Z eqn:E2; [apply Z.ltb_lt in E2; lia|].
  reflexivity.
Qed.

(** The grade of the pair is updated where it stands ... *)
Lemma store_grade_update db sid eid marks letter comments l1 g l2 :
  DatabaseManager.grades db = l1 ++ g :: l2 ->
  Forall (fun x => UMSApplication.same_grade_key sid eid x = false) l1 ->
  grade_key g = (sid, eid) ->
  UMSApplication.store_grade db sid eid marks letter comments =
    (DatabaseManager.set_grades
       (l1 ++ Grade.mk sid eid marks letter comments :: l2) db,
     "Grade updated successfully!").
Proof.
  intros E Hl1 Hg. unfold UMSApplication.store_grade. rewrite E.
  rewrite find_if_app by (auto; now apply same_grade_key_true).
  rewrite assign_middle.
  replace (List.length l1 <? List.length (l1 ++ g :: l2))%nat with true
    by (symmetry; apply Nat.ltb_lt; rewrite length_app; simpl; lia).
  injection Hg as -> ->. reflexivity.
Qed.

(** ... and appended when the pair has none. *)
Lemma store_grade_append db sid eid marks letter comments :
  Forall (fun x => UMSApplication.same_grade_key sid eid x = false)
         (DatabaseManager.grades db) ->
  UMSApplication.store_grade db sid eid marks letter comments =
    (DatabaseManager.set_grades
       (DatabaseManager.grades db ++ [Grade.mk sid eid marks letter comments]) db,
     "Grade entered successfully!").
Proof.
  intros Hall. unfold UMSApplication.store_grade.
  destruct (Nat.ltb_spec
              (find_if (UMSApplication.same_grade_key sid eid) (DatabaseManager.grades db))
              (List.length (DatabaseManager.grades db))) as [Hlt | Hge];
    [|reflexivity].
  destruct (find_if_split _ _ Hlt) as (l1 & u & l2 & E & _ & Hu & _).
  rewrite E in Hall. apply Forall_elt in Hall. congruence.
Qed.

Lemma records_of_app sid eid l1 l2 :
  records_of sid eid (l1 ++ l2) = records_of sid eid l1 ++ records_of sid eid l2.
Proof. apply filter_app. Qed.

Lemma records_of_cons_same sid eid g gs :
  grade_key g = (sid, eid) -> records_of sid eid (g :: gs) = g :: records_of sid eid gs.
Proof.
  intros H. unfold records_of. simpl.
  now rewrite (proj2 (same_grade_key_true sid eid g) H).
Qed.

Lemma records_of_cons_other sid eid g gs :
  grade_key g <> (sid, eid) -> records_of sid eid (g :: gs) = records_of sid eid gs.
Proof.
  intros H. unfold records_of. simpl.
  now rewrite (proj2 (same_grade_key_false sid eid g) H).
Qed.

Lemma keys_none_forall sid eid gs :
  Forall (fun g => UMSApplication.same_grade_key sid eid g = false) gs ->
  ~ In (sid, eid) (map grade_key gs).
Proof.
  intros Hall Hin. apply in_map_iff in Hin as (g & Hk & Hg).
  rewrite Forall_forall in Hall. specialize (Hall g Hg).
  apply same_grade_key_false in Hall. contradiction.
Qed.

(** What storing a grade does to a collection with at most one grade per
    student and exam. *)
Lemma store_grade_step db sid eid marks letter comments :
  unique_grades (DatabaseManager.grades db) ->
  let out := UMSApplication.store_grade db sid eid marks letter comments in
  let new := Grade.mk sid eid marks letter comments in
  fst out = DatabaseManager.set_grades (DatabaseManager.grades (fst out)) db /\
  unique_grades (DatabaseManager.grades (fst out)) /\
  records_of sid eid (DatabaseManager.grades (fst out)) = [new] /\
  (forall s e, (s, e) <> (sid, eid) ->
     records_of s e (DatabaseManager.grades (fst out)) =
     records_of s e (DatabaseManager.grades db)) /\
  (records_of sid eid (DatabaseManager.grades db) <> [] ->
     List.length (DatabaseManager.grades (fst out)) =
       List.length (DatabaseManager.grades db) /\
     map grade_key (DatabaseManager.grades (fst out)) =
       map grade_key (DatabaseManager.grades db) /\
     snd out = "Grade updated successfully!") /\
  (records_of sid eid (DatabaseManager.grades db) = [] ->
     DatabaseManager.grades (fst out) = DatabaseManager.grades db ++ [new] /\
     snd out = "Grade entered successfully!").
Proof.
  intros Huniq out new. subst out. unfold unique_grades in *.
  assert (Hnew : grade_key new = (sid, eid)) by reflexivity.
  destruct (Nat.ltb_spec
              (find_if (UMSApplication.same_grade_key sid eid) (DatabaseManager.grades db))
              (List.length (DatabaseManager.grades db))) as [Hlt | Hge].
  - destruct (find_if_split _ _ Hlt) as (l1 & g & l2 & E & _ & Hg & Hl1).
    apply same_grade_key_true in Hg.
    rewrite (store_grade_update db sid eid marks letter comments l1 g l2 E Hl1 Hg).
    cbn [fst snd]. change (DatabaseManager.grades (DatabaseManager.set_grades ?v db)) with v.
    fold new. clearbody new. rewrite E in *.
    assert (Hkeys : map grade_key (l1 ++ new :: l2) = map grade_key (l1 ++ g :: l2))
      by (rewrite !map_app; simpl; now rewrite Hg, Hnew).
    assert (Hl2 : ~ In (sid, eid) (map grade_key l2)).
    { rewrite map_app in Huniq. simpl in Huniq. apply NoDup_remove_2 in Huniq.
      rewrite Hg in Huniq. intros Hin. apply Huniq. apply in_or_app. now right. }
    assert (Hsome : records_of sid eid (l1 ++ g :: l2) <> []).
    { rewrite records_of_app, records_of_cons_same by exact Hg.
      now destruct (records_of sid eid l1). }
    repeat split;
      try match goal with
          | H : records_of _ _ _ = [] |- _ => now elim (Hsome H)
          end.
    + now rewrite Hkeys.
    + rewrite records_of_app, (records_of_none _ _ l1 Hl1),
        records_of_cons_same by exact Hnew.
      now rewrite (records_of_none _ _ l2 (not_in_keys_none _ _ _ Hl2)).
    + intros s e Hne. rewrite !records_of_app.
      rewrite (records_of_cons_other s e new) by congruence.
      rewrite (records_of_cons_other s e g) by congruence. reflexivity.
    + rewrite !length_app. reflexivity.
    + exact Hkeys.
  - assert (Hall : Forall (fun x => UMSApplication.same_grade_key sid eid x = false)
                          (DatabaseManager.grades db)) by (apply find_if_end; lia).
    rewrite (store_grade_append db sid eid marks letter comments Hall).
    cbn [fst snd]. change (DatabaseManager.grades (DatabaseManager.set_grades ?v db)) with v.
    fold new. clearbody new.
    pose proof (records_of_none _ _ _ Hall) as Hnone.
    repeat split;
      try match goal with
          | H : records_of _ _ _ <> [] |- _ => now elim (H Hnone)
          end.
    + rewrite map_app. simpl. apply NoDup_app.
      * exact Huniq.
      * repeat constructor. intros [].
      * intros k Hk [<- | []]. rewrite Hnew in Hk.
        now apply (keys_none_forall sid eid _ Hall).
    + rewrite records_of_app, (records_of_none _ _ _ Hall).
      now rewrite records_of_cons_same.
    + intros s e Hne. rewrite records_of_app.
      rewrite (records_of_cons_other s e new) by congruence.
      simpl. now rewrite List.app_nil_r.
Qed.

Lemma accepted_set_grades db user cid eid sid exam marks v :
  accepted db user cid eid sid exam marks ->
  accepted (DatabaseManager.set_grades v db) user cid eid sid exam marks.
Proof. intros H. exact H. Qed.

(** C7: on a collection with at most one grade per student and exam,
    an accepted entry leaves exactly one grade for the pair, holding the
    marks, letter and comments just entered, and keeps the collection
    with at most one grade per pair.  When the pair had a grade, that
    grade is updated where it stands: the collection keeps its length and
    the order of its keys.  So a second entry for the pair, with other
    values, updates the grade of the first: one grade remains, with the
    latest values, and the grades of the other pairs are as they were. *)
Theorem enterGrades_upsert db user cid eid sid exam marks comments marks2 comments2 :
  unique_grades (DatabaseManager.grades db) ->
  accepted db user cid eid sid exam marks ->
  accepted db user cid eid sid exam marks2 ->
  let out1 := UMSApplication.enterGrades db user cid eid sid marks comments in
  let out2 := UMSApplication.enterGrades (fst out1) user cid eid sid marks2 comments2 in
  let entered m c :=
    Grade.mk sid eid m (UMSApplication.letterGrade_of m (Exam.totalMarks exam)) c in
  unique_grades (DatabaseManager.grades (fst out1)) /\
  records_of sid eid (DatabaseManager.grades (fst out1)) = [entered marks comments] /\
  (records_of sid eid (DatabaseManager.grades db) <> [] ->
     snd out1 = "Grade updated successfully!" /\
     List.length (DatabaseManager.grades (fst out1)) =
       List.length (DatabaseManager.grades db) /\
     map grade_key (DatabaseManager.grades (fst out1)) =
       map grade_key (DatabaseManager.grades db)) /\
  snd out2 = "Grade updated successfully!" /\
  List.length (DatabaseManager.grades (fst out2)) =
    List.length (DatabaseManager.grades (fst out1)) /\
  unique_grades (DatabaseManager.grades (fst out2)) /\
  records_of sid eid (DatabaseManager.grades (fst out2)) = [entered marks2 comments2] /\
  (forall s e, (s, e) <> (sid, eid) ->
     records_of s e (DatabaseManager.grades (fst out2)) =
     records_of s e (DatabaseManager.grades db)).
Proof.
  intros Huniq Hacc1 Hacc2 out1 out2 entered.
  subst out2. subst out1.
  rewrite (enterGrades_accepted _ _ _ _ _ _ _ comments Hacc1).
  destruct (store_grade_step db sid eid marks
              (UMSApplication.letterGrade_of marks (Exam.totalMarks exam)) comments Huniq)
    as (Hdb1 & Hu1 & Hr1 & Ho1 & Hupd1 & _).
  set (db1 := fst (UMSApplication.store_grade db sid eid marks
                     (UMSApplication.letterGrade_of marks (Exam.totalMarks exam))
                     comments)) in *.
  assert (Hacc2' : accepted db1 user cid eid sid exam marks2)
    by (rewrite Hdb1; now apply accepted_set_grades).
  rewrite (enterGrades_accepted _ _ _ _ _ _ _ comments2 Hacc2').
  destruct (store_grade_step db1 sid eid marks2
              (UMSApplication.letterGrade_of marks2 (Exam.totalMarks exam)) comments2 Hu1)
    as (_ & Hu2 & Hr2 & Ho2 & Hupd2 & _).
  assert (Hsome : records_of sid eid (DatabaseManager.grades db1) <> [])
    by (rewrite Hr1; discriminate).
  destruct (Hupd2 Hsome) as (Hlen2 & _ & Hmsg2).
  split; [exact Hu1|]. split; [exact Hr1|].
  split; [intros Hex; destruct (Hupd1 Hex) as (? & ? & ?); repeat split; assumption|].
  split; [exact Hmsg2|]. split; [exact Hlen2|].
  split; [exact Hu2|]. split; [exact Hr2|].
  intros s e Hne. now rewrite Ho2, Ho1.
Qed.

Lemma sample_db_accepted marks :
  (0 <= marks <= 100)%Z ->
  accepted sample_db sample_teacher "CS101" "EX001" "STU001" sample_exam marks.
Proof.
  intros H. split; [|repeat split; try reflexivity; simpl; lia].
  eexists. split; reflexivity.
Defined.

Lemma sample_db_unique : unique_grades (DatabaseManager.grades sample_db).
Proof.
  unfold unique_grades. simpl. repeat constructor; simpl.
  - intros [H | []]. discriminate H.
  - intros [].
Defined.

(** Marks 70, then 95, for the student who had 85. *)
Lemma enterGrades_upsert_witness :
  let out1 := UMSApplication.enterGrades sample_db sample_teacher
                "CS101" "EX001" "STU001" 70 "first" in
  let out2 := UMSApplication.enterGrades (fst out1) sample_teacher
                "CS101" "EX001" "STU001" 95 "second" in
  records_of "STU001" "EX001" (DatabaseManager.grades (fst out2))
    = [Grade.mk "STU001" "EX001" 95 "A+" "second"] /\
  List.length (DatabaseManager.grades (fst out2)) = 2%nat.
Proof.
  destruct (enterGrades_upsert sample_db sample_teacher "CS101" "EX001" "STU001"
              sample_exam 70 "first" 95 "second" sample_db_unique
              (sample_db_accepted 70 ltac:(lia)) (sample_db_accepted 95 ltac:(lia)))
    as (_ & _ & _ & _ & Hlen & _ & Hrec & _).
  split; [exact Hrec | reflexivity].
Defined.

(** * Letter grades: the percentage in binary64

    [enterGrades] computes the percentage in [double]: the marks and the
    total convert exactly, the quotient is rounded to 53 bits, and so is
    its product by one hundred.  What follows relates the operations of
    the binary64 specification to exact quotients, and shows that the
    two roundings never move the percentage across a threshold of the
    ladder. *)

Local Open Scope Z_scope.

(** ** Binary digits *)

Lemma digits2_pos_bounds p :
  2 ^ (Z.pos (digits2_pos p) - 1) <= Z.pos p < 2 ^ Z.pos (digits2_pos p).
Proof.
  induction p as [p IH | p IH |]; cbn [digits2_pos].
  - rewrite Pos2Z.inj_succ, Pos2Z.inj_xI.
    replace (Z.succ (Z.pos (digits2_pos p)) - 1) with (Z.succ (Z.pos (digits2_pos p) - 1)) by lia.
    rewrite !Z.pow_succ_r by lia.
    generalize dependent (2 ^ (Z.pos (digits2_pos p) - 1)).
    generalize dependent (2 ^ Z.pos (digits2_pos p)). intros; lia.
  - rewrite Pos2Z.inj_succ. change (Z.pos p~0) with (2 * Z.pos p).
    replace (Z.succ (Z.pos (digits2_pos p)) - 1) with (Z.succ (Z.pos (digits2_pos p) - 1)) by lia.
    rewrite !Z.pow_succ_r by lia.
    generalize dependent (2 ^ (Z.pos (digits2_pos p) - 1)).
    generalize dependent (2 ^ Z.pos (digits2_pos p)). intros; lia.
  - simpl. lia.
Qed.

Lemma digits2_pos_unique p d :
  2 ^ (d - 1) <= Z.pos p < 2 ^ d -> Z.pos (digits2_pos p) = d.
Proof.
  intros [Hl Hu]. pose proof (digits2_pos_bounds p) as [Hl' Hu'].
  set (d' := Z.pos (digits2_pos p)) in *.
  assert (0 < d') by (unfold d'; lia).
  assert (0 < d).
  { destruct (Z_lt_le_dec 0 d) as [|Hd]; [assumption|].
    rewrite Z.pow_neg_r in Hl by lia.
    destruct (Z.eq_dec d 0) as [->|]; [simpl in Hu; lia|].
    rewrite Z.pow_neg_r in Hu by lia. lia. }
  destruct (Z.lt_trichotomy d' d) as [Hlt | [Heq | Hgt]]; [|assumption|].
  - assert (2 ^ d' <= 2 ^ (d - 1)) by (apply Z.pow_le_mono_r; lia). lia.
  - assert (2 ^ d <= 2 ^ (d' - 1)) by (apply Z.pow_le_mono_r; lia). lia.
Qed.

(** ** Shifting with round and sticky bits *)

Lemma loc_of_shr_record_of_loc m l :
  loc_of_shr_record (shr_record_of_loc m l) = l.
Proof. destruct l as [|[]]; reflexivity. Qed.

Lemma shr_m_of_loc m l : shr_m (shr_record_of_loc m l) = m.
Proof. destruct l as [|[]]; reflexivity. Qed.

Lemma rec_ok_of_loc q l N D :
  0 <= q -> 0 < D -> 0 <= N - q * D < D -> loc_ok l (N - q * D) D ->
  rec_ok (shr_record_of_loc q l) N D.
Proof.
  intros Hq HD Hr Hl. unfold rec_ok.
  rewrite loc_of_shr_record_of_loc, shr_m_of_loc. auto.
Qed.

Lemma shr_1_spec m r s :
  0 <= m ->
  shr_1 (Build_shr_record m r s) = Build_shr_record (Z.div2 m) (Z.odd m) (r || s).
Proof. intros Hm. destruct m as [|[p|p|]|p]; try reflexivity; lia. Qed.

Lemma loc_ok_compare c r D :
  (2 * r ?= D) = c <->
  match c with Eq => 2 * r = D | Lt => 2 * r < D | Gt => D < 2 * r end.
Proof.
  destruct c.
  - apply Z.compare_eq_iff.
  - apply Z.compare_lt_iff.
  - apply Z.compare_gt_iff.
Qed.

Lemma shr_1_ok mrs N D : rec_ok mrs N D -> rec_ok (shr_1 mrs) N (2 * D).
Proof.
  destruct mrs as [m r s]. intros (HD & Hm & Hr & Hl). cbn [shr_m] in *.
  rewrite shr_1_spec by assumption. unfold rec_ok. cbn [shr_m].
  pose proof (Z.div2_odd m) as Hm2.
  assert (0 <= Z.div2 m) by (apply Z.div2_nonneg; assumption).
  split; [lia|]. split; [assumption|].
  destruct r, s; cbn [orb loc_of_shr_record loc_ok] in Hl |- *;
    try match type of Hl with
        | _ /\ _ => let Hc := fresh "Hc" in
                    destruct Hl as [? Hc]; apply loc_ok_compare in Hc
        end;
    destruct (Z.odd m); cbn [Z.b2z loc_of_shr_record loc_ok] in *;
    (split; [lia|]); try lia;
    (split; [lia|]); apply loc_ok_compare; lia.
Qed.

Lemma iter_shr_1_ok n mrs N D :
  rec_ok mrs N D -> rec_ok (Nat.iter n shr_1 mrs) N (2 ^ Z.of_nat n * D).
Proof.
  intros H. induction n as [|n IH].
  - cbn [Nat.iter]. change (2 ^ Z.of_nat 0) with 1. now rewrite Z.mul_1_l.
  - rewrite Nat2Z.inj_succ, Z.pow_succ_r by lia. cbn [Nat.iter].
    rewrite <- Z.mul_assoc. now apply shr_1_ok.
Qed.

Lemma iter_pos_nat {A} (f : A -> A) p x :
  SpecFloat.iter_pos f p x = Nat.iter (Pos.to_nat p) f x.
Proof.
  revert x. induction p as [p IH | p IH |]; intros x; cbn [SpecFloat.iter_pos].
  - rewrite !IH, Pos2Nat.inj_xI.
    replace (S (2 * Pos.to_nat p)) with (Pos.to_nat p + (Pos.to_nat p + 1))%nat by lia.
    now rewrite !Nat.iter_add.
  - rewrite !IH, Pos2Nat.inj_xO.
    replace (2 * Pos.to_nat p)%nat with (Pos.to_nat p + Pos.to_nat p)%nat by lia.
    now rewrite Nat.iter_add.
  - reflexivity.
Qed.

Lemma shr_ok mrs e n N D :
  0 <= n -> rec_ok mrs N D ->
  rec_ok (fst (shr mrs e n)) N (2 ^ n * D) /\ snd (shr mrs e n) = e + n.
Proof.
  intros Hn H. destruct n as [|p|p]; [| |lia]; cbn [shr fst snd].
  - split; [|lia]. change (2 ^ 0) with 1. now rewrite Z.mul_1_l.
  - split; [|reflexivity]. rewrite iter_pos_nat.
    rewrite <- (positive_nat_Z p). now apply iter_shr_1_ok.
Qed.

Lemma rne_ok mrs N D :
  rec_ok mrs N D ->
  let X := round_nearest_even (shr_m mrs) (loc_of_shr_record mrs) in
  shr_m mrs <= X <= shr_m mrs + 1 /\
  2 * X * D - 2 * N <= D /\ 2 * N - 2 * X * D <= D /\
  (N - shr_m mrs * D = 0 -> X = shr_m mrs).
Proof.
  intros (HD & Hm & Hr & Hl) X. subst X.
  destruct (loc_of_shr_record mrs) as [|c]; cbn [loc_ok round_nearest_even] in *.
  - repeat split; try lia.
  - destruct Hl as [Hne Hc]. apply loc_ok_compare in Hc. destruct c.
    + destruct (Z.even (shr_m mrs)); repeat split; lia.
    + repeat split; lia.
    + repeat split; lia.
Qed.

(** ** Rounding a quotient to 53 bits *)

Lemma fexp_normal x : -1074 <= x - 53 -> fexp prec emax x = x - 53.
Proof. unfold fexp, SpecFloat.emin, prec, emax. lia. Qed.

Lemma Zdigits2_unique q d :
  2 ^ (d - 1) <= q < 2 ^ d -> 0 < q -> Zdigits2 q = d.
Proof.
  intros H Hq. destruct q as [|p|p]; try lia. cbn [Zdigits2].
  now apply digits2_pos_unique.
Qed.

(** [q] with its location [l] is the quotient of [N] by [D], on [53 + j]
    bits; rounding keeps 53 of them. *)
Lemma binary_round_aux_spec q e l N D j :
  0 < D -> 0 <= j -> 2 ^ (52 + j) <= q < 2 ^ (53 + j) ->
  0 <= N - q * D < D -> loc_ok l (N - q * D) D ->
  -1074 <= e + j -> e + j + 1 <= 971 ->
  exists Xr,
    2 ^ 52 <= Xr <= 2 ^ 53 /\
    2 ^ 52 <= N / (2 ^ j * D) < 2 ^ 53 /\
    N / (2 ^ j * D) <= Xr <= N / (2 ^ j * D) + 1 /\
    2 * Xr * (2 ^ j * D) - 2 * N <= 2 ^ j * D /\
    2 * N - 2 * Xr * (2 ^ j * D) <= 2 ^ j * D /\
    (N mod (2 ^ j * D) = 0 -> Xr = N / (2 ^ j * D)) /\
    binary_round_aux prec emax false q e l =
      if Xr <? 2 ^ 53 then S754_finite false (Z.to_pos Xr) (e + j)
      else S754_finite false (Z.to_pos (2 ^ 52)) (e + j + 1).
Proof.
  intros HD Hj Hq Hr Hl Hlo Hhi.
  assert (Hq0 : 0 < q).
  { assert (0 < 2 ^ (52 + j)) by (apply Z.pow_pos_nonneg; lia). lia. }
  assert (Hpj : 0 < 2 ^ j) by (apply Z.pow_pos_nonneg; lia).
  unfold binary_round_aux, shr_fexp.
  rewrite (Zdigits2_unique q (53 + j)) by (replace (53 + j - 1) with (52 + j) by lia; assumption).
  rewrite fexp_normal by lia.
  replace (53 + j + e - 53 - e) with j by lia.
  pose proof (shr_ok (shr_record_of_loc q l) e j N D Hj
                (rec_ok_of_loc q l N D ltac:(lia) HD Hr Hl)) as [Hok He].
  destruct (shr (shr_record_of_loc q l) e j) as [mrs' e'] eqn:Eshr.
  cbn [fst snd] in Hok, He. subst e'.
  pose proof (rne_ok mrs' N (2 ^ j * D) Hok) as (HX1 & HX2 & HX3 & HX4).
  destruct Hok as (HD' & Hm' & Hr' & _).
  set (Xr := round_nearest_even (shr_m mrs') (loc_of_shr_record mrs')) in *.
  assert (Em : shr_m mrs' = N / (2 ^ j * D)).
  { apply (Z.div_unique_pos _ _ _ (N - shr_m mrs' * (2 ^ j * D))); lia. }
  assert (Eq : q = N / D).
  { apply (Z.div_unique_pos _ _ _ (N - q * D)); lia. }
  assert (Hm52 : 2 ^ 52 <= shr_m mrs' < 2 ^ 53).
  { rewrite Em, (Z.mul_comm (2 ^ j) D), <- Z.div_div, <- Eq by lia.
    rewrite !Z.pow_add_r in Hq by lia. split.
    - apply Z.div_le_lower_bound; lia.
    - apply Z.div_lt_upper_bound; lia. }
  exists Xr. rewrite <- Em.
  split; [lia|]. split; [lia|]. split; [lia|]. split; [lia|]. split; [lia|].
  split.
  { intros Hmod. apply HX4.
    pose proof (Z.div_mod N (2 ^ j * D) ltac:(lia)) as Hdm.
    rewrite Hmod, <- Em in Hdm. lia. }
  destruct (Z.ltb_spec Xr (2 ^ 53)) as [Hlt | Hge].
  - rewrite (Zdigits2_unique Xr 53) by (simpl (53 - 1); lia).
    rewrite fexp_normal by lia.
    replace (53 + (e + j) - 53 - (e + j)) with 0 by lia.
    cbn [shr shr_record_of_loc shr_m].
    destruct Xr as [|p|p]; try lia.
    cbn [Z.to_pos]. unfold emax, prec.
    destruct (Z.leb_spec (e + j) (1024 - 53)); [reflexivity | lia].
  - assert (EX : Xr = 2 ^ 53) by lia. rewrite EX.
    change (Zdigits2 (2 ^ 53)) with 54.
    rewrite fexp_normal by lia.
    replace (54 + (e + j) - 53 - (e + j)) with 1 by lia.
    cbn [shr shr_record_of_loc SpecFloat.iter_pos]. cbn.
    destruct (Z.leb_spec (e + j + 1) 971); [reflexivity | lia].
Qed.

(** ** The result of an operation on positive numbers *)
(** The quotient [N / (2 ^ j * D)] that was rounded is [A * 2 ^ s / B],
    up to common factors [c1] and [c2]. *)
Lemma round_RN q e l N D j A B s c1 c2 :
  0 < D -> 0 <= j -> 2 ^ (52 + j) <= q < 2 ^ (53 + j) ->
  0 <= N - q * D < D -> loc_ok l (N - q * D) D ->
  0 < B -> 0 < c1 -> 0 < c2 -> 1 <= s <= 200 -> e + j = - s ->
  N * c1 = A * 2 ^ s * c2 -> 2 ^ j * D * c1 = B * c2 ->
  RN_spec A B (binary_round_aux prec emax false q e l).
Proof.
  intros HD Hj Hq Hr Hl HB Hc1 Hc2 Hs He EN ED.
  destruct (binary_round_aux_spec q e l N D j HD Hj Hq Hr Hl ltac:(lia) ltac:(lia))
    as (Xr & HX & Hm0 & HXm & Hup & Hdn & Hex & ->).
  assert (Hpj : 0 < 2 ^ j) by (apply Z.pow_pos_nonneg; lia).
  assert (Ediv : N / (2 ^ j * D) = (A * 2 ^ s) / B).
  { rewrite <- (Z.div_mul_cancel_r N (2 ^ j * D) c1) by lia.
    rewrite <- (Z.div_mul_cancel_r (A * 2 ^ s) B c2) by lia.
    now rewrite EN, ED. }
  assert (Emod : (A * 2 ^ s) mod B = 0 -> N mod (2 ^ j * D) = 0).
  { intros Hmod.
    assert (H1 : (N * c1) mod (2 ^ j * D * c1) = 0).
    { rewrite EN, ED, Z.mul_mod_distr_r, Hmod by lia. lia. }
    rewrite Z.mul_mod_distr_r in H1 by lia.
    apply Z.mul_eq_0_l in H1; lia. }
  exists s, Xr. rewrite <- Ediv, He.
  replace (- s + 1) with (1 - s) by lia.
  repeat split; try lia; try tauto.
  - apply (Z.mul_le_mono_pos_r _ _ c2); [lia|].
    assert (H : 2 * Xr * (2 ^ j * D * c1) - 2 * (N * c1) <= 2 ^ j * D * c1) by nia.
    rewrite ED, EN in H. lia.
  - apply (Z.mul_le_mono_pos_r _ _ c2); [lia|].
    assert (H : 2 * (N * c1) - 2 * Xr * (2 ^ j * D * c1) <= 2 ^ j * D * c1) by nia.
    rewrite ED, EN in H. lia.
Qed.

(** ** Order on positive finite numbers *)

Lemma SFleb_finite m1 e1 m2 e2 :
  SFleb (S754_finite false m1 e1) (S754_finite false m2 e2) = true <->
  e1 < e2 \/ (e1 = e2 /\ Z.pos m1 <= Z.pos m2).
Proof.
  unfold SFleb, SFcompare.
  destruct (Z.compare_spec e1 e2) as [He | He | He].
  - rewrite Pos.compare_cont_spec. cbn [Pos.switch_Eq].
    destruct (Pos.compare_spec m1 m2) as [Hm | Hm | Hm]; split; intros H;
      try discriminate; try reflexivity; try lia.
  - split; intros _; [lia | reflexivity].
  - split; intros H; [discriminate | lia].
Qed.

Lemma RN_spec_form A B f :
  RN_spec A B f ->
  exists X sx, f = S754_finite false (Z.to_pos X) (- sx) /\
               2 ^ 52 <= X < 2 ^ 53 /\ 0 <= sx <= 200.
Proof.
  intros (s & Xr & Hs & HX & _ & _ & _ & _ & _ & ->).
  destruct (Z.ltb_spec Xr (2 ^ 53)).
  - exists Xr, s. split; [reflexivity | lia].
  - exists (2 ^ 52), (s - 1). split; [f_equal; lia | lia].
Qed.

Lemma pow2_lt_mul a b : 0 <= a < b -> 2 * 2 ^ a <= 2 ^ b.
Proof.
  intros H. rewrite <- Z.pow_succ_r by lia. apply Z.pow_le_mono_r; lia.
Qed.

(** A representable number at or below the exact quotient is at or below
    its rounding ... *)
Lemma RN_above A B f Cm sc :
  RN_spec A B f -> 0 < B -> 0 <= A ->
  2 ^ 52 <= Cm < 2 ^ 53 -> 0 <= sc ->
  Cm * B <= A * 2 ^ sc ->
  SFleb (S754_finite false (Z.to_pos Cm) (- sc)) f = true.
Proof.
  intros (s & Xr & Hs & HX & Hm0 & HXm & _ & _ & _ & ->) HB HA HC Hsc Hle.
  assert (HCp : Z.pos (Z.to_pos Cm) = Cm) by (apply Z2Pos.id; lia).
  assert (Hlow : ((A * 2 ^ s) / B) * B <= A * 2 ^ s)
    by (rewrite Z.mul_comm; apply Z.mul_div_le; lia).
  assert (Hupp : A * 2 ^ s < ((A * 2 ^ s) / B + 1) * B).
  { pose proof (Z.mul_succ_div_gt (A * 2 ^ s) B HB). lia. }
  destruct (Z.lt_trichotomy sc s) as [Hlt | [Heq | Hgt]].
  - exfalso.
    pose proof (pow2_lt_mul sc s ltac:(lia)) as Hp.
    assert (0 < 2 ^ sc) by (apply Z.pow_pos_nonneg; lia).
    assert (2 ^ 53 * B <= A * 2 ^ s) by nia.
    assert (2 ^ 53 <= (A * 2 ^ s) / B) by (apply Z.div_le_lower_bound; lia).
    lia.
  - subst sc.
    assert (Cm <= (A * 2 ^ s) / B) by (apply Z.div_le_lower_bound; lia).
    destruct (Z.ltb_spec Xr (2 ^ 53)); apply SFleb_finite; rewrite HCp.
    + right. split; [reflexivity|]. rewrite Z2Pos.id by lia. lia.
    + left. lia.
  - destruct (Z.ltb_spec Xr (2 ^ 53)); apply SFleb_finite; left; lia.
Qed.

(** ... and one at or above it is at or above its rounding. *)
Lemma RN_below A B f Cm sc :
  RN_spec A B f -> 0 < B -> 0 <= A ->
  2 ^ 52 <= Cm < 2 ^ 53 -> 0 <= sc ->
  A * 2 ^ sc <= Cm * B ->
  SFleb f (S754_finite false (Z.to_pos Cm) (- sc)) = true.
Proof.
  intros (s & Xr & Hs & HX & Hm0 & HXm & _ & _ & Hex & ->) HB HA HC Hsc Hle.
  assert (HCp : Z.pos (Z.to_pos Cm) = Cm) by (apply Z2Pos.id; lia).
  assert (Hlow : ((A * 2 ^ s) / B) * B <= A * 2 ^ s)
    by (rewrite Z.mul_comm; apply Z.mul_div_le; lia).
  destruct (Z.lt_trichotomy sc s) as [Hlt | [Heq | Hgt]].
  - destruct (Z.ltb_spec Xr (2 ^ 53)); apply SFleb_finite; rewrite HCp.
    + left. lia.
    + destruct (Z.eq_dec (1 - s) (- sc)) as [E | E].
      * right. split; [exact E|]. rewrite Z2Pos.id by lia. lia.
      * left. lia.
  - subst sc.
    assert (Hm : (A * 2 ^ s) / B <= Cm).
    { apply Z.div_le_upper_bound; lia. }
    assert (HXC : Xr <= Cm).
    { destruct (Z.eq_dec ((A * 2 ^ s) / B) Cm) as [E | E]; [|lia].
      rewrite Hex; [lia|].
      assert (A * 2 ^ s = B * ((A * 2 ^ s) / B)) by lia.
      apply Z.mod_divide; [lia|]. exists ((A * 2 ^ s) / B). lia. }
    destruct (Z.ltb_spec Xr (2 ^ 53)); [|lia].
    apply SFleb_finite. rewrite HCp. right. split; [reflexivity|].
    rewrite Z2Pos.id by lia. lia.
  - exfalso.
    pose proof (pow2_lt_mul s sc ltac:(lia)) as Hp.
    assert (0 < 2 ^ s) by (apply Z.pow_pos_nonneg; lia).
    assert (2 ^ 53 * B <= A * 2 ^ sc) by nia.
    nia.
Qed.

Lemma finite_inj b1 m1 e1 b2 m2 e2 :
  S754_finite b1 m1 e1 = S754_finite b2 m2 e2 -> m1 = m2 /\ e1 = e2.
Proof. intros H. split; congruence. Qed.

(** The rounding is at most half a unit of its last place away. *)
Lemma RN_half A B X s' :
  RN_spec A B (S754_finite false X (- s')) -> 0 < B ->
  2 * Z.pos X * B - 2 * (A * 2 ^ s') <= B /\
  2 * (A * 2 ^ s') - 2 * Z.pos X * B <= B.
Proof.
  intros (s & Xr & Hs & HX & _ & _ & Hup & Hdn & _ & E) HB.
  destruct (Z.ltb_spec Xr (2 ^ 53)); apply finite_inj in E as [-> E'].
  - assert (s' = s) by (clear - E'; lia). subst s'. rewrite Z2Pos.id by lia. lia.
  - assert (s = s' + 1) by (clear - E'; lia). subst s.
    assert (Xr = 2 ^ 53) by lia. subst Xr.
    rewrite Z.pow_add_r in Hup, Hdn by lia.
    change (Z.pos (Z.to_pos (2 ^ 52))) with (2 ^ 52).
    change (2 ^ 53) with (2 * 2 ^ 52) in Hup, Hdn. lia.
Qed.

(** ** Conversion, division, multiplication *)

Lemma Pos_iter_xO p k : Z.pos (Pos.iter xO p k) = Z.pos p * 2 ^ Z.pos k.
Proof.
  induction k as [|k IH] using Pos.peano_ind.
  - cbn [Pos.iter]. change (2 ^ 1) with 2. lia.
  - rewrite Pos.iter_succ, Pos2Z.inj_succ, Z.pow_succ_r by lia.
    change (Z.pos (Pos.iter xO p k)~0) with (2 * Z.pos (Pos.iter xO p k)).
    rewrite IH. ring.
Qed.

(** A 53-bit mantissa is left as it is. *)
Lemma binary_round_aux_exact M e :
  2 ^ 52 <= Z.pos M < 2 ^ 53 -> -1074 <= e <= 970 ->
  binary_round_aux prec emax false (Z.pos M) e loc_Exact = S754_finite false M e.
Proof.
  intros HM He.
  destruct (binary_round_aux_spec (Z.pos M) e loc_Exact (Z.pos M) 1 0)
    as (Xr & HX & _ & _ & _ & _ & Hex & ->); cbn [loc_ok]; try lia.
  change (2 ^ 0 * 1) with 1 in Hex.
  rewrite Z.mod_1_r, Z.div_1_r in Hex. rewrite (Hex eq_refl).
  destruct (Z.ltb_spec (Z.pos M) (2 ^ 53)); [|lia].
  cbn [Z.to_pos]. f_equal. lia.
Qed.

(** An integer below [2 ^ 53] converts exactly. *)
Lemma binary_normalize_int z :
  0 < z < 2 ^ 53 ->
  binary_normalize prec emax z 0 false =
    S754_finite false (Z.to_pos (z * 2 ^ (53 - Zdigits2 z))) (Zdigits2 z - 53).
Proof.
  intros Hz. destruct z as [|p|p]; try lia.
  cbn [binary_normalize Zdigits2]. unfold binary_round.
  pose proof (digits2_pos_bounds p) as Hd.
  set (d := Z.pos (digits2_pos p)) in *.
  assert (Hd53 : 1 <= d <= 53).
  { split; [unfold d; lia|].
    destruct (Z_le_gt_dec d 53) as [|G]; [assumption|].
    assert (2 ^ 53 <= 2 ^ (d - 1)) by (apply Z.pow_le_mono_r; lia). lia. }
  rewrite fexp_normal by lia. unfold shl_align.
  assert (HM : 2 ^ 52 <= Z.pos p * 2 ^ (53 - d) < 2 ^ 53).
  { assert (E52 : 2 ^ 52 = 2 ^ (d - 1) * 2 ^ (53 - d))
      by (rewrite <- Z.pow_add_r by lia; f_equal; lia).
    assert (E53 : 2 ^ 53 = 2 ^ d * 2 ^ (53 - d))
      by (rewrite <- Z.pow_add_r by lia; f_equal; lia).
    rewrite E52, E53.
    assert (0 < 2 ^ (53 - d)) by (apply Z.pow_pos_nonneg; lia).
    split; [apply Z.mul_le_mono_nonneg_r | apply Z.mul_lt_mono_pos_r]; lia. }
  destruct (d + 0 - 53 - 0) as [|k|k] eqn:E; try lia.
  - assert (d = 53) by (clear - E; lia).
    replace (53 - d) with 0 in * by lia. rewrite Z.mul_1_r in *.
    cbn [Z.to_pos]. replace (d - 53) with 0 by lia.
    apply binary_round_aux_exact; lia.
  - assert (Ek : Z.pos k = 53 - d) by (clear - E; lia).
    assert (EM : Z.pos (Pos.iter xO p k) = Z.pos p * 2 ^ (53 - d))
      by (rewrite Pos_iter_xO, Ek; reflexivity).
    rewrite binary_round_aux_exact by lia.
    replace (d + 0 - 53) with (d - 53) by lia.
    f_equal. rewrite <- EM. reflexivity.
Qed.

Lemma new_location_ok T r :
  0 < T -> 0 <= r < T -> loc_ok (new_location T r) r T.
Proof.
  intros HT Hr. unfold new_location, new_location_even, new_location_odd.
  pose proof (Z.div2_odd T) as HT2. rewrite <- Z.negb_even in HT2.
  destruct (Z.even T); cbn [negb Z.b2z] in HT2;
    destruct (Z.eqb_spec r 0) as [-> | Hne]; cbn [loc_ok]; try reflexivity;
    (split; [assumption|]).
  - reflexivity.
  - destruct (Z.compare_spec (2 * r + 1) T); apply loc_ok_compare; lia.
Qed.

(** The quotient of two 53-bit numbers that stand for [m] and [t]. *)
Lemma SFdiv_RN M ea T eb m t :
  2 ^ 52 <= Z.pos M < 2 ^ 53 -> 2 ^ 52 <= Z.pos T < 2 ^ 53 ->
  -52 <= ea <= -22 -> -52 <= eb <= -22 ->
  Z.pos M = m * 2 ^ (- ea) -> Z.pos T = t * 2 ^ (- eb) ->
  RN_spec m t (SFdiv prec emax (S754_finite false M ea) (S754_finite false T eb)).
Proof.
  intros HM HT Hea Heb EM ET.
  assert (Hpa : 0 < 2 ^ (- ea)) by (apply Z.pow_pos_nonneg; lia).
  assert (Hpb : 0 < 2 ^ (- eb)) by (apply Z.pow_pos_nonneg; lia).
  assert (Ht : 0 < t) by nia.
  unfold SFdiv, SFdiv_core_binary. cbn [xorb].
  rewrite (Zdigits2_unique (Z.pos M) 53), (Zdigits2_unique (Z.pos T) 53)
    by (simpl (53 - 1); lia).
  rewrite fexp_normal by lia.
  replace (Z.min (53 + ea - (53 + eb) - 53) (ea - eb)) with (ea - eb - 53) by lia.
  replace (ea - eb - (ea - eb - 53)) with 53 by lia.
  rewrite Z.shiftl_mul_pow2 by lia.
  pose proof (Z_div_mod (Z.pos M * 2 ^ 53) (Z.pos T) ltac:(lia)) as Hqr.
  destruct (Z.div_eucl (Z.pos M * 2 ^ 53) (Z.pos T)) as [q r].
  destruct Hqr as [Eqr Hr].
  assert (Hq : 2 ^ 52 <= q < 2 ^ 54).
  { change (2 ^ 53) with (2 * 2 ^ 52) in *. change (2 ^ 54) with (4 * 2 ^ 52).
    split.
    - destruct (Z_le_gt_dec (2 ^ 52) q) as [|G]; [assumption|]. exfalso.
      assert (Z.pos T * q <= Z.pos T * (2 ^ 52 - 1)) by (apply Z.mul_le_mono_nonneg_l; lia).
      nia.
    - destruct (Z_lt_le_dec q (4 * 2 ^ 52)) as [|G]; [assumption|]. exfalso.
      assert (Z.pos T * (4 * 2 ^ 52) <= Z.pos T * q) by (apply Z.mul_le_mono_nonneg_l; lia).
      nia. }
  set (j := if q <? 2 ^ 53 then 0 else 1).
  assert (Hj : 0 <= j <= 1 /\ 2 ^ (52 + j) <= q < 2 ^ (53 + j)).
  { unfold j. destruct (Z.ltb_spec q (2 ^ 53)); split; lia. }
  destruct Hj as [Hj Hqj].
  assert (Hc2 : 0 < 2 ^ (j - eb)) by (apply Z.pow_pos_nonneg; lia).
  assert (EN : Z.pos M * 2 ^ 53 * 1 = m * 2 ^ (53 + eb - ea - j) * 2 ^ (j - eb)).
  { rewrite EM, Z.mul_1_r, <- !Z.mul_assoc, <- !Z.pow_add_r by lia.
    do 2 f_equal. lia. }
  assert (ED : 2 ^ j * Z.pos T * 1 = t * 2 ^ (j - eb)).
  { rewrite ET, Z.mul_1_r. replace (j - eb) with (j + - eb) by lia.
    rewrite Z.pow_add_r by lia. ring. }
  assert (Hrem : Z.pos M * 2 ^ 53 - q * Z.pos T = r) by lia.
  assert (Hloc : loc_ok (new_location (Z.pos T) r)
                        (Z.pos M * 2 ^ 53 - q * Z.pos T) (Z.pos T))
    by (rewrite Hrem; apply new_location_ok; lia).
  apply (round_RN q (ea - eb - 53) (new_location (Z.pos T) r)
           (Z.pos M * 2 ^ 53) (Z.pos T) j m t (53 + eb - ea - j) 1 (2 ^ (j - eb)));
    try assumption; try lia.
Qed.

(** The product of a 53-bit number by one hundred. *)
Lemma SFmul100_RN X sx :
  2 ^ 52 <= Z.pos X < 2 ^ 53 -> 53 <= sx <= 200 ->
  RN_spec (100 * Z.pos X) (2 ^ sx)
          (SFmul prec emax (S754_finite false X (- sx)) sf_100).
Proof.
  intros HX Hsx. unfold SFmul, sf_100. cbn [xorb].
  set (q := Z.pos (X * 7036874417766400)).
  assert (Eq : q = Z.pos X * (100 * 2 ^ 46)) by (unfold q; lia).
  assert (Hq : 2 ^ 104 <= q < 2 ^ 106) by (rewrite Eq; lia).
  set (j := if q <? 2 ^ 105 then 52 else 53).
  assert (Hj : 52 <= j <= 53 /\ 2 ^ (52 + j) <= q < 2 ^ (53 + j))
    by (unfold j; destruct (Z.ltb_spec q (2 ^ 105)); split; lia).
  destruct Hj as [Hj Hqj].
  assert (Hc1 : 0 < 2 ^ (sx - j)) by (apply Z.pow_pos_nonneg; lia).
  assert (Hps : 0 < 2 ^ sx) by (apply Z.pow_pos_nonneg; lia).
  assert (EN : q * 2 ^ (sx - j) = 100 * Z.pos X * 2 ^ (sx + 46 - j) * 1).
  { rewrite Eq, Z.mul_1_r. replace (sx + 46 - j) with (46 + (sx - j)) by lia.
    rewrite Z.pow_add_r by lia. ring. }
  assert (ED : 2 ^ j * 1 * 2 ^ (sx - j) = 2 ^ sx * 1).
  { rewrite !Z.mul_1_r, <- Z.pow_add_r by lia. f_equal. lia. }
  assert (Hrem : q - q * 1 = 0) by lia.
  apply (round_RN q (- sx + -46) loc_Exact q 1 j (100 * Z.pos X) (2 ^ sx)
           (sx + 46 - j) (2 ^ (sx - j)) 1);
    try assumption; try lia.
Qed.

(** ** The percentage of [enterGrades] *)

Lemma sf_of_int_pos z :
  0 < z < 2 ^ 31 ->
  exists M e, sf_of_int z = S754_finite false M e /\
              2 ^ 52 <= Z.pos M < 2 ^ 53 /\ -52 <= e <= -22 /\
              Z.pos M = z * 2 ^ (- e).
Proof.
  intros Hz. unfold sf_of_int. rewrite binary_normalize_int by lia.
  destruct z as [|p|p]; try lia. cbn [Zdigits2].
  pose proof (digits2_pos_bounds p) as Hd.
  set (d := Z.pos (digits2_pos p)) in *.
  assert (Hd31 : 1 <= d <= 31).
  { split; [unfold d; lia|].
    destruct (Z_le_gt_dec d 31) as [|G]; [assumption|].
    assert (2 ^ 31 <= 2 ^ (d - 1)) by (apply Z.pow_le_mono_r; lia). lia. }
  assert (HM : 2 ^ 52 <= Z.pos p * 2 ^ (53 - d) < 2 ^ 53).
  { assert (E52 : 2 ^ 52 = 2 ^ (d - 1) * 2 ^ (53 - d))
      by (rewrite <- Z.pow_add_r by lia; f_equal; lia).
    assert (E53 : 2 ^ 53 = 2 ^ d * 2 ^ (53 - d))
      by (rewrite <- Z.pow_add_r by lia; f_equal; lia).
    rewrite E52, E53.
    assert (0 < 2 ^ (53 - d)) by (apply Z.pow_pos_nonneg; lia).
    split; [apply Z.mul_le_mono_nonneg_r | apply Z.mul_lt_mono_pos_r]; lia. }
  exists (Z.to_pos (Z.pos p * 2 ^ (53 - d))), (d - 53).
  rewrite Z2Pos.id by lia. replace (- (d - 53)) with (53 - d) by lia.
  repeat split; lia.
Qed.

Lemma div_RN m t :
  0 < m < 2 ^ 31 -> 0 < t < 2 ^ 31 ->
  RN_spec m t (SFdiv prec emax (sf_of_int m) (sf_of_int t)).
Proof.
  intros Hm Ht.
  destruct (sf_of_int_pos m Hm) as (M & ea & -> & HM & Hea & EM).
  destruct (sf_of_int_pos t Ht) as (T & eb & -> & HT & Heb & ET).
  now apply SFdiv_RN.
Qed.

Lemma sf_percentage_zero t :
  0 < t < 2 ^ 31 -> sf_percentage 0 t = S754_zero false.
Proof.
  intros Ht. unfold sf_percentage.
  destruct (sf_of_int_pos t Ht) as (T & eb & -> & _). reflexivity.
Qed.

(** The comparison of the percentage of [m] out of [t] with a threshold
    [k], the float [Km * 2 ^ - sk].  [C * 2 ^ -53] is the float nearest
    to [k / 100] and [Bm * 2 ^ - sb] a float a little below [k / 100]. *)

(** At or above the threshold: the quotient is at least the float
    nearest to [k / 100], and one hundred times that float rounds to at
    least [k]. *)
Ltac threshold_above m t Km sk C :=
  let Hx := fresh "Hx" in
  let Hcx := fresh "Hcx" in
  let H1x := fresh "H1x" in
  let Hp := fresh "Hp" in
  pose proof (div_RN m t ltac:(lia) ltac:(lia)) as Hx;
  unfold sf_percentage;
  assert (Hcx : SFleb (S754_finite false (Z.to_pos C) (-53))
                      (SFdiv prec emax (sf_of_int m) (sf_of_int t)) = true);
  [ let H1 := fresh "H1" in
    destruct (Z_le_gt_dec (C * t) (m * 2 ^ 53)) as [H1 | H1];
    [ apply (RN_above m t _ C 53 Hx); lia
    | first
        [ exfalso; lia
        | let Ha := fresh "Ha" in
          let Hb := fresh "Hb" in
          let X := fresh "X" in
          let sx := fresh "sx" in
          let Ex := fresh "Ex" in
          let HX := fresh "HX" in
          let Hsx := fresh "Hsx" in
          let Hh := fresh "Hh" in
          pose proof (RN_above m t _ (C - 1) 53 Hx ltac:(lia) ltac:(lia)
                        ltac:(lia) ltac:(lia) ltac:(lia)) as Ha;
          pose proof (RN_below m t _ C 53 Hx ltac:(lia) ltac:(lia)
                        ltac:(lia) ltac:(lia) ltac:(lia)) as Hb;
          destruct (RN_spec_form _ _ _ Hx) as (X & sx & Ex & HX & Hsx);
          rewrite Ex in *;
          apply SFleb_finite in Ha, Hb; apply SFleb_finite;
          rewrite ?Z2Pos.id in * by lia;
          assert (sx = 53) by lia; subst sx;
          destruct (Z.eq_dec X (C - 1)); [|right; lia];
          exfalso; subst X;
          pose proof (RN_half m t _ 53 Hx ltac:(lia)) as Hh;
          rewrite ?Z2Pos.id in Hh by lia; lia ] ]
  | let X := fresh "X" in
    let sx := fresh "sx" in
    let Ex := fresh "Ex" in
    let HX := fresh "HX" in
    let Hsx := fresh "Hsx" in
    let Hcase := fresh "Hcase" in
    let HCX := fresh "HCX" in
    let H2 := fresh "H2" in
    pose proof (RN_below m t _ (2 ^ 52) 52 Hx ltac:(lia) ltac:(lia)
                  ltac:(lia) ltac:(lia) ltac:(lia)) as H1x;
    destruct (RN_spec_form _ _ _ Hx) as (X & sx & Ex & HX & Hsx);
    rewrite Ex in *;
    apply SFleb_finite in Hcx, H1x;
    rewrite ?Z2Pos.id in * by lia;
    assert (Hcase : (sx = 52 /\ X = 2 ^ 52) \/ (sx = 53 /\ C <= X)) by lia;
    destruct Hcase as [[-> ->] | [-> HCX]];
    [ vm_compute; reflexivity
    | pose proof (SFmul100_RN (Z.to_pos X) 53 ltac:(rewrite Z2Pos.id; lia)
                    ltac:(lia)) as Hp;
      rewrite Z2Pos.id in Hp by lia;
      destruct (Z_le_gt_dec (Km * 2 ^ 53) (100 * X * 2 ^ sk)) as [H2 | H2];
      [ apply (RN_above (100 * X) (2 ^ 53) _ Km sk Hp); lia
      | assert (X = C) by lia; subst X; vm_compute; reflexivity ] ] ].

(** Below the threshold: the quotient is at most the float a little
    below [k / 100], and one hundred times what is at most that float
    rounds below [k]. *)
Ltac threshold_below m t Km sk Bm sb :=
  let Hx := fresh "Hx" in
  let Hb := fresh "Hb" in
  let X := fresh "X" in
  let sx := fresh "sx" in
  let Ex := fresh "Ex" in
  let HX := fresh "HX" in
  let Hsx := fresh "Hsx" in
  let Hp := fresh "Hp" in
  let Hps := fresh "Hps" in
  let Hph := fresh "Hph" in
  let Hpw := fresh "Hpw" in
  let P := fresh "P" in
  let sp := fresh "sp" in
  let Ep := fresh "Ep" in
  let HP := fresh "HP" in
  let Hsp := fresh "Hsp" in
  let Hk := fresh "Hk" in
  destruct (Z.eq_dec m 0) as [-> | ?];
  [ rewrite sf_percentage_zero by lia; reflexivity
  | pose proof (div_RN m t ltac:(lia) ltac:(lia)) as Hx;
    unfold sf_percentage;
    pose proof (RN_below m t _ Bm sb Hx ltac:(lia) ltac:(lia)
                  ltac:(lia) ltac:(lia) ltac:(lia)) as Hb;
    destruct (RN_spec_form _ _ _ Hx) as (X & sx & Ex & HX & Hsx);
    rewrite Ex in *;
    apply SFleb_finite in Hb;
    rewrite ?Z2Pos.id in Hb by lia;
    assert (sb <= sx) by lia;
    pose proof (SFmul100_RN (Z.to_pos X) sx ltac:(rewrite Z2Pos.id; lia)
                  ltac:(lia)) as Hp;
    rewrite Z2Pos.id in Hp by lia;
    assert (Hps : 0 < 2 ^ sx) by (apply Z.pow_pos_nonneg; lia);
    assert (Hph : SFleb (SFmul prec emax (S754_finite false (Z.to_pos X) (- sx)) sf_100)
                        (S754_finite false (Z.to_pos (Km - 1)) (- sk)) = true);
    [ apply (RN_below (100 * X) (2 ^ sx) _ (Km - 1) sk Hp); try lia;
      destruct (Z.eq_dec sx sb) as [-> | ?];
      [ lia
      | pose proof (pow2_lt_mul sb sx ltac:(lia)) as Hpw;
        clear Hp Hx Ex; generalize dependent (2 ^ sx); intros; lia ]
    | destruct (RN_spec_form _ _ _ Hp) as (P & sp & Ep & HP & Hsp);
      rewrite Ep in *;
      apply SFleb_finite in Hph; apply not_true_is_false; intros Hk;
      apply SFleb_finite in Hk;
      rewrite ?Z2Pos.id in * by lia; lia ] ].

Ltac threshold k Km sk C Bm sb :=
  let Ht := fresh "Ht" in
  let Hm := fresh "Hm" in
  intros Ht Hm;
  match goal with
  | |- SFleb _ (sf_percentage ?m ?t) = _ =>
      destruct (Z.leb_spec (k * t) (100 * m));
      [ threshold_above m t Km sk C | threshold_below m t Km sk Bm sb ]
  end.

Lemma threshold_90 m t :
  0 < t < 2 ^ 31 -> 0 <= m <= t ->
  SFleb (S754_finite false 6333186975989760 (-46)) (sf_percentage m t)
    = (90 * t <=? 100 * m).
Proof. threshold 90 6333186975989760 46 8106479329266893 8106479329224950 53. Qed.

Lemma threshold_85 m t :
  0 < t < 2 ^ 31 -> 0 <= m <= t ->
  SFleb (S754_finite false 5981343255101440 (-46)) (sf_percentage m t)
    = (85 * t <=? 100 * m).
Proof. threshold 85 5981343255101440 46 7656119366529843 7656119366487901 53. Qed.

Lemma threshold_80 m t :
  0 < t < 2 ^ 31 -> 0 <= m <= t ->
  SFleb (S754_finite false 5629499534213120 (-46)) (sf_percentage m t)
    = (80 * t <=? 100 * m).
Proof. threshold 80 5629499534213120 46 7205759403792794 7205759403750851 53. Qed.

Lemma threshold_75 m t :
  0 < t < 2 ^ 31 -> 0 <= m <= t ->
  SFleb (S754_finite false 5277655813324800 (-46)) (sf_percentage m t)
    = (75 * t <=? 100 * m).
Proof. threshold 75 5277655813324800 46 6755399441055744 6755399441013801 53. Qed.

Lemma threshold_70 m t :
  0 < t < 2 ^ 31 -> 0 <= m <= t ->
  SFleb (S754_finite false 4925812092436480 (-46)) (sf_percentage m t)
    = (70 * t <=? 100 * m).
Proof. threshold 70 4925812092436480 46 6305039478318694 6305039478276752 53. Qed.

Lemma threshold_65 m t :
  0 < t < 2 ^ 31 -> 0 <= m <= t ->
  SFleb (S754_finite false 4573968371548160 (-46)) (sf_percentage m t)
    = (65 * t <=? 100 * m).
Proof. threshold 65 4573968371548160 46 5854679515581645 5854679515539702 53. Qed.

Lemma threshold_60 m t :
  0 < t < 2 ^ 31 -> 0 <= m <= t ->
  SFleb (S754_finite false 8444249301319680 (-47)) (sf_percentage m t)
    = (60 * t <=? 100 * m).
Proof. threshold 60 8444249301319680 47 5404319552844595 5404319552802653 53. Qed.

Lemma threshold_55 m t :
  0 < t < 2 ^ 31 -> 0 <= m <= t ->
  SFleb (S754_finite false 7740561859543040 (-47)) (sf_percentage m t)
    = (55 * t <=? 100 * m).
Proof. threshold 55 7740561859543040 47 4953959590107546 4953959590065603 53. Qed.

Lemma threshold_50 m t :
  0 < t < 2 ^ 31 -> 0 <= m <= t ->
  SFleb (S754_finite false 7036874417766400 (-47)) (sf_percentage m t)
    = (50 * t <=? 100 * m).
Proof. threshold 50 7036874417766400 47 4503599627370496 9007199254657106 54. Qed.

Lemma Prim2SF_double_of_int z :
  (0 <= z < 2 ^ 31)%Z -> Prim2SF (UMSApplication.double_of_int z) = sf_of_int z.
Proof.
  intros Hz. unfold UMSApplication.double_of_int, sf_of_int.
  destruct (Z.ltb_spec z 0); [lia|].
  rewrite FloatAxioms.of_uint63_spec, Uint63.of_Z_spec, Z.mod_small; [reflexivity|].
  unfold wB. simpl. lia.
Qed.

Lemma Prim2SF_percentage m t :
  (0 <= m < 2 ^ 31)%Z -> (0 <= t < 2 ^ 31)%Z ->
  Prim2SF (UMSApplication.double_of_int m / UMSApplication.double_of_int t * 100)%float = sf_percentage m t.
Proof.
  intros Hm Ht. rewrite FloatAxioms.mul_spec, FloatAxioms.div_spec, !Prim2SF_double_of_int by assumption.
  reflexivity.
Qed.

Lemma Qle_bool_threshold k m t :
  (0 < t)%Z -> Qle_bool (inject_Z k) (exact_percentage m t) = (k * t <=? 100 * m)%Z.
Proof.
  intros Ht. unfold Qle_bool, exact_percentage, Qmult, inject_Z.
  cbn [Qnum Qden]. rewrite Pos.mul_1_r, Z2Pos.id by assumption.
  f_equal; ring.
Qed.

(** The ladder of the specification, with the comparisons cleared of
    the division. *)
Lemma ladder_exact_percentage m t :
  0 < t ->
  ladder (exact_percentage m t) =
    if 90 * t <=? 100 * m then "A+"
    else if 85 * t <=? 100 * m then "A"
    else if 80 * t <=? 100 * m then "A-"
    else if 75 * t <=? 100 * m then "B+"
    else if 70 * t <=? 100 * m then "B"
    else if 65 * t <=? 100 * m then "B-"
    else if 60 * t <=? 100 * m then "C+"
    else if 55 * t <=? 100 * m then "C"
    else if 50 * t <=? 100 * m then "C-"
    else "F".
Proof.
  intros Ht. unfold ladder.
  change 90%Q with (inject_Z 90). change 85%Q with (inject_Z 85).
  change 80%Q with (inject_Z 80). change 75%Q with (inject_Z 75).
  change 70%Q with (inject_Z 70). change 65%Q with (inject_Z 65).
  change 60%Q with (inject_Z 60). change 55%Q with (inject_Z 55).
  change 50%Q with (inject_Z 50).
  now rewrite !Qle_bool_threshold by assumption.
Qed.

(** The letter computed in binary64 is the letter of the exact
    percentage. *)
Lemma letterGrade_of_exact marks totalMarks :
  0 < totalMarks <= INT_MAX -> 0 <= marks <= totalMarks ->
  UMSApplication.letterGrade_of marks totalMarks =
    ladder (exact_percentage marks totalMarks).
Proof.
  unfold INT_MAX. intros Ht Hm.
  rewrite ladder_exact_percentage by lia.
  unfold UMSApplication.letterGrade_of. cbv zeta.
  rewrite !FloatAxioms.leb_spec, Prim2SF_percentage by lia.
  change (Prim2SF 90) with (S754_finite false 6333186975989760 (-46)).
  change (Prim2SF 85) with (S754_finite false 5981343255101440 (-46)).
  change (Prim2SF 80) with (S754_finite false 5629499534213120 (-46)).
  change (Prim2SF 75) with (S754_finite false 5277655813324800 (-46)).
  change (Prim2SF 70) with (S754_finite false 4925812092436480 (-46)).
  change (Prim2SF 65) with (S754_finite false 4573968371548160 (-46)).
  change (Prim2SF 60) with (S754_finite false 8444249301319680 (-47)).
  change (Prim2SF 55) with (S754_finite false 7740561859543040 (-47)).
  change (Prim2SF 50) with (S754_finite false 7036874417766400 (-47)).
  now rewrite threshold_90, threshold_85, threshold_80, threshold_75, threshold_70,
    threshold_65, threshold_60, threshold_55, threshold_50 by lia.
Qed.

(** Settles every comparison of the cleared ladder by arithmetic. *)
Ltac settle_ladder :=
  repeat match goal with
         | |- context [(?a <=? ?b)%Z] => destruct (Z.leb_spec a b); try lia
         end;
  try reflexivity.

(** C6: for marks between 0 and the total of the exam, the letter
    that [enterGrades] gives, computed in [double], is the letter of the
    ladder on the exact percentage [marks / totalMarks * 100], each band
    including its lower bound: A+ from 90, A from 85, A- from 80, B+ from
    75, B from 70, B- from 65, C+ from 60, C from 55, C- from 50, F below.
    So a ratio of exactly 0.90 gives A+, 0.8999 gives A, exactly 0.50
    gives C- and 0.4999 gives F. *)
Theorem letterGrade_of_ladder marks totalMarks :
  0 < totalMarks <= INT_MAX -> 0 <= marks <= totalMarks ->
  UMSApplication.letterGrade_of marks totalMarks =
    ladder (exact_percentage marks totalMarks) /\
  (10 * marks = 9 * totalMarks ->
   UMSApplication.letterGrade_of marks totalMarks = "A+"%string) /\
  (10000 * marks = 8999 * totalMarks ->
   UMSApplication.letterGrade_of marks totalMarks = "A"%string) /\
  (2 * marks = totalMarks ->
   UMSApplication.letterGrade_of marks totalMarks = "C-"%string) /\
  (10000 * marks = 4999 * totalMarks ->
   UMSApplication.letterGrade_of marks totalMarks = "F"%string).
Proof.
  intros Ht Hm. rewrite (letterGrade_of_exact marks totalMarks Ht Hm).
  split; [reflexivity|].
  rewrite ladder_exact_percentage by lia.
  repeat split; intros E; settle_ladder.
Qed.

(** 8999 marks out of 10000. *)
Lemma letterGrade_of_ladder_witness :
  UMSApplication.letterGrade_of 8999 10000 = "A"%string.
Proof.
  refine (proj1 (proj2 (proj2 (letterGrade_of_ladder 8999 10000 _ _))) _).
  - unfold INT_MAX. lia.
  - lia.
  - reflexivity.
Defined.

Local Close Scope Z_scope.

(** * The rest of the program *)

(** ** Lines and their fields *)

Lemma last_default {A} (l : list A) (d d' : A) : l <> [] -> last l d = last l d'.
Proof.
  induction l as [|x l IH]; [congruence|]. intros _.
  destruct l as [|y l]; [reflexivity|]. apply IH. discriminate.
Qed.

Lemma csv_safe_fields fs : csv_safe fs -> fields "," (join fs) = fs.
Proof.
  intros [Hall Hlast]. apply fields_join; [exact Hall|].
  destruct fs as [|f fs]; [now elim Hlast|].
  now rewrite (last_default _ "x" EmptyString).
Qed.

Lemma csv_safe_split fs : csv_safe fs -> split_csv (join fs) = fs.
Proof. intros H. unfold split_csv. rewrite read_all_fields. now apply csv_safe_fields. Qed.

Lemma Department_safe d :
  csv_safe (Department_fields d) -> Department.fromCSV (Department.toCSV d) = d.
Proof.
  destruct d as [a b c e]. intros H. unfold Department.fromCSV.
  change (Department.toCSV _) with (join [a; b; c; e]).
  change (csv_safe [a; b; c; e]) in H. now rewrite (csv_safe_split _ H).
Qed.

Lemma Semester_safe s :
  csv_safe (Semester_fields s) -> Semester.fromCSV (Semester.toCSV s) = s.
Proof.
  destruct s as [a b c e f]. intros H. unfold Semester.fromCSV.
  change (Semester.toCSV _) with (join [a; b; c; e; f]).
  change (csv_safe [a; b; c; e; f]) in H. now rewrite (csv_safe_split _ H).
Qed.

Lemma User_safe u :
  csv_safe (User_fields u) -> User.fromCSV (User.toCSV u) = u.
Proof.
  destruct u as [a b c d e f g h i j]. intros H. unfold User.fromCSV.
  change (User.toCSV _) with (join [a; b; c; d; e; f; g; h; i; j]).
  change (csv_safe [a; b; c; d; e; f; g; h; i; j]) in H.
  now rewrite (csv_safe_split _ H).
Qed.

Lemma Enrollment_safe e :
  csv_safe (Enrollment_fields e) -> Enrollment.fromCSV (Enrollment.toCSV e) = e.
Proof.
  destruct e as [a b c d]. intros H. unfold Enrollment.fromCSV.
  change (Enrollment.toCSV _) with (join [a; b; c; d]).
  change (csv_safe [a; b; c; d]) in H. now rewrite (csv_safe_split _ H).
Qed.

Lemma Attendance_safe a :
  csv_safe (Attendance_fields a) -> Attendance.fromCSV (Attendance.toCSV a) = a.
Proof.
  destruct a as [a b c d]. intros H. unfold Attendance.fromCSV.
  change (Attendance.toCSV _) with (join [a; b; c; d]).
  change (csv_safe [a; b; c; d]) in H. now rewrite (csv_safe_split _ H).
Qed.

Lemma Course_safe c :
  csv_safe (Course_fields c) ->
  is_int (Course.credits c) -> is_int (Course.maxStudents c) ->
  Course.fromCSV (Course.toCSV c) = Ok c.
Proof.
  destruct c as [a b c d e cr f ms]. intros H Hcr Hms. unfold Course.fromCSV.
  change (Course.toCSV _)
    with (join [a; b; c; d; e; to_string cr; f; to_string ms]).
  change (csv_safe [a; b; c; d; e; to_string cr; f; to_string ms]) in H.
  rewrite (csv_safe_split _ H). cbn [tok nth Nat.leb List.length].
  simpl in Hcr, Hms. now rewrite !stoi_to_string by assumption.
Qed.

Lemma Exam_safe e :
  csv_safe (Exam_fields e) -> is_int (Exam.totalMarks e) ->
  Exam.fromCSV (Exam.toCSV e) = Ok e.
Proof.
  destruct e as [a b c d e f tm]. intros H Htm. unfold Exam.fromCSV.
  change (Exam.toCSV _) with (join [a; b; c; d; e; f; to_string tm]).
  change (csv_safe [a; b; c; d; e; f; to_string tm]) in H.
  rewrite (csv_safe_split _ H). cbn [tok nth Nat.leb List.length].
  simpl in Htm. now rewrite stoi_to_string by assumption.
Qed.

Lemma Grade_safe g :
  csv_safe (Grade_fields g) -> is_int (Grade.marksObtained g) ->
  Grade.fromCSV (Grade.toCSV g) = Ok g.
Proof.
  destruct g as [a b m l c]. intros H Hm. unfold Grade.fromCSV.
  change (Grade.toCSV _) with (join [a; b; to_string m; l; c]).
  change (csv_safe [a; b; to_string m; l; c]) in H.
  rewrite (csv_safe_split _ H). cbn [tok nth Nat.leb List.length].
  simpl in Hm. now rewrite stoi_to_string by assumption.
Qed.

(** X1: a department, a semester, a user, an enrollment and an
    attendance record whose fields hold no comma and whose last field is
    not empty are decoded from their own line unchanged. *)
Theorem text_records_roundtrip :
  (forall d, csv_safe (Department_fields d) ->
             Department.fromCSV (Department.toCSV d) = d) /\
  (forall s, csv_safe (Semester_fields s) ->
             Semester.fromCSV (Semester.toCSV s) = s) /\
  (forall u, csv_safe (User_fields u) -> User.fromCSV (User.toCSV u) = u) /\
  (forall e, csv_safe (Enrollment_fields e) ->
             Enrollment.fromCSV (Enrollment.toCSV e) = e) /\
  (forall a, csv_safe (Attendance_fields a) ->
             Attendance.fromCSV (Attendance.toCSV a) = a).
Proof.
  repeat split; intros x H.
  - now apply Department_safe.
  - now apply Semester_safe.
  - now apply User_safe.
  - now apply Enrollment_safe.
  - now apply Attendance_safe.
Qed.

(** With the department that [seedData] creates first. *)
Lemma text_records_roundtrip_witness :
  let d := Department.mk "CSE" "Computer Science & Engineering" "Dr. Alice Smith"
                         "Computer Science Department" in
  Department.fromCSV (Department.toCSV d) = d.
Proof.
  intros d. apply (proj1 text_records_roundtrip d).
  split; [repeat constructor | discriminate].
Defined.

(** X2: a course, an exam and a grade whose text fields hold no comma,
    whose numbers are [int]s and, for the grade, whose comments are not
    empty are decoded from their own line unchanged, without an
    exception: [std::stoi] reads back what [std::to_string] wrote. *)
Theorem numeric_records_roundtrip :
  (forall c, csv_safe (Course_fields c) ->
             is_int (Course.credits c) -> is_int (Course.maxStudents c) ->
             Course.fromCSV (Course.toCSV c) = Ok c) /\
  (forall e, csv_safe (Exam_fields e) -> is_int (Exam.totalMarks e) ->
             Exam.fromCSV (Exam.toCSV e) = Ok e) /\
  (forall g, csv_safe (Grade_fields g) -> is_int (Grade.marksObtained g) ->
             Grade.fromCSV (Grade.toCSV g) = Ok g).
Proof.
  repeat split.
  - intros c. apply Course_safe.
  - intros e. apply Exam_safe.
  - intros g. apply Grade_safe.
Qed.

(** With the first exam that [seedData] creates. *)
Lemma numeric_records_roundtrip_witness :
  let e := Exam.mk "EX001" "CS101" "Midterm Exam" "2025-10-15" "10:00-12:00"
                   "midterm" 100 in
  Exam.fromCSV (Exam.toCSV e) = Ok e.
Proof.
  intros e. apply (proj1 (proj2 numeric_records_roundtrip) e).
  - split; [repeat constructor | discriminate].
  - unfold is_int, INT_MIN, INT_MAX. simpl. lia.
Defined.

Lemma Forall_removelast_snoc {A} (P : A -> Prop) l x :
  Forall P (l ++ [x]) -> Forall P l.
Proof. intros H. apply Forall_app in H. tauto. Qed.

(** Decoding a line whose last field is empty and that has [n] fields. *)
Ltac lose_last init :=
  unfold split_csv; rewrite read_all_fields;
  change (fields "," _) with (fields "," (join (init ++ [EmptyString])));
  rewrite fields_join_empty_last
    by (match goal with
        | H : Forall comma_free _ |- _ => exact (Forall_removelast_snoc _ init _ H)
        end);
  reflexivity.

(** X3: a record whose last field is the empty string is written with
    a final comma, [std::getline] gives one token less than the class
    has fields, and [fromCSV] returns the empty record: a department
    without description, a semester, an enrollment or an attendance
    record without status, a user without joining date, a grade without
    comments. *)
Theorem empty_last_field_is_lost :
  (forall d, Forall comma_free (Department_fields d) ->
             Department.description d = EmptyString ->
             Department.fromCSV (Department.toCSV d) = Department.default) /\
  (forall s, Forall comma_free (Semester_fields s) ->
             Semester.status s = EmptyString ->
             Semester.fromCSV (Semester.toCSV s) = Semester.default) /\
  (forall u, Forall comma_free (User_fields u) ->
             User.dateJoined u = EmptyString ->
             User.fromCSV (User.toCSV u) = User.default) /\
  (forall e, Forall comma_free (Enrollment_fields e) ->
             Enrollment.status e = EmptyString ->
             Enrollment.fromCSV (Enrollment.toCSV e) = Enrollment.default) /\
  (forall a, Forall comma_free (Attendance_fields a) ->
             Attendance.status a = EmptyString ->
             Attendance.fromCSV (Attendance.toCSV a) = Attendance.default) /\
  (forall g, Forall comma_free (Grade_fields g) ->
             Grade.comments g = EmptyString ->
             Grade.fromCSV (Grade.toCSV g) = Ok Grade.default).
Proof.
  repeat split.
  - intros [a b c e] H E. simpl in E. subst e. unfold Department.fromCSV.
    change (Forall comma_free ([a; b; c] ++ [EmptyString])) in H.
    lose_last [a; b; c].
  - intros [a b c e f] H E. simpl in E. subst f. unfold Semester.fromCSV.
    change (Forall comma_free ([a; b; c; e] ++ [EmptyString])) in H.
    lose_last [a; b; c; e].
  - intros [a b c d e f g h i j] H E. simpl in E. subst j. unfold User.fromCSV.
    change (Forall comma_free ([a; b; c; d; e; f; g; h; i] ++ [EmptyString])) in H.
    lose_last [a; b; c; d; e; f; g; h; i].
  - intros [a b c d] H E. simpl in E. subst d. unfold Enrollment.fromCSV.
    change (Forall comma_free ([a; b; c] ++ [EmptyString])) in H.
    lose_last [a; b; c].
  - intros [a b c d] H E. simpl in E. subst d. unfold Attendance.fromCSV.
    change (Forall comma_free ([a; b; c] ++ [EmptyString])) in H.
    lose_last [a; b; c].
  - intros [a b m l c] H E. simpl in E. subst c. unfold Grade.fromCSV.
    change (Forall comma_free ([a; b; to_string m; l] ++ [EmptyString])) in H.
    lose_last [a; b; to_string m; l].
Qed.

(** An attendance record marked with an empty status. *)
Lemma empty_last_field_is_lost_witness :
  let a := Attendance.mk "STU001" "CS101" "2025-08-15" "" in
  Attendance.fromCSV (Attendance.toCSV a) = Attendance.default.
Proof.
  intros a.
  apply (proj1 (proj2 (proj2 (proj2 (proj2 empty_last_field_is_lost)))) a).
  - repeat constructor.
  - reflexivity.
Defined.

Lemma join_cons f rest :
  rest <> [] -> join (f :: rest) = (f ++ String "," (join rest))%string.
Proof. destruct rest; [congruence | reflexivity]. Qed.

(** The tokens of a line whose last field holds a comma. *)
Lemma fields_join_comma init a b :
  Forall comma_free init -> comma_free a ->
  fields "," (join (init ++ [(a ++ String "," b)%string])) =
    init ++ a :: fields "," b.
Proof.
  intros Hall Ha. induction init as [|f init IH].
  - simpl. now apply fields_cons.
  - inversion Hall as [|? ? Hf Hrest]; subst. simpl app.
    rewrite join_cons by (destruct init; discriminate).
    rewrite fields_cons by exact Hf. now rewrite IH.
Qed.

Lemma string_app_assoc (a b c : string) :
  ((a ++ b) ++ c = a ++ (b ++ c))%string.
Proof. induction a; simpl; [reflexivity | now f_equal]. Qed.

Ltac cut_last init a b :=
  unfold split_csv; rewrite read_all_fields;
  change (fields "," _)
    with (fields "," (join (init ++ [(a ++ String "," b)%string])));
  rewrite fields_join_comma by (repeat constructor; assumption || apply comma_free_to_string).

(** X4: commas are not escaped.  A grade whose comments hold a comma
    is decoded with the comments cut before it, and so is the
    description of a department; a comma in the name of a department
    moves what follows it into the head of department, the head into the
    description, and the description is dropped. *)
Theorem comma_in_a_field_is_a_separator :
  (forall s e m l a b,
     comma_free s -> comma_free e -> comma_free l -> comma_free a -> is_int m ->
     Grade.fromCSV (Grade.toCSV (Grade.mk s e m l (a ++ "," ++ b)))
       = Ok (Grade.mk s e m l a)) /\
  (forall i n h a b,
     comma_free i -> comma_free n -> comma_free h -> comma_free a ->
     Department.fromCSV (Department.toCSV (Department.mk i n h (a ++ "," ++ b)))
       = Department.mk i n h a) /\
  (forall i a b h d,
     comma_free i -> comma_free a -> comma_free b -> comma_free h ->
     Department.fromCSV (Department.toCSV (Department.mk i (a ++ "," ++ b) h d))
       = Department.mk i a b h).
Proof.
  repeat split.
  - intros s e m l a b Hs He Hl Ha Hm. unfold Grade.fromCSV.
    cut_last [s; e; to_string m; l] a b.
    cbn [app tok nth Nat.leb List.length]. now rewrite stoi_to_string.
  - intros i n h a b Hi Hn Hh Ha. unfold Department.fromCSV.
    cut_last [i; n; h] a b. reflexivity.
  - intros i a b h d Hi Ha Hb Hh. unfold Department.fromCSV, split_csv.
    rewrite read_all_fields.
    change (fields "," _)
      with (fields "," (i ++ String "," ((a ++ String "," b)
                                          ++ String "," (h ++ String "," d))))%string.
    rewrite string_app_assoc. cbn [append].
    rewrite !fields_cons by assumption. reflexivity.
Qed.

(** Comments with a comma. *)
Lemma comma_in_a_field_is_a_separator_witness :
  Grade.fromCSV
    (Grade.toCSV (Grade.mk "STU001" "EX001" 85 "A" "Good work, keep going"))
  = Ok (Grade.mk "STU001" "EX001" 85 "A" "Good work").
Proof.
  apply (proj1 comma_in_a_field_is_a_separator
           "STU001" "EX001" 85%Z "A" "Good work" " keep going");
    try reflexivity.
  unfold is_int, INT_MIN, INT_MAX. lia.
Defined.

(** ** Saving and loading *)

Lemma free_of_app d (a b : string) :
  free_of d (a ++ b) = (free_of d a && free_of d b)%bool.
Proof.
  induction a as [|c a IH]; simpl; [reflexivity|].
  rewrite IH. now rewrite andb_assoc.
Qed.

Lemma join_newline_free fs : Forall newline_free fs -> newline_free (join fs).
Proof.
  unfold newline_free. induction 1 as [|f rest Hf Hrest IH]; [reflexivity|].
  destruct rest as [|g rest]; [exact Hf|].
  rewrite join_cons by discriminate. rewrite free_of_app, Hf. simpl.
  exact IH.
Qed.

Lemma join_nonempty fs : last fs EmptyString <> EmptyString -> join fs <> EmptyString.
Proof.
  induction fs as [|f rest IH]; [intros H; now elim H|].
  destruct rest as [|g rest]; [exact (fun H => H)|].
  intros Hl. rewrite join_cons by discriminate.
  destruct f; discriminate.
Qed.

Lemma file_safe_line fs :
  file_safe fs -> newline_free (join fs) /\ join fs <> EmptyString.
Proof.
  intros [[_ Hl] Hn]. split; [now apply join_newline_free | now apply join_nonempty].
Qed.

(** The text that a save writes. *)
Lemma concat_lines_cons l lines :
  String.concat "" (map (fun l => (l ++ endl)%string) (l :: lines)) =
    (l ++ String newline (String.concat "" (map (fun l => (l ++ endl)%string) lines)))%string.
Proof.
  destruct lines as [|l' lines]; [reflexivity|].
  cbn [map String.concat]. cbn [map] in *. rewrite string_app_assoc. reflexivity.
Qed.

(** What was written line by line is read line by line. *)
Lemma read_lines_written lines :
  Forall newline_free lines ->
  read_all newline (String.concat "" (map (fun l => (l ++ endl)%string) lines)) = lines.
Proof.
  rewrite read_all_fields. induction 1 as [|l lines Hl Hrest IH]; [reflexivity|].
  rewrite concat_lines_cons, fields_cons by exact Hl. now rewrite IH.
Qed.

Lemma load_lines_encoded {T} (toCSV : T -> string) (fromCSV : string -> T) v :
  Forall (fun x => toCSV x <> EmptyString /\ fromCSV (toCSV x) = x) v ->
  load_lines fromCSV (map toCSV v) [] = v.
Proof.
  intros H. rewrite load_lines_map. simpl.
  induction H as [|x v [Hne Hx] Hrest IH]; [reflexivity|].
  simpl. destruct (toCSV x) eqn:E; [congruence|]. simpl.
  rewrite Hx. now f_equal.
Qed.

Lemma load_lines_throwing_encoded {T} (toCSV : T -> string)
    (fromCSV : string -> result T) v :
  Forall (fun x => toCSV x <> EmptyString /\ fromCSV (toCSV x) = Ok x) v ->
  forall acc, load_lines_throwing fromCSV (map toCSV v) acc = Ok (acc ++ v).
Proof.
  induction 1 as [|x v [Hne Hx] Hrest IH]; intros acc; simpl.
  - now rewrite List.app_nil_r.
  - destruct (toCSV x) eqn:E; [congruence|]. simpl empty. cbn iota.
    rewrite Hx. cbn [bind]. rewrite IH. unfold push_back.
    now rewrite <- List.app_assoc.
Qed.

Lemma load_text {T} (toCSV : T -> string) (fromCSV : string -> T) fs path v :
  contents fs path =
    Some (String.concat "" (map (fun l => (l ++ endl)%string) (map toCSV v))) ->
  Forall (fun x => newline_free (toCSV x) /\ toCSV x <> EmptyString /\
                   fromCSV (toCSV x) = x) v ->
  load_file fromCSV fs path = v.
Proof.
  intros Hc Hv. unfold load_file. rewrite Hc, read_lines_written.
  - apply load_lines_encoded. eapply Forall_impl; [|exact Hv].
    now intros x (_ & A & B).
  - rewrite Forall_map. eapply Forall_impl; [|exact Hv].
    now intros x (A & _).
Qed.

Lemma load_text_throwing {T} (toCSV : T -> string) (fromCSV : string -> result T)
    fs path v :
  contents fs path =
    Some (String.concat "" (map (fun l => (l ++ endl)%string) (map toCSV v))) ->
  Forall (fun x => newline_free (toCSV x) /\ toCSV x <> EmptyString /\
                   fromCSV (toCSV x) = Ok x) v ->
  load_file_throwing fromCSV fs path = Ok v.
Proof.
  intros Hc Hv. unfold load_file_throwing. rewrite Hc, read_lines_written.
  - apply (load_lines_throwing_encoded toCSV fromCSV v).
    eapply Forall_impl; [|exact Hv]. now intros x (_ & A & B).
  - rewrite Forall_map. eapply Forall_impl; [|exact Hv].
    now intros x (A & _).
Qed.

Lemma write_lines_writable fs path lines p :
  writable (write_lines fs path lines) p = writable fs p.
Proof. unfold write_lines. now destruct (writable fs path). Qed.

Lemma write_lines_other fs path lines p :
  (p =? path)%string = false ->
  contents (write_lines fs path lines) p = contents fs p.
Proof.
  intros H. unfold write_lines. destruct (writable fs path); [|reflexivity].
  simpl. now rewrite H.
Qed.

(** Settles what one data file holds after [saveAllData]. *)
Ltac saved_file Hw :=
  unfold DatabaseManager.saveAllData, DatabaseManager.saveUsers,
    DatabaseManager.saveDepartments, DatabaseManager.saveSemesters,
    DatabaseManager.saveCourses, DatabaseManager.saveExams,
    DatabaseManager.saveGrades, DatabaseManager.saveEnrollments,
    DatabaseManager.saveAttendance;
  cbn [snd fst];
  repeat (rewrite write_lines_other by reflexivity);
  rewrite write_lines_contents;
  [reflexivity | rewrite ?write_lines_writable; apply Hw; simpl; tauto].

Section SaveAllData.
Import DatabaseManager.

Variables (db : DatabaseManager.t) (fs : FileSystem).
Hypothesis Hw : all_writable fs.

Lemma saveAllData_users :
  contents (snd (saveAllData (db, fs))) USERS_FILE = Some (file_text (map User.toCSV (users db))).
Proof. saved_file Hw. Qed.

Lemma saveAllData_departments :
  contents (snd (saveAllData (db, fs))) DEPARTMENTS_FILE
    = Some (file_text (map Department.toCSV (departments db))).
Proof. saved_file Hw. Qed.

Lemma saveAllData_semesters :
  contents (snd (saveAllData (db, fs))) SEMESTERS_FILE
    = Some (file_text (map Semester.toCSV (semesters db))).
Proof. saved_file Hw. Qed.

Lemma saveAllData_courses :
  contents (snd (saveAllData (db, fs))) COURSES_FILE = Some (file_text (map Course.toCSV (courses db))).
Proof. saved_file Hw. Qed.

Lemma saveAllData_exams :
  contents (snd (saveAllData (db, fs))) EXAMS_FILE = Some (file_text (map Exam.toCSV (exams db))).
Proof. saved_file Hw. Qed.

Lemma saveAllData_grades :
  contents (snd (saveAllData (db, fs))) GRADES_FILE = Some (file_text (map Grade.toCSV (grades db))).
Proof. saved_file Hw. Qed.

Lemma saveAllData_enrollments :
  contents (snd (saveAllData (db, fs))) ENROLLMENTS_FILE
    = Some (file_text (map Enrollment.toCSV (enrollments db))).
Proof. saved_file Hw. Qed.

Lemma saveAllData_attendance :
  contents (snd (saveAllData (db, fs))) ATTENDANCE_FILE
    = Some (file_text (map Attendance.toCSV (attendanceRecords db))).
Proof. saved_file Hw. Qed.

End SaveAllData.

Lemma toCSV_fields :
  (forall u, User.toCSV u = join (User_fields u)) /\
  (forall d, Department.toCSV d = join (Department_fields d)) /\
  (forall s, Semester.toCSV s = join (Semester_fields s)) /\
  (forall c, Course.toCSV c = join (Course_fields c)) /\
  (forall e, Exam.toCSV e = join (Exam_fields e)) /\
  (forall g, Grade.toCSV g = join (Grade_fields g)) /\
  (forall e, Enrollment.toCSV e = join (Enrollment_fields e)) /\
  (forall a, Attendance.toCSV a = join (Attendance_fields a)).
Proof. repeat split; intros []; reflexivity. Qed.

Lemma set_all_fields (db db0 : DatabaseManager.t) :
  DatabaseManager.set_attendanceRecords (DatabaseManager.attendanceRecords db)
    (DatabaseManager.set_enrollments (DatabaseManager.enrollments db)
      (DatabaseManager.set_grades (DatabaseManager.grades db)
        (DatabaseManager.set_exams (DatabaseManager.exams db)
          (DatabaseManager.set_courses (DatabaseManager.courses db)
            (DatabaseManager.set_semesters (DatabaseManager.semesters db)
              (DatabaseManager.set_departments (DatabaseManager.departments db)
                (DatabaseManager.set_users (DatabaseManager.users db) db0)))))))
  = db.
Proof. now destruct db. Qed.

(** Loading what [saveAllData] wrote. *)
Lemma saveAllData_loadAllData env db db0 fs :
  storable db -> DatabaseManager.users db <> [] -> all_writable fs ->
  DatabaseManager.loadAllData env (db0, snd (DatabaseManager.saveAllData (db, fs)))
    = Ok (db, snd (DatabaseManager.saveAllData (db, fs))).
Proof.
  intros (Hu & Hd & Hs & Hc & He & Hg & Hn & Ha) Hne Hw.
  pose proof toCSV_fields as (Fu & Fd & Fs & Fc & Fe & Fg & Fn & Fa).
  set (saved := snd (DatabaseManager.saveAllData (db, fs))).
  assert (Lu : load_file User.fromCSV saved DatabaseManager.USERS_FILE
               = DatabaseManager.users db).
  { apply (load_text User.toCSV); [now apply saveAllData_users|].
    eapply Forall_impl; [|exact Hu]. intros x H. rewrite Fu.
    destruct (file_safe_line _ H). destruct H. repeat split; try assumption.
    rewrite <- Fu. now apply User_safe. }
  assert (Ld : load_file Department.fromCSV saved DatabaseManager.DEPARTMENTS_FILE
               = DatabaseManager.departments db).
  { apply (load_text Department.toCSV); [now apply saveAllData_departments|].
    eapply Forall_impl; [|exact Hd]. intros x H. rewrite Fd.
    destruct (file_safe_line _ H). destruct H. repeat split; try assumption.
    rewrite <- Fd. now apply Department_safe. }
  assert (Ls : load_file Semester.fromCSV saved DatabaseManager.SEMESTERS_FILE
               = DatabaseManager.semesters db).
  { apply (load_text Semester.toCSV); [now apply saveAllData_semesters|].
    eapply Forall_impl; [|exact Hs]. intros x H. rewrite Fs.
    destruct (file_safe_line _ H). destruct H. repeat split; try assumption.
    rewrite <- Fs. now apply Semester_safe. }
  assert (Lc : load_file_throwing Course.fromCSV saved DatabaseManager.COURSES_FILE
               = Ok (DatabaseManager.courses db)).
  { apply (load_text_throwing Course.toCSV); [now apply saveAllData_courses|].
    eapply Forall_impl; [|exact Hc]. intros x (H & H1 & H2). rewrite Fc.
    destruct (file_safe_line _ H). destruct H. repeat split; try assumption.
    rewrite <- Fc. now apply Course_safe. }
  assert (Le : load_file_throwing Exam.fromCSV saved DatabaseManager.EXAMS_FILE
               = Ok (DatabaseManager.exams db)).
  { apply (load_text_throwing Exam.toCSV); [now apply saveAllData_exams|].
    eapply Forall_impl; [|exact He]. intros x (H & H1). rewrite Fe.
    destruct (file_safe_line _ H). destruct H. repeat split; try assumption.
    rewrite <- Fe. now apply Exam_safe. }
  assert (Lg : load_file_throwing Grade.fromCSV saved DatabaseManager.GRADES_FILE
               = Ok (DatabaseManager.grades db)).
  { apply (load_text_throwing Grade.toCSV); [now apply saveAllData_grades|].
    eapply Forall_impl; [|exact Hg]. intros x (H & H1). rewrite Fg.
    destruct (file_safe_line _ H). destruct H. repeat split; try assumption.
    rewrite <- Fg. now apply Grade_safe. }
  assert (Ln : load_file Enrollment.fromCSV saved DatabaseManager.ENROLLMENTS_FILE
               = DatabaseManager.enrollments db).
  { apply (load_text Enrollment.toCSV); [now apply saveAllData_enrollments|].
    eapply Forall_impl; [|exact Hn]. intros x H. rewrite Fn.
    destruct (file_safe_line _ H). destruct H. repeat split; try assumption.
    rewrite <- Fn. now apply Enrollment_safe. }
  assert (La : load_file Attendance.fromCSV saved DatabaseManager.ATTENDANCE_FILE
               = DatabaseManager.attendanceRecords db).
  { apply (load_text Attendance.toCSV); [now apply saveAllData_attendance|].
    eapply Forall_impl; [|exact Ha]. intros x H. rewrite Fa.
    destruct (file_safe_line _ H). destruct H. repeat split; try assumption.
    rewrite <- Fa. now apply Attendance_safe. }
  unfold DatabaseManager.loadAllData, DatabaseManager.loadUsers.
  rewrite Lu. destruct (DatabaseManager.users db) as [|u us] eqn:Eu; [congruence|].
  cbn [vempty]. unfold DatabaseManager.loadDepartments, DatabaseManager.loadSemesters,
    DatabaseManager.loadCourses, DatabaseManager.loadExams, DatabaseManager.loadGrades,
    DatabaseManager.loadEnrollments, DatabaseManager.loadAttendance.
  rewrite Ld, Ls, Lc. cbn [bind]. rewrite Le. cbn [bind]. rewrite Lg. cbn [bind].
  rewrite Ln, La, <- Eu. now rewrite set_all_fields.
Qed.

(** X5: what [saveAllData] writes, [loadAllData] reads back.  When
    every record has fields without comma or line break and a last field
    that is not empty, there is at least one user and the eight files
    can be written, loading the saved files into any manager gives the
    saved database again, record for record and in the same order. *)
Theorem saved_data_is_loaded_back env db db0 fs :
  storable db -> DatabaseManager.users db <> [] -> all_writable fs ->
  DatabaseManager.loadAllData env (db0, snd (DatabaseManager.saveAllData (db, fs)))
    = Ok (db, snd (DatabaseManager.saveAllData (db, fs))).
Proof.
  intros Hs Hne Hw. now apply saveAllData_loadAllData.
Qed.

(** The sample database, saved in an empty directory and loaded by a
    new manager. *)
Lemma saved_data_is_loaded_back_witness :
  DatabaseManager.loadAllData sample_env
    (empty_db, snd (DatabaseManager.saveAllData (sample_db, empty_directory)))
  = Ok (sample_db, snd (DatabaseManager.saveAllData (sample_db, empty_directory))).
Proof.
  apply saved_data_is_loaded_back.
  - unfold storable, file_safe, csv_safe, newline_free, comma_free, is_int,
      INT_MIN, INT_MAX; simpl.
    repeat match goal with
           | |- _ /\ _ => split
           | |- Forall _ _ => constructor
           end; try reflexivity; try discriminate; lia.
  - discriminate.
  - intros path _. reflexivity.
Defined.

Lemma digit_not_newline c d : digit_of c = Some d -> Ascii.eqb c newline = false.
Proof.
  destruct c as [[] [] [] [] [] [] [] []]; vm_compute; intros [=]; reflexivity.
Qed.

Lemma all_digits_newline_free s : all_digits s = true -> newline_free s.
Proof.
  unfold newline_free. induction s as [|c s IH]; simpl; [reflexivity|].
  destruct (digit_of c) eqn:E; [|discriminate].
  rewrite (digit_not_newline _ _ E). exact IH.
Qed.

Lemma to_string_newline_free z : newline_free (to_string z).
Proof.
  destruct z as [|p|p].
  - reflexivity.
  - rewrite to_string_pos. apply all_digits_newline_free, string_of_uint_digits.
  - rewrite to_string_neg. unfold newline_free. simpl.
    apply all_digits_newline_free, string_of_uint_digits.
Qed.

Lemma default_admin_safe env : file_safe (User_fields (DatabaseManager.default_admin env)).
Proof.
  unfold file_safe, csv_safe, User_fields, DatabaseManager.default_admin, User.new,
    SimpleHash.hash. simpl.
  repeat match goal with
         | |- _ /\ _ => split
         | |- Forall _ _ => constructor
         end;
    try reflexivity; try apply comma_free_to_string;
    try apply to_string_newline_free; apply to_string_nonempty.
Qed.

(** X6: the administrator that [loadUsers] creates is written to the
    users file and read back unchanged by the next [loadUsers], whatever
    the clock and the manager then are; no second administrator is
    created, and [admin] with [admin123] logs in as that administrator
    as long as [std::hash] gives the password the same value. *)
Theorem default_admin_is_read_back env env' db db' fs :
  writable fs DatabaseManager.USERS_FILE = true ->
  load_file User.fromCSV fs DatabaseManager.USERS_FILE = [] ->
  let admin := DatabaseManager.default_admin env in
  let fs' := snd (DatabaseManager.loadUsers env (db, fs)) in
  DatabaseManager.loadUsers env' (db', fs')
    = (DatabaseManager.set_users [admin] db', fs') /\
  (SimpleHash.hash env' "admin123" = SimpleHash.hash env "admin123" ->
   UMSApplication.performLogin env'
     (fst (DatabaseManager.loadUsers env' (db', fs'))) "admin" "admin123"
   = (Some admin, "Login successful! Welcome, System Administrator")).
Proof.
  intros Hw Hempty admin fs'.
  assert (Hfs : contents fs' DatabaseManager.USERS_FILE
                = Some (file_text (map User.toCSV [admin]))).
  { unfold fs', DatabaseManager.loadUsers. rewrite Hempty. cbn [vempty].
    unfold DatabaseManager.saveUsers. cbn [snd DatabaseManager.users
      DatabaseManager.set_users push_back app].
    now rewrite write_lines_contents. }
  assert (Hl : load_file User.fromCSV fs' DatabaseManager.USERS_FILE = [admin]).
  { apply (load_text User.toCSV); [exact Hfs|].
    constructor; [|constructor].
    pose proof (default_admin_safe env) as H.
    rewrite (proj1 toCSV_fields).
    destruct (file_safe_line _ H). destruct H. repeat split; try assumption.
    rewrite <- (proj1 toCSV_fields). now apply User_safe. }
  assert (E : DatabaseManager.loadUsers env' (db', fs')
              = (DatabaseManager.set_users [admin] db', fs')).
  { unfold DatabaseManager.loadUsers. now rewrite Hl. }
  split; [exact E|]. intros Hh. rewrite E.
  unfold UMSApplication.performLogin, DatabaseManager.findUser.
  cbn [fst DatabaseManager.users DatabaseManager.set_users find].
  change (User.username admin) with "admin". cbn [String.eqb Ascii.eqb Bool.eqb].
  change (User.passwordHash admin) with (SimpleHash.hash env "admin123").
  rewrite Hh, String.eqb_refl. reflexivity.
Qed.

(** With no data directory at first. *)
Lemma default_admin_is_read_back_witness :
  DatabaseManager.loadUsers sample_env
    (empty_db, snd (DatabaseManager.loadUsers sample_env (empty_db, empty_directory)))
  = (DatabaseManager.set_users [DatabaseManager.default_admin sample_env] empty_db,
     snd (DatabaseManager.loadUsers sample_env (empty_db, empty_directory))).
Proof.
  apply (proj1 (default_admin_is_read_back sample_env sample_env empty_db empty_db
                  empty_directory eq_refl eq_refl)).
Defined.

(** ** The identifier allocator, in general *)

(** X7: [generateNextId] looks for the largest number that
    [std::stoi] reads after the prefix in the identifiers longer than the
    prefix that start with it; identifiers where it reads none are
    skipped, and 0 stands when there is no number or only negative ones.
    Below 999 the result is the prefix followed by the next number,
    padded with zeros to three characters; from 999 on
    [std::length_error] leaves the function. *)
Theorem generateNextId_result prefix ids :
  let maxNum := maxNum_of prefix ids in
  (forall id num, In id ids -> suffix_number prefix id = Some num ->
                  (num <= maxNum)%Z) /\
  (maxNum = 0%Z \/
   exists id, In id ids /\ suffix_number prefix id = Some maxNum) /\
  ((maxNum < 999)%Z ->
   DatabaseManager.generateNextId prefix ids
     = Ok (prefix ++ zero_pad3 (to_string (maxNum + 1)))%string) /\
  ((999 <= maxNum)%Z ->
   DatabaseManager.generateNextId prefix ids = Throw length_error).
Proof.
  intros maxNum. pose proof (maxNum_of_is_max prefix ids) as [Hup Hatt].
  repeat split.
  - exact Hup.
  - exact Hatt.
  - apply generateNextId_below_999.
  - apply generateNextId_from_999.
Qed.

(** Two students, one gap, and an identifier that is not numbered. *)
Lemma generateNextId_result_witness :
  DatabaseManager.generateNextId "STU" ["STU001"; "STUDENT"; "STU003"; "TCH007"]
  = Ok "STU004".
Proof.
  apply (proj1 (proj2 (proj2
           (generateNextId_result "STU" ["STU001"; "STUDENT"; "STU003"; "TCH007"])))).
  reflexivity.
Defined.

Lemma zero_pad3_length s :
  (String.length s <= 3)%nat -> String.length (zero_pad3 s) = 3%nat.
Proof.
  intros H. unfold zero_pad3. rewrite length_app_string.
  assert (E : forall k, String.length (replicate k "0") = k)
    by (induction k; simpl; congruence).
  rewrite E. lia.
Qed.

(** X8: whenever [generateNextId] returns, the identifier is new: it
    is none of the existing ones, it is the prefix followed by exactly
    three characters, and the number it carries, between 1 and 999, is
    above the number of every existing identifier of the prefix. *)
Theorem generateNextId_new_identifier prefix ids s :
  DatabaseManager.generateNextId prefix ids = Ok s ->
  ~ In s ids /\
  String.length s = (String.length prefix + 3)%nat /\
  exists n, (1 <= n <= 999)%Z /\ suffix_number prefix s = Some n /\
            forall id num, In id ids -> suffix_number prefix id = Some num ->
                           (num < n)%Z.
Proof.
  intros Hgen. split; [now apply (generateNextId_fresh prefix)|].
  pose proof (maxNum_of_bounds prefix ids) as Hb.
  destruct (Z_lt_ge_dec (maxNum_of prefix ids) 999) as [Hlt | Hge];
    [|rewrite generateNextId_from_999 in Hgen by lia; discriminate].
  rewrite generateNextId_below_999 in Hgen by assumption. injection Hgen as <-.
  set (n := (maxNum_of prefix ids + 1)%Z).
  assert (Hn : (0 < n <= INT_MAX)%Z) by (unfold n, INT_MAX in *; lia).
  destruct (to_string_length_pos n Hn) as (Hl1 & Hl3 & _).
  specialize (Hl3 ltac:(lia)). unfold slen in Hl1, Hl3.
  assert (Hlen : String.length (zero_pad3 (to_string n)) = 3%nat)
    by (apply zero_pad3_length; lia).
  split; [rewrite length_app_string; lia|].
  exists n. split; [lia|]. split.
  - unfold suffix_number. rewrite length_app_string, Hlen.
    replace (String.length prefix <? String.length prefix + 3)%nat with true
      by (symmetry; apply Nat.ltb_lt; lia).
    rewrite substring_prefix, String.eqb_refl. cbn [andb].
    replace (String.length prefix + 3)%nat
      with (String.length (prefix ++ zero_pad3 (to_string n)))
      by (rewrite length_app_string; lia).
    rewrite substring_suffix. now rewrite stoi_zero_pad3.
  - intros id num Hin Hs.
    pose proof (proj1 (maxNum_of_is_max prefix ids) id num Hin Hs). lia.
Qed.

(** The next examination after three. *)
Lemma generateNextId_new_identifier_witness :
  ~ In "EX004" ["EX001"; "EX002"; "EX003"].
Proof.
  apply (proj1 (generateNextId_new_identifier "EX" ["EX001"; "EX002"; "EX003"]
                  "EX004" eq_refl)).
Defined.

(** ** Searching by key *)

Lemma find_key_none {A} (key : A -> string) k v :
  ~ In k (map key v) -> find (fun x => (key x =? k)%string) v = None.
Proof.
  induction v as [|x v IH]; simpl; [reflexivity|]. intros H.
  destruct (String.eqb_spec (key x) k) as [E | _]; [tauto|]. apply IH. tauto.
Qed.

Lemma find_key_some {A} (key : A -> string) k v :
  In k (map key v) ->
  exists l1 x l2, v = l1 ++ x :: l2 /\ ~ In k (map key l1) /\ key x = k /\
                  find (fun x => (key x =? k)%string) v = Some x.
Proof.
  induction v as [|y v IH]; simpl; [tauto|]. intros H.
  destruct (String.eqb_spec (key y) k) as [E | N].
  - exists [], y, v. simpl. tauto.
  - destruct H as [H | H]; [tauto|].
    destruct (IH H) as (l1 & x & l2 & -> & Hl1 & Hx & Hf).
    exists (y :: l1), x, l2. simpl. repeat split; try assumption. tauto.
Qed.

Lemma find_key_In {A} (key : A -> string) k v x :
  find (fun x => (key x =? k)%string) v = Some x ->
  In x v /\ key x = k /\ In k (map key v).
Proof.
  intros H. apply find_some in H as [Hin Hk]. apply String.eqb_eq in Hk.
  repeat split; try assumption. rewrite <- Hk. now apply in_map.
Qed.

Lemma find_key_first_found {A} (key : A -> string) k l1 x l2 :
  ~ In k (map key l1) -> key x = k ->
  find (fun y => (key y =? k)%string) (l1 ++ x :: l2) = Some x.
Proof.
  intros Hn Hx. apply find_app_first; [|now apply String.eqb_eq].
  apply Forall_forall. intros y Hy. apply String.eqb_neq. intros E.
  apply Hn. rewrite <- E. now apply in_map.
Qed.

Lemma find_key_dec {A} (key : A -> string) k v :
  {In k (map key v)} + {~ In k (map key v)}.
Proof. apply in_dec, string_dec. Qed.

(** [find_if] on a key: the position of the first record of that key. *)
Lemma find_if_key_none {A} (key : A -> string) k v :
  ~ In k (map key v) ->
  (find_if (fun x => (key x =? k)%string) v <? List.length v)%nat = false.
Proof.
  intros H. apply Nat.ltb_ge.
  induction v as [|x v IH]; simpl; [lia|].
  destruct (String.eqb_spec (key x) k) as [E | _]; [simpl in H; tauto|].
  simpl in H. apply le_n_S, IH. tauto.
Qed.

Lemma find_if_key_first {A} (key : A -> string) k l1 x l2 :
  ~ In k (map key l1) -> key x = k ->
  find_if (fun x => (key x =? k)%string) (l1 ++ x :: l2) = List.length l1.
Proof.
  intros Hl1 Hx. apply find_if_app; [|now apply String.eqb_eq].
  apply Forall_forall. intros y Hy. apply String.eqb_neq. intros E.
  apply Hl1. rewrite <- E. now apply in_map.
Qed.

Lemma unique_by_push_back {A} (key : A -> string) v y :
  unique_by key v -> ~ In (key y) (map key v) -> unique_by key (push_back v y).
Proof.
  unfold unique_by, push_back. intros Hu Hn. rewrite map_app. simpl.
  apply NoDup_app; [exact Hu | repeat constructor; simpl; tauto|].
  intros k Hk [<- | []]. tauto.
Qed.

Lemma unique_by_remove {A} (key : A -> string) l1 x l2 :
  unique_by key (l1 ++ x :: l2) ->
  unique_by key (l1 ++ l2) /\ ~ In (key x) (map key (l1 ++ l2)).
Proof.
  unfold unique_by. rewrite !map_app. simpl. intros H.
  split; [now apply NoDup_remove_1 in H | now apply NoDup_remove_2 in H].
Qed.

(** ** The administrator's operations *)

(** X9: [createDepartment] and [createSemester] refuse an identifier
    that a record already has and leave the database as it was;
    otherwise they append the new record, a new semester with the
    status [upcoming].  Either way identifiers that were unique stay
    unique. *)
Theorem create_keeps_identifiers_unique db i a b c :
  let dept := UMSApplication.createDepartment db i a b c in
  let sem := UMSApplication.createSemester db i a b c in
  (In i (map Department.deptId (DatabaseManager.departments db)) ->
   dept = (db, "Department ID already exists!")) /\
  (~ In i (map Department.deptId (DatabaseManager.departments db)) ->
   dept = (DatabaseManager.set_departments
             (DatabaseManager.departments db ++ [Department.mk i a b c]) db,
           "Department created successfully!")) /\
  (unique_by Department.deptId (DatabaseManager.departments db) ->
   unique_by Department.deptId (DatabaseManager.departments (fst dept))) /\
  (In i (map Semester.semesterId (DatabaseManager.semesters db)) ->
   sem = (db, "Semester ID already exists!")) /\
  (~ In i (map Semester.semesterId (DatabaseManager.semesters db)) ->
   sem = (DatabaseManager.set_semesters
            (DatabaseManager.semesters db ++ [Semester.mk i a b c "upcoming"]) db,
          "Semester created successfully!")) /\
  (unique_by Semester.semesterId (DatabaseManager.semesters db) ->
   unique_by Semester.semesterId (DatabaseManager.semesters (fst sem))).
Proof.
  intros dept sem. unfold dept, sem, UMSApplication.createDepartment,
    UMSApplication.createSemester, DatabaseManager.findDepartment,
    DatabaseManager.findSemester.
  repeat split.
  - intros H. now destruct (find_key_some _ _ _ H) as (? & ? & ? & _ & _ & _ & ->).
  - intros H. now rewrite find_key_none.
  - intros Hu.
    destruct (find_key_dec Department.deptId i (DatabaseManager.departments db))
      as [H | H].
    + now destruct (find_key_some _ _ _ H) as (? & ? & ? & _ & _ & _ & ->).
    + rewrite find_key_none by assumption. simpl.
      now apply unique_by_push_back.
  - intros H. now destruct (find_key_some _ _ _ H) as (? & ? & ? & _ & _ & _ & ->).
  - intros H. now rewrite find_key_none.
  - intros Hu.
    destruct (find_key_dec Semester.semesterId i (DatabaseManager.semesters db))
      as [H | H].
    + now destruct (find_key_some _ _ _ H) as (? & ? & ? & _ & _ & _ & ->).
    + rewrite find_key_none by assumption. simpl.
      now apply unique_by_push_back.
Qed.

(** A second department with the identifier of the first. *)
Lemma create_keeps_identifiers_unique_witness :
  let db := DatabaseManager.set_departments
              [Department.mk "CSE" "Computer Science" "Dr. Smith" "Computing"]
              empty_db in
  UMSApplication.createDepartment db "CSE" "Civil Engineering" "Dr. Jones" "Building"
  = (db, "Department ID already exists!").
Proof.
  intros db.
  apply (proj1 (create_keeps_identifiers_unique db "CSE" "Civil Engineering"
                  "Dr. Jones" "Building")).
  simpl. tauto.
Defined.

(** X10: [createUser] refuses an identifier that a user has, then a
    user name that a user has, and leaves the database as it was;
    otherwise it appends the user, with the given role, the password
    hashed and no phone, address or department.  Identifiers and user
    names that were unique stay unique. *)
Theorem createUser_keeps_users_unique env db role id username password name email :
  let r := UMSApplication.createUser env db role id username password name email in
  (In id (map User.id (DatabaseManager.users db)) ->
   r = (db, "User ID already exists!")) /\
  (~ In id (map User.id (DatabaseManager.users db)) ->
   In username (map User.username (DatabaseManager.users db)) ->
   r = (db, "Username already exists!")) /\
  (~ In id (map User.id (DatabaseManager.users db)) ->
   ~ In username (map User.username (DatabaseManager.users db)) ->
   r = (DatabaseManager.set_users
          (DatabaseManager.users db ++
           [User.mk id username (SimpleHash.hash env password) role name email
                    "" "" "" (to_string (time_now env))]) db,
        (role ++ " created successfully!")%string)) /\
  (unique_by User.id (DatabaseManager.users db) ->
   unique_by User.id (DatabaseManager.users (fst r))) /\
  (unique_by User.username (DatabaseManager.users db) ->
   unique_by User.username (DatabaseManager.users (fst r))).
Proof.
  intros r.
  assert (A : In id (map User.id (DatabaseManager.users db)) ->
              r = (db, "User ID already exists!")).
  { intros H. unfold r, UMSApplication.createUser, DatabaseManager.findUserById.
    now destruct (find_key_some _ _ _ H) as (? & ? & ? & _ & _ & _ & ->). }
  assert (B : ~ In id (map User.id (DatabaseManager.users db)) ->
              In username (map User.username (DatabaseManager.users db)) ->
              r = (db, "Username already exists!")).
  { intros H1 H2. unfold r, UMSApplication.createUser, DatabaseManager.findUserById,
      DatabaseManager.findUser.
    rewrite find_key_none by assumption.
    now destruct (find_key_some _ _ _ H2) as (? & ? & ? & _ & _ & _ & ->). }
  assert (C : ~ In id (map User.id (DatabaseManager.users db)) ->
              ~ In username (map User.username (DatabaseManager.users db)) ->
              r = (DatabaseManager.set_users
                     (push_back (DatabaseManager.users db)
                        (User.new env id username password role name email "" "" "")) db,
                   (role ++ " created successfully!")%string)).
  { intros H1 H2. unfold r, UMSApplication.createUser, DatabaseManager.findUserById,
      DatabaseManager.findUser.
    now rewrite !find_key_none by assumption. }
  repeat split; try assumption.
  - intros Hu.
    destruct (find_key_dec User.id id (DatabaseManager.users db)) as [H1 | H1];
      [now rewrite A|].
    destruct (find_key_dec User.username username (DatabaseManager.users db))
      as [H2 | H2]; [now rewrite B|].
    rewrite C by assumption. simpl. now apply unique_by_push_back.
  - intros Hu.
    destruct (find_key_dec User.id id (DatabaseManager.users db)) as [H1 | H1];
      [now rewrite A|].
    destruct (find_key_dec User.username username (DatabaseManager.users db))
      as [H2 | H2]; [now rewrite B|].
    rewrite C by assumption. simpl. now apply unique_by_push_back.
Qed.

(** A teacher whose user name is taken. *)
Lemma createUser_keeps_users_unique_witness :
  UMSApplication.createUser sample_env sample_db "teacher" "TCH002" "teacher1"
                            "secret" "Prof. Doe" "doe@university.edu"
  = (sample_db, "Username already exists!").
Proof.
  apply (proj1 (proj2 (createUser_keeps_users_unique sample_env sample_db "teacher"
                         "TCH002" "teacher1" "secret" "Prof. Doe"
                         "doe@university.edu"))).
  - simpl. intros [H | []]. discriminate H.
  - simpl. tauto.
Defined.

Lemma vempty_false {A} (v : list A) : v <> [] -> vempty v = false.
Proof. now destruct v. Qed.

(** X11: [createCourse] appends a course exactly when its identifier
    is new, the first user of the given teacher identifier has the role
    [teacher] and, where departments (semesters) exist, the given
    department (semester) is one of them; where there is none the field
    of the course is left empty.  The credits and the capacity are taken
    as they come.  In every other case the database is left as it was.
    Course identifiers that were unique stay unique. *)
Theorem createCourse_checks_references db cid cname tid did sid credits schedule
    maxStudents :
  let r := UMSApplication.createCourse db cid cname tid did sid credits schedule
             maxStudents in
  let created :=
    ~ In cid (map Course.courseId (DatabaseManager.courses db)) /\
    (exists teacher, DatabaseManager.findUserById db tid = Some teacher /\
                     User.role teacher = "teacher") /\
    (DatabaseManager.departments db <> [] ->
     In did (map Department.deptId (DatabaseManager.departments db))) /\
    (DatabaseManager.semesters db <> [] ->
     In sid (map Semester.semesterId (DatabaseManager.semesters db))) in
  (created ->
   r = (DatabaseManager.set_courses
          (DatabaseManager.courses db ++
           [Course.mk cid cname tid
              (if vempty (DatabaseManager.departments db) then "" else did)
              (if vempty (DatabaseManager.semesters db) then "" else sid)
              credits schedule maxStudents]) db,
        "Course created successfully!")) /\
  (~ created -> fst r = db /\ snd r <> "Course created successfully!") /\
  (unique_by Course.courseId (DatabaseManager.courses db) ->
   unique_by Course.courseId (DatabaseManager.courses (fst r))).
Proof.
  intros r created.
  assert (A : created ->
              r = (DatabaseManager.set_courses
                     (push_back (DatabaseManager.courses db)
                        (Course.mk cid cname tid
                           (if vempty (DatabaseManager.departments db) then "" else did)
                           (if vempty (DatabaseManager.semesters db) then "" else sid)
                           credits schedule maxStudents)) db,
                   "Course created successfully!")).
  { intros (Hc & (teacher & Ht & Hr) & Hd & Hs).
    unfold r, UMSApplication.createCourse, DatabaseManager.findCourse.
    rewrite find_key_none by assumption. rewrite Ht, Hr. cbn [String.eqb Ascii.eqb Bool.eqb negb].
    replace (negb (vempty (DatabaseManager.departments db)) &&
             match DatabaseManager.findDepartment db
                     (if vempty (DatabaseManager.departments db) then "" else did) with
             | Some _ => false
             | None => true
             end)%bool with false.
    2:{ destruct (DatabaseManager.departments db) as [|d0 ds] eqn:Ed; [reflexivity|].
        cbn [vempty negb andb]. unfold DatabaseManager.findDepartment. rewrite Ed.
        destruct (find_key_some Department.deptId did (d0 :: ds) (Hd ltac:(discriminate)))
          as (? & ? & ? & _ & _ & _ & ->). reflexivity. }
    replace (negb (vempty (DatabaseManager.semesters db)) &&
             match DatabaseManager.findSemester db
                     (if vempty (DatabaseManager.semesters db) then "" else sid) with
             | Some _ => false
             | None => true
             end)%bool with false.
    2:{ destruct (DatabaseManager.semesters db) as [|s0 ss] eqn:Es; [reflexivity|].
        cbn [vempty negb andb]. unfold DatabaseManager.findSemester. rewrite Es.
        destruct (find_key_some Semester.semesterId sid (s0 :: ss) (Hs ltac:(discriminate)))
          as (? & ? & ? & _ & _ & _ & ->). reflexivity. }
    reflexivity. }
  assert (B : ~ created -> fst r = db /\ snd r <> "Course created successfully!").
  { intros Hn. unfold r, UMSApplication.createCourse.
    destruct (DatabaseManager.findCourse db cid) as [c0|] eqn:Ec;
      [split; [reflexivity | discriminate]|].
    destruct (DatabaseManager.findUserById db tid) as [teacher|] eqn:Et;
      [|split; [reflexivity | discriminate]].
    destruct (String.eqb_spec (User.role teacher) "teacher") as [Hr | Hr];
      cbn [negb]; [|split; [reflexivity | discriminate]].
    destruct (negb (vempty (DatabaseManager.departments db)) && _)%bool eqn:Ed;
      [split; [reflexivity | discriminate]|].
    destruct (negb (vempty (DatabaseManager.semesters db)) && _)%bool eqn:Es;
      [split; [reflexivity | discriminate]|].
    exfalso. apply Hn. unfold created. repeat split.
    - intros Hin. unfold DatabaseManager.findCourse in Ec.
      destruct (find_key_some _ _ _ Hin) as (? & ? & ? & _ & _ & _ & E). congruence.
    - now exists teacher.
    - intros Hne. rewrite (vempty_false _ Hne) in Ed. cbn [negb andb] in Ed.
      destruct (DatabaseManager.findDepartment db did) as [d0|] eqn:E; [|discriminate].
      now apply find_key_In in E.
    - intros Hne. rewrite (vempty_false _ Hne) in Es. cbn [negb andb] in Es.
      destruct (DatabaseManager.findSemester db sid) as [s0|] eqn:E; [|discriminate].
      now apply find_key_In in E. }
  split; [exact A|]. split; [exact B|].
  intros Hu.
  assert (D : created \/ ~ created).
  { unfold created.
    destruct (find_key_dec Course.courseId cid (DatabaseManager.courses db)); [tauto|].
    destruct (DatabaseManager.findUserById db tid) as [teacher|];
      [|right; intros (_ & (? & [=] & _) & _)].
    destruct (string_dec (User.role teacher) "teacher");
      [|right; intros (_ & (? & [= <-] & ?) & _); tauto].
    assert (Dd : forall {A} (l : list A), l = [] \/ l <> [])
      by (intros ? []; [now left | now right]).
    destruct (Dd _ (DatabaseManager.departments db)) as [-> | Hd];
      destruct (Dd _ (DatabaseManager.semesters db)) as [-> | Hs];
      try destruct (find_key_dec Department.deptId did (DatabaseManager.departments db));
      try destruct (find_key_dec Semester.semesterId sid (DatabaseManager.semesters db));
      try (left; repeat split; eauto; tauto); right; tauto. }
  destruct D as [Hc | Hc].
  - rewrite (A Hc). simpl. apply unique_by_push_back; [exact Hu | apply Hc].
  - now rewrite (proj1 (B Hc)).
Qed.

(** A second course for the teacher of the sample database, which has
    no department and no semester. *)
Lemma createCourse_checks_references_witness :
  UMSApplication.createCourse sample_db "CS102" "Data Structures" "TCH001" "CSE"
                              "FALL2025" 3 "Tue 9:00" 0
  = (DatabaseManager.set_courses
       (DatabaseManager.courses sample_db ++
        [Course.mk "CS102" "Data Structures" "TCH001" "" "" 3 "Tue 9:00" 0])
       sample_db,
     "Course created successfully!").
Proof.
  apply (proj1 (createCourse_checks_references sample_db "CS102" "Data Structures"
                  "TCH001" "CSE" "FALL2025" 3 "Tue 9:00" 0)).
  repeat split.
  - simpl. intros [H | []]. discriminate H.
  - exists sample_teacher. split; reflexivity.
  - intros H. now elim H.
  - intros H. now elim H.
Defined.

Lemma erase_first_key {A} (key : A -> string) k l1 x l2 :
  ~ In k (map key l1) -> key x = k ->
  let v := l1 ++ x :: l2 in
  let it := find_if (fun x => (key x =? k)%string) v in
  (it <? List.length v)%nat = true /\ erase v it = l1 ++ l2.
Proof.
  intros Hl1 Hx v it. unfold it, v. rewrite find_if_key_first by assumption.
  split; [|apply erase_middle].
  apply Nat.ltb_lt. rewrite length_app. simpl. lia.
Qed.

(** Erasing at the first record of a key. *)
Lemma erase_by_key (i : string) :
  forall (A : Type) (key : A -> string) (v : list A),
    (~ In i (map key v) ->
     (find_if (fun x => (key x =? i)%string) v <? List.length v)%nat = false) /\
    (forall l1 x l2, v = l1 ++ x :: l2 -> ~ In i (map key l1) -> key x = i ->
       (find_if (fun x => (key x =? i)%string) v <? List.length v)%nat = true /\
       erase v (find_if (fun x => (key x =? i)%string) v) = l1 ++ l2) /\
    (unique_by key v ->
     ~ In i (map key
               (if (find_if (fun x => (key x =? i)%string) v <? List.length v)%nat
                then erase v (find_if (fun x => (key x =? i)%string) v)
                else v))).
Proof.
  intros A key v.
  assert (G2 : forall l1 x l2, v = l1 ++ x :: l2 -> ~ In i (map key l1) -> key x = i ->
             (find_if (fun x => (key x =? i)%string) v <? List.length v)%nat = true /\
             erase v (find_if (fun x => (key x =? i)%string) v) = l1 ++ l2).
  { intros l1 x l2 -> H1 H2. now apply erase_first_key. }
  split; [apply find_if_key_none|]. split; [exact G2|].
  intros Hu. destruct (find_key_dec key i v) as [H | H].
  - destruct (find_key_some _ _ _ H) as (l1 & x & l2 & E & H1 & H2 & _).
    destruct (G2 l1 x l2 E H1 H2) as [-> ->]. subst v.
    apply unique_by_remove in Hu. now rewrite H2 in Hu.
  - now rewrite find_if_key_none.
Qed.

(** X12: [deleteDepartment], [deleteSemester] and [deleteCourse]
    remove the first record of the given identifier and nothing else,
    keeping the order of the others; when no record has the identifier
    the database is left as it was.  Where identifiers are unique no
    record of the identifier remains. *)
Theorem delete_removes_first_match db i :
  ((~ In i (map Department.deptId (DatabaseManager.departments db)) ->
    UMSApplication.deleteDepartment db i = (db, "Department not found!")) /\
   (forall l1 x l2,
      DatabaseManager.departments db = l1 ++ x :: l2 ->
      ~ In i (map Department.deptId l1) -> Department.deptId x = i ->
      UMSApplication.deleteDepartment db i
        = (DatabaseManager.set_departments (l1 ++ l2) db,
           "Department deleted successfully!")) /\
   (unique_by Department.deptId (DatabaseManager.departments db) ->
    ~ In i (map Department.deptId
              (DatabaseManager.departments
                 (fst (UMSApplication.deleteDepartment db i)))))) /\
  ((~ In i (map Semester.semesterId (DatabaseManager.semesters db)) ->
    UMSApplication.deleteSemester db i = (db, "Semester not found!")) /\
   (forall l1 x l2,
      DatabaseManager.semesters db = l1 ++ x :: l2 ->
      ~ In i (map Semester.semesterId l1) -> Semester.semesterId x = i ->
      UMSApplication.deleteSemester db i
        = (DatabaseManager.set_semesters (l1 ++ l2) db,
           "Semester deleted successfully!")) /\
   (unique_by Semester.semesterId (DatabaseManager.semesters db) ->
    ~ In i (map Semester.semesterId
              (DatabaseManager.semesters
                 (fst (UMSApplication.deleteSemester db i)))))) /\
  ((~ In i (map Course.courseId (DatabaseManager.courses db)) ->
    UMSApplication.deleteCourse db i = (db, "Course not found!")) /\
   (forall l1 x l2,
      DatabaseManager.courses db = l1 ++ x :: l2 ->
      ~ In i (map Course.courseId l1) -> Course.courseId x = i ->
      UMSApplication.deleteCourse db i
        = (DatabaseManager.set_courses (l1 ++ l2) db,
           "Course deleted successfully!")) /\
   (unique_by Course.courseId (DatabaseManager.courses db) ->
    ~ In i (map Course.courseId
              (DatabaseManager.courses
                 (fst (UMSApplication.deleteCourse db i)))))).
Proof.
  pose proof (erase_by_key i) as G.
  repeat split.
  - intros H. unfold UMSApplication.deleteDepartment.
    now rewrite (proj1 (G _ Department.deptId _) H).
  - intros l1 x l2 E H1 H2. unfold UMSApplication.deleteDepartment.
    now destruct (proj1 (proj2 (G _ Department.deptId _)) l1 x l2 E H1 H2) as [-> ->].
  - intros Hu. pose proof (proj2 (proj2 (G _ Department.deptId _)) Hu) as H.
    unfold UMSApplication.deleteDepartment.
    now destruct (_ <? _)%nat.
  - intros H. unfold UMSApplication.deleteSemester.
    now rewrite (proj1 (G _ Semester.semesterId _) H).
  - intros l1 x l2 E H1 H2. unfold UMSApplication.deleteSemester.
    now destruct (proj1 (proj2 (G _ Semester.semesterId _)) l1 x l2 E H1 H2) as [-> ->].
  - intros Hu. pose proof (proj2 (proj2 (G _ Semester.semesterId _)) Hu) as H.
    unfold UMSApplication.deleteSemester.
    now destruct (_ <? _)%nat.
  - intros H. unfold UMSApplication.deleteCourse.
    now rewrite (proj1 (G _ Course.courseId _) H).
  - intros l1 x l2 E H1 H2. unfold UMSApplication.deleteCourse.
    now destruct (proj1 (proj2 (G _ Course.courseId _)) l1 x l2 E H1 H2) as [-> ->].
  - intros Hu. pose proof (proj2 (proj2 (G _ Course.courseId _)) Hu) as H.
    unfold UMSApplication.deleteCourse.
    now destruct (_ <? _)%nat.
Qed.

(** The course of the sample database. *)
Lemma delete_removes_first_match_witness :
  UMSApplication.deleteCourse sample_db "CS101"
  = (DatabaseManager.set_courses [] sample_db, "Course deleted successfully!").
Proof.
  apply (proj1 (proj2 (proj2 (proj2 (delete_removes_first_match sample_db "CS101"))))
           [] (Course.mk "CS101" "Programming" "TCH001" "D1" "S1" 3 "Mon 9:00" 30) []).
  - reflexivity.
  - simpl. tauto.
  - reflexivity.
Defined.

Lemma accepted_same_records db db' user cid eid sid exam marks :
  DatabaseManager.courses db' = DatabaseManager.courses db ->
  DatabaseManager.exams db' = DatabaseManager.exams db ->
  DatabaseManager.enrollments db' = DatabaseManager.enrollments db ->
  accepted db user cid eid sid exam marks ->
  accepted db' user cid eid sid exam marks.
Proof.
  unfold accepted, DatabaseManager.findCourse, DatabaseManager.findExam,
    DatabaseManager.isStudentEnrolled.
  now intros -> -> ->.
Qed.

(** X13: deleting does not cascade.  [deleteCourse] leaves the exams,
    enrollments, grades and attendance records of the course: with
    unique course identifiers the course is no longer found, its exams
    and enrollments are still listed, and every [enterGrades] for it is
    refused.  [deleteUser] leaves the enrollments of the user: a grade
    that could be entered for a student before the deletion of any user
    is still entered afterwards, with the same result in the grades. *)
Theorem delete_does_not_cascade db i :
  (let db' := fst (UMSApplication.deleteCourse db i) in
   DatabaseManager.exams db' = DatabaseManager.exams db /\
   DatabaseManager.enrollments db' = DatabaseManager.enrollments db /\
   DatabaseManager.grades db' = DatabaseManager.grades db /\
   DatabaseManager.attendanceRecords db' = DatabaseManager.attendanceRecords db /\
   DatabaseManager.getCourseExams db' i = DatabaseManager.getCourseExams db i /\
   (forall s, DatabaseManager.isStudentEnrolled db' s i
              = DatabaseManager.isStudentEnrolled db s i) /\
   (unique_by Course.courseId (DatabaseManager.courses db) ->
    DatabaseManager.findCourse db' i = None /\
    forall user eid sid marks comments,
      UMSApplication.enterGrades db' user i eid sid marks comments
        = (db', "Invalid course or not your course!"))) /\
  (let db' := fst (UMSApplication.deleteUser db i) in
   DatabaseManager.enrollments db' = DatabaseManager.enrollments db /\
   DatabaseManager.grades db' = DatabaseManager.grades db /\
   DatabaseManager.attendanceRecords db' = DatabaseManager.attendanceRecords db /\
   DatabaseManager.courses db' = DatabaseManager.courses db /\
   forall user cid eid sid exam marks comments,
     accepted db user cid eid sid exam marks ->
     accepted db' user cid eid sid exam marks /\
     DatabaseManager.grades
       (fst (UMSApplication.enterGrades db' user cid eid sid marks comments))
     = DatabaseManager.grades
         (fst (UMSApplication.enterGrades db user cid eid sid marks comments))).
Proof.
  split.
  - intros db'.
    assert (E : exists v, db' = DatabaseManager.set_courses v db /\
                          (unique_by Course.courseId (DatabaseManager.courses db) ->
                           ~ In i (map Course.courseId v))).
    { unfold db', UMSApplication.deleteCourse.
      pose proof (proj2 (proj2 (erase_by_key i _ Course.courseId
                                  (DatabaseManager.courses db)))) as H.
      destruct (_ <? _)%nat.
      - eexists. split; [reflexivity | exact H].
      - exists (DatabaseManager.courses db). split; [now destruct db | exact H]. }
    destruct E as (v & -> & Hv). repeat split.
    + unfold DatabaseManager.findCourse. simpl. apply find_key_none. now apply Hv.
    + intros user eid sid marks comments. unfold UMSApplication.enterGrades.
      unfold DatabaseManager.findCourse at 1. simpl DatabaseManager.courses.
      rewrite find_key_none by now apply Hv. reflexivity.
  - intros db'.
    assert (E : exists v, db' = DatabaseManager.set_users v db).
    { unfold db', UMSApplication.deleteUser.
      destruct (_ <? _)%nat; [destruct (_ =? _)%string|]; cbn [fst];
        try (exists (DatabaseManager.users db); now destruct db).
      eexists. reflexivity. }
    destruct E as (v & ->). do 4 (split; [reflexivity|]).
    intros user cid eid sid exam marks comments H. split.
    + revert H. now apply accepted_same_records.
    + rewrite (enterGrades_accepted _ _ _ _ _ _ _ comments H).
      rewrite (enterGrades_accepted _ _ _ _ _ _ _ comments
                 (accepted_same_records db (DatabaseManager.set_users v db) _ _ _ _ _ _
                    eq_refl eq_refl eq_refl H)).
      unfold UMSApplication.store_grade. simpl DatabaseManager.grades.
      now destruct (_ <? _)%nat.
Qed.

(** After the course of the sample database is deleted, its teacher
    can no longer enter a grade for its exam. *)
Lemma delete_does_not_cascade_witness :
  UMSApplication.enterGrades (fst (UMSApplication.deleteCourse sample_db "CS101"))
                             sample_teacher "CS101" "EX001" "STU001" 90 "Well done"
  = (fst (UMSApplication.deleteCourse sample_db "CS101"),
     "Invalid course or not your course!").
Proof.
  refine (proj2 (proj2 (proj2 (proj2 (proj2 (proj2 (proj2
            (proj1 (delete_does_not_cascade sample_db "CS101"))))))) _)
            sample_teacher "EX001" "STU001" 90%Z "Well done").
  repeat constructor. simpl. tauto.
Defined.

(** X14: [updateSemesterStatus] writes the new status, whatever it
    is, into the first semester of the given identifier and changes
    nothing else: the other fields of that semester, the other
    semesters, their order and so the identifiers stay; when no
    semester has the identifier the database is left as it was. *)
Theorem updateSemesterStatus_first_match db i newStatus :
  let r := UMSApplication.updateSemesterStatus db i newStatus in
  (~ In i (map Semester.semesterId (DatabaseManager.semesters db)) ->
   r = (db, "Semester not found!")) /\
  (forall l1 s l2,
     DatabaseManager.semesters db = l1 ++ s :: l2 ->
     ~ In i (map Semester.semesterId l1) -> Semester.semesterId s = i ->
     r = (DatabaseManager.set_semesters
            (l1 ++ Semester.mk i (Semester.semesterName s) (Semester.startDate s)
                               (Semester.endDate s) newStatus :: l2) db,
          "Semester status updated successfully!")) /\
  map Semester.semesterId (DatabaseManager.semesters (fst r))
    = map Semester.semesterId (DatabaseManager.semesters db).
Proof.
  intros r.
  assert (A : ~ In i (map Semester.semesterId (DatabaseManager.semesters db)) ->
              r = (db, "Semester not found!")).
  { intros H. unfold r, UMSApplication.updateSemesterStatus.
    now rewrite find_if_key_none. }
  assert (B : forall l1 s l2,
     DatabaseManager.semesters db = l1 ++ s :: l2 ->
     ~ In i (map Semester.semesterId l1) -> Semester.semesterId s = i ->
     r = (DatabaseManager.set_semesters
            (l1 ++ Semester.mk i (Semester.semesterName s) (Semester.startDate s)
                               (Semester.endDate s) newStatus :: l2) db,
          "Semester status updated successfully!")).
  { intros l1 s l2 E H1 H2. unfold r, UMSApplication.updateSemesterStatus.
    rewrite E, find_if_key_first by assumption.
    replace (List.length l1 <? List.length (l1 ++ s :: l2))%nat with true
      by (symmetry; apply Nat.ltb_lt; rewrite length_app; simpl; lia).
    now rewrite assign_middle, H2. }
  split; [exact A|]. split; [exact B|].
  destruct (find_key_dec Semester.semesterId i (DatabaseManager.semesters db))
    as [H | H].
  - destruct (find_key_some _ _ _ H) as (l1 & s & l2 & E & H1 & H2 & _).
    rewrite (B l1 s l2 E H1 H2), E. simpl. rewrite !map_app. simpl. now rewrite H2.
  - now rewrite (A H).
Qed.

(** The first of two semesters becomes active. *)
Lemma updateSemesterStatus_first_match_witness :
  let fall := Semester.mk "FALL2025" "Fall 2025" "2025-08-15" "2025-12-15" in
  let spring := Semester.mk "SPRING2026" "Spring 2026" "2026-01-15" "2026-05-15"
                            "upcoming" in
  let db := DatabaseManager.set_semesters [fall "upcoming"; spring] empty_db in
  UMSApplication.updateSemesterStatus db "FALL2025" "active"
  = (DatabaseManager.set_semesters [fall "active"; spring] db,
     "Semester status updated successfully!").
Proof.
  intros fall spring db.
  apply (proj1 (proj2 (updateSemesterStatus_first_match db "FALL2025" "active"))
           [] (fall "upcoming") [spring]).
  - reflexivity.
  - simpl. tauto.
  - reflexivity.
Defined.

(** ** Signing up and logging in *)

(** The two ways in which [performSignup] returns. *)
Lemma performSignup_cases env db choice username password name email phone address
    deptId db' msg :
  UMSApplication.performSignup env db choice username password name email phone
    address deptId = Ok (db', msg) ->
  db' = db \/
  exists newId,
    (choice <> 3%Z /\
     ~ In username (map User.username (DatabaseManager.users db)) /\
     (DatabaseManager.departments db <> [] ->
      In deptId (map Department.deptId (DatabaseManager.departments db)))) /\
    DatabaseManager.generateNextId (if (choice =? 1)%Z then "STU" else "TCH")
      (map User.id (DatabaseManager.users db)) = Ok newId /\
    db' = DatabaseManager.set_users
            (DatabaseManager.users db ++
             [User.mk newId username (SimpleHash.hash env password)
                      (if (choice =? 1)%Z then "student" else "teacher") name
                      email phone address
                      (if vempty (DatabaseManager.departments db) then ""
                       else deptId)
                      (to_string (time_now env))]) db.
Proof.
  unfold UMSApplication.performSignup.
  destruct (Z.eqb_spec choice 3) as [E3 | N3]; [intros [= <- _]; now left|].
  destruct (DatabaseManager.findUser db username) as [u0|] eqn:Eu;
    [intros [= <- _]; now left|].
  destruct (negb (vempty (DatabaseManager.departments db)) && _)%bool eqn:Ed;
    [intros [= <- _]; now left|].
  replace (if ((if (choice =? 1)%Z then "student" else "teacher") =? "student")%string
           then "STU" else "TCH")
    with (if (choice =? 1)%Z then "STU" else "TCH")
    by now destruct (choice =? 1)%Z.
  destruct (DatabaseManager.generateNextId _ _) as [newId|e] eqn:Eg; [|discriminate].
  cbn [bind]. intros [= <- _]. right. exists newId.
  split; [|split; reflexivity].
  repeat split; try assumption.
  - intros Hin. unfold DatabaseManager.findUser in Eu.
    destruct (find_key_some _ _ _ Hin) as (? & ? & ? & _ & _ & _ & E). congruence.
  - intros Hne. rewrite (vempty_false _ Hne) in Ed. cbn [negb andb] in Ed.
    destruct (DatabaseManager.findDepartment db deptId) as [d0|] eqn:E; [|discriminate].
    now apply find_key_In in E.
Qed.

(** With the number 999 of the prefix taken, a registration that
    passes the checks ends in an exception. *)
Lemma performSignup_from_999 env db choice username password name email phone
    address deptId :
  choice <> 3%Z ->
  ~ In username (map User.username (DatabaseManager.users db)) ->
  (DatabaseManager.departments db <> [] ->
   In deptId (map Department.deptId (DatabaseManager.departments db))) ->
  (999 <= maxNum_of (if (choice =? 1)%Z then "STU" else "TCH")
                    (map User.id (DatabaseManager.users db)))%Z ->
  UMSApplication.performSignup env db choice username password name email phone
    address deptId = Throw length_error.
Proof.
  intros N3 Hn Hd Hmax. unfold UMSApplication.performSignup.
  destruct (Z.eqb_spec choice 3) as [E3 | _]; [contradiction|].
  unfold DatabaseManager.findUser. rewrite find_key_none by assumption.
  replace (negb (vempty (DatabaseManager.departments db)) && _)%bool with false.
  2:{ destruct (DatabaseManager.departments db) as [|d0 ds] eqn:Ed; [reflexivity|].
      cbn [vempty negb andb]. unfold DatabaseManager.findDepartment. rewrite Ed.
      destruct (find_key_some Department.deptId deptId (d0 :: ds) (Hd ltac:(discriminate)))
        as (? & ? & ? & _ & _ & _ & ->). reflexivity. }
  replace (if ((if (choice =? 1)%Z then "student" else "teacher") =? "student")%string
           then "STU" else "TCH")
    with (if (choice =? 1)%Z then "STU" else "TCH")
    by now destruct (choice =? 1)%Z.
  now rewrite generateNextId_from_999.
Qed.

(** Below 999, a registration that passes the checks appends the new
    user. *)
Lemma performSignup_below_999 env db choice username password name email phone
    address deptId :
  choice <> 3%Z ->
  ~ In username (map User.username (DatabaseManager.users db)) ->
  (DatabaseManager.departments db <> [] ->
   In deptId (map Department.deptId (DatabaseManager.departments db))) ->
  let prefix := if (choice =? 1)%Z then "STU" else "TCH" in
  let ids := map User.id (DatabaseManager.users db) in
  let newId := (prefix ++ zero_pad3 (to_string (maxNum_of prefix ids + 1)))%string in
  (maxNum_of prefix ids < 999)%Z ->
  UMSApplication.performSignup env db choice username password name email phone
    address deptId
  = Ok (DatabaseManager.set_users
          (DatabaseManager.users db ++
           [User.mk newId username (SimpleHash.hash env password)
                    (if (choice =? 1)%Z then "student" else "teacher") name
                    email phone address
                    (if vempty (DatabaseManager.departments db) then "" else deptId)
                    (to_string (time_now env))]) db,
        ((if (choice =? 1)%Z then "student" else "teacher")
         ++ " registration successful! Your ID is: " ++ newId ++ endl
         ++ "You can now login with your credentials.")%string).
Proof.
  intros N3 Hn Hd prefix ids newId Hmax. unfold UMSApplication.performSignup.
  destruct (Z.eqb_spec choice 3) as [E3 | _]; [contradiction|].
  unfold DatabaseManager.findUser. rewrite find_key_none by assumption.
  replace (negb (vempty (DatabaseManager.departments db)) && _)%bool with false.
  2:{ destruct (DatabaseManager.departments db) as [|d0 ds] eqn:Ed; [reflexivity|].
      cbn [vempty negb andb]. unfold DatabaseManager.findDepartment. rewrite Ed.
      destruct (find_key_some Department.deptId deptId (d0 :: ds) (Hd ltac:(discriminate)))
        as (? & ? & ? & _ & _ & _ & ->). reflexivity. }
  replace (if ((if (choice =? 1)%Z then "student" else "teacher") =? "student")%string
           then "STU" else "TCH")
    with prefix by (unfold prefix; now destruct (choice =? 1)%Z).
  fold ids. rewrite (generateNextId_below_999 prefix ids Hmax). reflexivity.
Qed.

(** X15: [performSignup] registers a student when the choice is 1
    and a teacher for every other choice but 3, never an
    administrator.  When it returns with a changed database, the user
    name was free, the department, where departments exist, is one of
    them, and exactly one user was appended: the identifier is the one
    [generateNextId] gives for [STU] or [TCH], new among the users, and
    the password is stored hashed.  Identifiers and user names that were
    unique stay unique.  With the number 999 of the prefix taken the
    registration ends in [std::length_error].  Below 999 a registration
    that passes the checks does append that user, under the prefix
    followed by the next number on three digits, and prints the
    identifier; choice 3, a user name that is taken and a department
    that does not exist leave the database as it was. *)
Theorem performSignup_registers env db choice username password name email phone
    address deptId :
  let r := UMSApplication.performSignup env db choice username password name email
             phone address deptId in
  let role := if (choice =? 1)%Z then "student" else "teacher" in
  let prefix := if (choice =? 1)%Z then "STU" else "TCH" in
  let ids := map User.id (DatabaseManager.users db) in
  let checked :=
    choice <> 3%Z /\
    ~ In username (map User.username (DatabaseManager.users db)) /\
    (DatabaseManager.departments db <> [] ->
     In deptId (map Department.deptId (DatabaseManager.departments db))) in
  (forall db' msg, r = Ok (db', msg) ->
     db' = db \/
     exists newId,
       checked /\
       DatabaseManager.generateNextId prefix ids = Ok newId /\
       ~ In newId ids /\
       db' = DatabaseManager.set_users
               (DatabaseManager.users db ++
                [User.mk newId username (SimpleHash.hash env password) role name
                         email phone address
                         (if vempty (DatabaseManager.departments db) then ""
                          else deptId)
                         (to_string (time_now env))]) db) /\
  (forall db' msg, r = Ok (db', msg) ->
     (unique_by User.id (DatabaseManager.users db) ->
      unique_by User.id (DatabaseManager.users db')) /\
     (unique_by User.username (DatabaseManager.users db) ->
      unique_by User.username (DatabaseManager.users db'))) /\
  (checked -> (999 <= maxNum_of prefix ids)%Z -> r = Throw length_error) /\
  (checked -> (maxNum_of prefix ids < 999)%Z ->
   let newId := (prefix ++ zero_pad3 (to_string (maxNum_of prefix ids + 1)))%string in
   r = Ok (DatabaseManager.set_users
             (DatabaseManager.users db ++
              [User.mk newId username (SimpleHash.hash env password) role name
                       email phone address
                       (if vempty (DatabaseManager.departments db) then ""
                        else deptId)
                       (to_string (time_now env))]) db,
           (role ++ " registration successful! Your ID is: " ++ newId ++ endl
            ++ "You can now login with your credentials.")%string) /\
   ~ In newId ids) /\
  (choice = 3%Z -> r = Ok (db, "")) /\
  (choice <> 3%Z ->
   In username (map User.username (DatabaseManager.users db)) ->
   r = Ok (db, "Username already exists! Please try again.")) /\
  (choice <> 3%Z ->
   ~ In username (map User.username (DatabaseManager.users db)) ->
   DatabaseManager.departments db <> [] ->
   ~ In deptId (map Department.deptId (DatabaseManager.departments db)) ->
   r = Ok (db, "Invalid department ID!")).
Proof.
  intros r role prefix ids checked.
  assert (A : forall db' msg, r = Ok (db', msg) ->
     db' = db \/
     exists newId,
       checked /\
       DatabaseManager.generateNextId prefix ids = Ok newId /\
       ~ In newId ids /\
       db' = DatabaseManager.set_users
               (DatabaseManager.users db ++
                [User.mk newId username (SimpleHash.hash env password) role name
                         email phone address
                         (if vempty (DatabaseManager.departments db) then ""
                          else deptId)
                         (to_string (time_now env))]) db).
  { intros db' msg Hr. destruct (performSignup_cases _ _ _ _ _ _ _ _ _ _ _ _ Hr)
      as [-> | (newId & Hc & Hg & ->)]; [now left|].
    right. exists newId. repeat split; try apply Hc; try assumption.
    now apply (generateNextId_fresh prefix). }
  split; [exact A|]. split; [|split; [|split; [|split; [|split]]]].
  - intros db' msg Hr. destruct (A db' msg Hr) as [-> | (newId & (_ & Hn & _) & _ & Hf & ->)];
      [tauto|].
    split; intros Hu; simpl; now apply (unique_by_push_back _ (DatabaseManager.users db)).
  - intros (N3 & Hn & Hd) Hmax. now apply performSignup_from_999.
  - intros (N3 & Hn & Hd) Hmax newId. split.
    + now apply performSignup_below_999.
    + apply (generateNextId_fresh prefix). now apply generateNextId_below_999.
  - intros E3. unfold r, UMSApplication.performSignup.
    now destruct (Z.eqb_spec choice 3).
  - intros N3 Hin. unfold r, UMSApplication.performSignup.
    destruct (Z.eqb_spec choice 3) as [E3 | _]; [contradiction|].
    unfold DatabaseManager.findUser.
    now destruct (find_key_some _ _ _ Hin) as (? & ? & ? & _ & _ & _ & ->).
  - intros N3 Hn Hne Hd. unfold r, UMSApplication.performSignup.
    destruct (Z.eqb_spec choice 3) as [E3 | _]; [contradiction|].
    unfold DatabaseManager.findUser. rewrite find_key_none by assumption.
    rewrite (vempty_false _ Hne). cbn [negb andb].
    unfold DatabaseManager.findDepartment. now rewrite find_key_none.
Qed.

(** The first student of a new installation, which has no department
    yet. *)
Lemma performSignup_registers_witness :
  UMSApplication.performSignup sample_env
    (DatabaseManager.set_users [DatabaseManager.default_admin sample_env] empty_db)
    1 "alice" "secret" "Alice Johnson" "alice.j@student.edu" "123-456-7892"
    "125 Campus St" "CSE"
  = Ok (DatabaseManager.set_users
          [DatabaseManager.default_admin sample_env;
           User.mk "STU001" "alice" (SimpleHash.hash sample_env "secret") "student"
                   "Alice Johnson" "alice.j@student.edu" "123-456-7892"
                   "125 Campus St" "" (to_string (time_now sample_env))]
          empty_db,
        ("student registration successful! Your ID is: STU001" ++ endl
         ++ "You can now login with your credentials.")%string).
Proof.
  refine (proj1 (proj1 (proj2 (proj2 (proj2 (performSignup_registers sample_env
           (DatabaseManager.set_users [DatabaseManager.default_admin sample_env]
              empty_db)
           1 "alice" "secret" "Alice Johnson" "alice.j@student.edu" "123-456-7892"
           "125 Campus St" "CSE")))) _ _)).
  - repeat split.
    + discriminate.
    + simpl. intros [H | []]. discriminate H.
    + intros H. now elim H.
  - reflexivity.
Defined.

(** X16: [performLogin] logs in the first user of the given user
    name, and only if the stored hash is the hash of the given
    password; a later user of the same name is never logged in, and
    without such a first user the answer is [Invalid credentials!]. *)
Theorem performLogin_sound env db username password :
  let r := UMSApplication.performLogin env db username password in
  (forall user, fst r = Some user ->
     (exists l1 l2, DatabaseManager.users db = l1 ++ user :: l2 /\
                    ~ In username (map User.username l1)) /\
     User.username user = username /\
     User.passwordHash user = SimpleHash.hash env password /\
     snd r = ("Login successful! Welcome, " ++ User.name user)%string) /\
  (forall l1 user l2,
     DatabaseManager.users db = l1 ++ user :: l2 ->
     ~ In username (map User.username l1) -> User.username user = username ->
     User.passwordHash user = SimpleHash.hash env password ->
     r = (Some user, ("Login successful! Welcome, " ++ User.name user)%string)) /\
  (fst r = None -> snd r = "Invalid credentials!").
Proof.
  intros r. unfold r, UMSApplication.performLogin, DatabaseManager.findUser.
  split; [|split].
  - intros user H.
    destruct (find_key_dec User.username username (DatabaseManager.users db))
      as [Hin | Hin];
      [|rewrite find_key_none in H by assumption; discriminate].
    destruct (find_key_some _ _ _ Hin) as (l1 & x & l2 & E & H1 & H2 & Hf).
    rewrite Hf in H |- *.
    destruct (String.eqb_spec (User.passwordHash x) (SimpleHash.hash env password))
      as [Hp | Hp]; [|discriminate].
    injection H as <-. repeat split; try assumption. now exists l1, l2.
  - intros l1 user l2 E H1 H2 H3. rewrite E.
    rewrite (find_key_first_found User.username) by assumption.
    now rewrite H3, String.eqb_refl.
  - intros H. destruct (find _ _) as [u|]; [|reflexivity].
    destruct (_ =? _)%string; [discriminate | reflexivity].
Qed.

(** The administrator of a new installation. *)
Lemma performLogin_sound_witness :
  UMSApplication.performLogin sample_env
    (DatabaseManager.set_users [DatabaseManager.default_admin sample_env] empty_db)
    "admin" "admin123"
  = (Some (DatabaseManager.default_admin sample_env),
     "Login successful! Welcome, System Administrator").
Proof.
  apply (proj1 (proj2 (performLogin_sound sample_env
           (DatabaseManager.set_users [DatabaseManager.default_admin sample_env]
              empty_db) "admin" "admin123"))
           [] (DatabaseManager.default_admin sample_env) []); try reflexivity.
  simpl. tauto.
Defined.

(** X17: a user whom [createUser] has just created, under an
    identifier and a user name that were free, logs in with the user
    name and the password given at creation; another password is
    refused exactly when its hash is another one. *)
Theorem createUser_then_login env db role id username password name email :
  ~ In id (map User.id (DatabaseManager.users db)) ->
  ~ In username (map User.username (DatabaseManager.users db)) ->
  let db' := fst (UMSApplication.createUser env db role id username password name
                    email) in
  let user := User.mk id username (SimpleHash.hash env password) role name email
                      "" "" "" (to_string (time_now env)) in
  UMSApplication.performLogin env db' username password
    = (Some user, ("Login successful! Welcome, " ++ name)%string) /\
  (forall other,
     SimpleHash.hash env other <> SimpleHash.hash env password ->
     UMSApplication.performLogin env db' username other
       = (None, "Invalid credentials!")) /\
  (forall other,
     SimpleHash.hash env other = SimpleHash.hash env password ->
     fst (UMSApplication.performLogin env db' username other) = Some user).
Proof.
  intros Hid Hname db' user.
  assert (E : db' = DatabaseManager.set_users (DatabaseManager.users db ++ [user]) db).
  { unfold db', UMSApplication.createUser, DatabaseManager.findUserById,
      DatabaseManager.findUser.
    now rewrite !find_key_none by assumption. }
  assert (F : DatabaseManager.findUser db' username = Some user).
  { rewrite E. unfold DatabaseManager.findUser. simpl DatabaseManager.users.
    apply find_app_first; [|apply String.eqb_refl].
    apply Forall_forall. intros y Hy. apply String.eqb_neq. intros Ey.
    apply Hname. rewrite <- Ey. now apply in_map. }
  unfold UMSApplication.performLogin. rewrite F.
  change (User.passwordHash user) with (SimpleHash.hash env password).
  change (User.name user) with name.
  repeat split.
  - now rewrite String.eqb_refl.
  - intros other Ho. apply not_eq_sym in Ho. apply String.eqb_neq in Ho.
    now rewrite Ho.
  - intros other Ho. now rewrite Ho, String.eqb_refl.
Qed.

(** A second teacher in the sample database. *)
Lemma createUser_then_login_witness :
  UMSApplication.performLogin sample_env
    (fst (UMSApplication.createUser sample_env sample_db "teacher" "TCH002"
            "teacher2" "secret" "Prof. Doe" "doe@university.edu"))
    "teacher2" "secret"
  = (Some (User.mk "TCH002" "teacher2" (SimpleHash.hash sample_env "secret")
                   "teacher" "Prof. Doe" "doe@university.edu" "" "" ""
                   (to_string (time_now sample_env))),
     "Login successful! Welcome, Prof. Doe").
Proof.
  apply (proj1 (createUser_then_login sample_env sample_db "teacher" "TCH002"
                  "teacher2" "secret" "Prof. Doe" "doe@university.edu"
                  ltac:(simpl; intros [H | []]; discriminate H)
                  ltac:(simpl; intros [H | []]; discriminate H))).
Defined.

(** ** The teacher's operations *)

Lemma not_own_course_teaches db user cid :
  (teaches db user cid -> UMSApplication.not_own_course db user cid = false) /\
  (~ teaches db user cid -> UMSApplication.not_own_course db user cid = true).
Proof.
  unfold teaches, UMSApplication.not_own_course. split.
  - intros (course & -> & ->). now rewrite String.eqb_refl.
  - intros H. destruct (DatabaseManager.findCourse db cid) as [course|]; [|reflexivity].
    destruct (String.eqb_spec (Course.teacherId course) (User.id user)); [|reflexivity].
    exfalso. apply H. now exists course.
Qed.

Lemma teaches_dec db user cid : teaches db user cid \/ ~ teaches db user cid.
Proof.
  unfold teaches. destruct (DatabaseManager.findCourse db cid) as [course|].
  - destruct (string_dec (Course.teacherId course) (User.id user)).
    + left. now exists course.
    + right. intros (? & [= <-] & ?). tauto.
  - right. intros (? & [=] & _).
Qed.

(** X18: [createExam] is refused unless the first course of the
    given identifier is taught by the current user.  For such a course
    and with fewer than 999 as the largest exam number, the exam is
    appended under the identifier [EX] followed by the next number on
    three digits, which no exam has; the total of marks is taken as it
    comes.  From 999 on the operation ends in [std::length_error].
    Exam identifiers that were unique stay unique. *)
Theorem createExam_new_identifier db user cid name date time type total :
  let r := UMSApplication.createExam db user cid name date time type total in
  let ids := map Exam.examId (DatabaseManager.exams db) in
  let examId := ("EX" ++ zero_pad3 (to_string (maxNum_of "EX" ids + 1)))%string in
  (~ teaches db user cid -> r = Ok (db, "Invalid course or not your course!")) /\
  (teaches db user cid -> (maxNum_of "EX" ids < 999)%Z ->
   r = Ok (DatabaseManager.set_exams
             (DatabaseManager.exams db ++
              [Exam.mk examId cid name date time type total]) db,
           ("Exam created successfully! Exam ID: " ++ examId)%string) /\
   ~ In examId ids) /\
  (teaches db user cid -> (999 <= maxNum_of "EX" ids)%Z ->
   r = Throw length_error) /\
  (forall db' msg, r = Ok (db', msg) ->
     unique_by Exam.examId (DatabaseManager.exams db) ->
     unique_by Exam.examId (DatabaseManager.exams db')).
Proof.
  intros r ids examId.
  pose proof (not_own_course_teaches db user cid) as [Ht Hn].
  assert (A : teaches db user cid -> (maxNum_of "EX" ids < 999)%Z ->
              r = Ok (DatabaseManager.set_exams
                        (push_back (DatabaseManager.exams db)
                           (Exam.mk examId cid name date time type total)) db,
                      ("Exam created successfully! Exam ID: " ++ examId)%string) /\
              ~ In examId ids).
  { intros H Hmax. unfold r, UMSApplication.createExam. rewrite (Ht H). fold ids.
    pose proof (generateNextId_below_999 "EX" ids Hmax) as E. fold examId in E.
    rewrite E. split; [reflexivity|]. now apply (generateNextId_fresh "EX"). }
  repeat split.
  - intros H. unfold r, UMSApplication.createExam. now rewrite (Hn H).
  - now apply A.
  - now apply A.
  - intros H Hmax. unfold r, UMSApplication.createExam. rewrite (Ht H). fold ids.
    now rewrite generateNextId_from_999.
  - intros db' msg Hr Hu. destruct (teaches_dec db user cid) as [H | H].
    + destruct (Z_lt_ge_dec (maxNum_of "EX" ids) 999) as [Hlt | Hge].
      * destruct (A H Hlt) as [E Hf]. rewrite E in Hr. injection Hr as <- _.
        simpl. now apply unique_by_push_back.
      * unfold r, UMSApplication.createExam in Hr. rewrite (Ht H) in Hr.
        fold ids in Hr. rewrite generateNextId_from_999 in Hr by lia. discriminate.
    + unfold r, UMSApplication.createExam in Hr. rewrite (Hn H) in Hr.
      now injection Hr as <- _.
Qed.

(** A second exam for the course of the sample database. *)
Lemma createExam_new_identifier_witness :
  UMSApplication.createExam sample_db sample_teacher "CS101" "Final" "2025-12-10"
                            "14:00-17:00" "final" 150
  = Ok (DatabaseManager.set_exams
          [sample_exam;
           Exam.mk "EX002" "CS101" "Final" "2025-12-10" "14:00-17:00" "final" 150]
          sample_db,
        "Exam created successfully! Exam ID: EX002").
Proof.
  refine (proj1 (proj1 (proj2 (createExam_new_identifier sample_db sample_teacher
                   "CS101" "Final" "2025-12-10" "14:00-17:00" "final" 150)) _ _)).
  - eexists. split; reflexivity.
  - reflexivity.
Defined.

(** X19: [deleteExam] removes the first exam of the given identifier
    when the first course of that exam's course identifier is taught by
    the current user, and refuses otherwise; the grades given for the
    exam are left in place. *)
Theorem deleteExam_authorized db user eid :
  let r := UMSApplication.deleteExam db user eid in
  (~ In eid (map Exam.examId (DatabaseManager.exams db)) ->
   r = (db, "Exam not found!")) /\
  (forall l1 e l2,
     DatabaseManager.exams db = l1 ++ e :: l2 ->
     ~ In eid (map Exam.examId l1) -> Exam.examId e = eid ->
     (teaches db user (Exam.courseId e) ->
      r = (DatabaseManager.set_exams (l1 ++ l2) db, "Exam deleted successfully!")) /\
     (~ teaches db user (Exam.courseId e) ->
      r = (db, "Not authorized to delete this exam!"))) /\
  DatabaseManager.grades (fst r) = DatabaseManager.grades db.
Proof.
  intros r. unfold r, UMSApplication.deleteExam, DatabaseManager.findExam.
  split; [|split].
  - intros H. now rewrite find_key_none.
  - intros l1 e l2 E H1 H2. rewrite E.
    rewrite (find_key_first_found Exam.examId) by assumption. rewrite <- E.
    split; intros Ht.
    + rewrite (proj1 (not_own_course_teaches db user _) Ht).
      now destruct (proj1 (proj2 (erase_by_key eid _ Exam.examId _)) l1 e l2 E H1 H2)
        as [-> ->].
    + now rewrite (proj2 (not_own_course_teaches db user _) Ht).
  - destruct (find _ _); [|reflexivity].
    destruct (UMSApplication.not_own_course _ _ _); [reflexivity|].
    now destruct (_ <? _)%nat.
Qed.

(** The exam of the sample database, by its teacher. *)
Lemma deleteExam_authorized_witness :
  UMSApplication.deleteExam sample_db sample_teacher "EX001"
  = (DatabaseManager.set_exams [] sample_db, "Exam deleted successfully!").
Proof.
  refine (proj1 (proj1 (proj2 (deleteExam_authorized sample_db sample_teacher "EX001"))
                   [] sample_exam [] eq_refl _ eq_refl) _).
  - simpl. tauto.
  - eexists. split; reflexivity.
Defined.

Lemma isStudentEnrolled_active db sid cid :
  DatabaseManager.isStudentEnrolled db sid cid = true <->
  In (sid, cid) (active_pairs (DatabaseManager.enrollments db)).
Proof.
  unfold DatabaseManager.isStudentEnrolled, active_pairs.
  rewrite existsb_exists, in_map_iff. split.
  - intros (e & Hin & H). apply andb_true_iff in H as [H H3].
    apply andb_true_iff in H as [H1 H2].
    apply String.eqb_eq in H1, H2. exists e. split; [congruence|].
    apply filter_In. now split.
  - intros (e & [= <- <-] & H). apply filter_In in H as [Hin H3].
    exists e. split; [exact Hin|]. now rewrite !String.eqb_refl, H3.
Qed.

(** X20: [enrollStudent] appends an enrollment, with no grade and the
    status [enrolled], exactly when the first course of the given
    identifier is taught by the current user, the first user of the
    given student identifier has the role [student] and the student has
    no enrollment of status [enrolled] in the course; the capacity of
    the course plays no part.  The student is enrolled afterwards.  In
    every other case the database is left as it was.  If no student had
    two enrollments of status [enrolled] in one course, none has
    afterwards. *)
Theorem enrollStudent_once db user cid sid :
  let r := UMSApplication.enrollStudent db user cid sid in
  let checked :=
    teaches db user cid /\
    (exists student, DatabaseManager.findUserById db sid = Some student /\
                     User.role student = "student") /\
    DatabaseManager.isStudentEnrolled db sid cid = false in
  (checked ->
   r = (DatabaseManager.set_enrollments
          (DatabaseManager.enrollments db ++ [Enrollment.mk sid cid "" "enrolled"]) db,
        "Student enrolled successfully!") /\
   DatabaseManager.isStudentEnrolled (fst r) sid cid = true) /\
  (~ checked -> fst r = db /\ snd r <> "Student enrolled successfully!") /\
  (NoDup (active_pairs (DatabaseManager.enrollments db)) ->
   NoDup (active_pairs (DatabaseManager.enrollments (fst r)))).
Proof.
  intros r checked.
  pose proof (not_own_course_teaches db user cid) as [Ht Hn].
  assert (A : checked ->
              r = (DatabaseManager.set_enrollments
                     (push_back (DatabaseManager.enrollments db)
                        (Enrollment.mk sid cid "" "enrolled")) db,
                   "Student enrolled successfully!")).
  { intros (H1 & (student & H2 & H3) & H4).
    unfold r, UMSApplication.enrollStudent.
    rewrite (Ht H1), H2, H3, H4. reflexivity. }
  assert (B : ~ checked -> fst r = db /\ snd r <> "Student enrolled successfully!").
  { intros H. unfold r, UMSApplication.enrollStudent.
    destruct (teaches_dec db user cid) as [H1 | H1];
      [rewrite (Ht H1) | rewrite (Hn H1); split; [reflexivity | discriminate]].
    destruct (DatabaseManager.findUserById db sid) as [student|] eqn:E2;
      [|split; [reflexivity | discriminate]].
    destruct (String.eqb_spec (User.role student) "student") as [H3 | H3];
      cbn [negb]; [|split; [reflexivity | discriminate]].
    destruct (DatabaseManager.isStudentEnrolled db sid cid) eqn:H4;
      [split; [reflexivity | discriminate]|].
    exfalso. apply H. unfold checked. repeat split; try assumption.
    now exists student. }
  split; [|split; [exact B|]].
  - intros H. split; [exact (A H)|]. rewrite (A H).
    apply isStudentEnrolled_active. unfold active_pairs, push_back. simpl.
    rewrite filter_app, map_app. apply in_or_app. right. simpl. now left.
  - intros Hu.
    assert (D : checked \/ ~ checked).
    { unfold checked. destruct (teaches_dec db user cid); [|tauto].
      destruct (DatabaseManager.findUserById db sid) as [student|];
        [|right; intros (_ & (? & [=] & _) & _)].
      destruct (string_dec (User.role student) "student");
        [|right; intros (_ & (? & [= <-] & ?) & _); tauto].
      destruct (DatabaseManager.isStudentEnrolled db sid cid);
        [right; intros (_ & _ & [=]) | left; eauto]. }
    destruct D as [H | H]; [|now rewrite (proj1 (B H))].
    rewrite (A H). unfold active_pairs, push_back. simpl.
    rewrite filter_app, map_app. simpl.
    apply NoDup_app; [exact Hu | repeat constructor; simpl; tauto|].
    intros p Hp [<- | []]. destruct H as (_ & _ & H4).
    apply isStudentEnrolled_active in Hp. congruence.
Qed.

(** The student of the sample database is enrolled already. *)
Lemma enrollStudent_once_witness :
  let db := DatabaseManager.set_users
              [sample_teacher;
               User.mk "STU001" "student1" "0" "student" "Alice" "alice@student.edu"
                       "" "" "D1" "0"] sample_db in
  fst (UMSApplication.enrollStudent db sample_teacher "CS101" "STU001") = db.
Proof.
  intros db.
  apply (proj1 (proj2 (enrollStudent_once db sample_teacher "CS101" "STU001"))).
  intros (_ & _ & H). discriminate H.
Defined.

(** X21: [attendanceManagement] appends a record with the date and
    the status as given, exactly when the first course of the given
    identifier is taught by the current user and the student has an
    enrollment of status [enrolled] in it; otherwise the database is left
    as it was.  It never looks at the records already there: marking the
    same student, course and date again leaves two records. *)
Theorem attendanceManagement_appends db user cid sid date status :
  let r := UMSApplication.attendanceManagement db user cid sid date status in
  let record := Attendance.mk sid cid date status in
  let checked :=
    teaches db user cid /\ DatabaseManager.isStudentEnrolled db sid cid = true in
  (checked ->
   r = (DatabaseManager.set_attendanceRecords
          (DatabaseManager.attendanceRecords db ++ [record]) db,
        "Attendance marked successfully!") /\
   DatabaseManager.attendanceRecords
     (fst (UMSApplication.attendanceManagement (fst r) user cid sid date status))
   = DatabaseManager.attendanceRecords db ++ [record; record]) /\
  (~ checked -> fst r = db /\ snd r <> "Attendance marked successfully!").
Proof.
  intros r record checked.
  pose proof (not_own_course_teaches db user cid) as [Ht Hn].
  assert (A : forall db0, teaches db0 user cid ->
              DatabaseManager.isStudentEnrolled db0 sid cid = true ->
              UMSApplication.attendanceManagement db0 user cid sid date status
              = (DatabaseManager.set_attendanceRecords
                   (DatabaseManager.attendanceRecords db0 ++ [record]) db0,
                 "Attendance marked successfully!")).
  { intros db0 H1 H2. unfold UMSApplication.attendanceManagement.
    now rewrite (proj1 (not_own_course_teaches db0 user cid) H1), H2. }
  split.
  - intros [H1 H2]. split; [now apply A|]. unfold r. rewrite (A db H1 H2).
    cbn [fst]. rewrite A; [simpl; now rewrite <- List.app_assoc | exact H1 | exact H2].
  - intros H. unfold r, UMSApplication.attendanceManagement.
    destruct (teaches_dec db user cid) as [H1 | H1];
      [rewrite (Ht H1) | rewrite (Hn H1); split; [reflexivity | discriminate]].
    destruct (DatabaseManager.isStudentEnrolled db sid cid) eqn:H2;
      [|split; [reflexivity | discriminate]].
    exfalso. apply H. now split.
Qed.

(** A student of the sample database, present twice on one day. *)
Lemma attendanceManagement_appends_witness :
  DatabaseManager.attendanceRecords
    (fst (UMSApplication.attendanceManagement
            (fst (UMSApplication.attendanceManagement sample_db sample_teacher
                    "CS101" "STU001" "2025-08-15" "present"))
            sample_teacher "CS101" "STU001" "2025-08-15" "present"))
  = [Attendance.mk "STU001" "CS101" "2025-08-15" "present";
     Attendance.mk "STU001" "CS101" "2025-08-15" "present"].
Proof.
  refine (proj2 (proj1 (attendanceManagement_appends sample_db sample_teacher "CS101"
                          "STU001" "2025-08-15" "present") _)).
  split; [eexists; split; reflexivity | reflexivity].
Defined.

(** ** Grades *)

Lemma accepted_dec db user cid eid sid marks :
  (exists exam, accepted db user cid eid sid exam marks) \/
  ~ (exists exam, accepted db user cid eid sid exam marks).
Proof.
  unfold accepted.
  destruct (teaches_dec db user cid) as [H1 | H1];
    [|right; intros (? & H & _); now apply H1].
  destruct (DatabaseManager.findExam db eid) as [exam|];
    [|right; intros (? & _ & [=] & _)].
  destruct (string_dec (Exam.courseId exam) cid) as [H2 | H2];
    [|right; intros (? & _ & [= <-] & ? & _); tauto].
  destruct (DatabaseManager.isStudentEnrolled db sid cid);
    [|right; intros (? & _ & _ & _ & [=] & _)].
  destruct (Z_le_dec 0 marks) as [H3 | H3];
    [|right; intros (? & _ & _ & _ & _ & ? & _); tauto].
  destruct (Z_le_dec marks (Exam.totalMarks exam)) as [H4 | H4];
    [|right; intros (? & _ & [= <-] & _ & _ & _ & ?); tauto].
  left. exists exam. repeat split; assumption.
Qed.

Lemma enterGrades_refused db user cid eid sid marks comments :
  ~ (exists exam, accepted db user cid eid sid exam marks) ->
  let r := UMSApplication.enterGrades db user cid eid sid marks comments in
  fst r = db /\ snd r <> "Grade updated successfully!" /\
  snd r <> "Grade entered successfully!".
Proof.
  intros H r. unfold r, UMSApplication.enterGrades.
  destruct (DatabaseManager.findCourse db cid) as [course|] eqn:Ec;
    [|repeat split; discriminate].
  destruct (String.eqb_spec (Course.teacherId course) (User.id user)) as [Ht | Ht];
    cbn [negb]; [|repeat split; discriminate].
  destruct (vempty _); [repeat split; discriminate|].
  destruct (DatabaseManager.findExam db eid) as [exam|] eqn:Ee;
    [|repeat split; discriminate].
  destruct (String.eqb_spec (Exam.courseId exam) cid) as [Hc | Hc];
    cbn [negb]; [|repeat split; discriminate].
  destruct (DatabaseManager.isStudentEnrolled db sid cid) eqn:Hn;
    cbn [negb]; [|repeat split; discriminate].
  destruct (Z.ltb_spec marks 0) as [H0 | H0]; cbn [orb];
    [repeat split; discriminate|].
  destruct (Z.ltb_spec (Exam.totalMarks exam) marks) as [H1 | H1];
    [repeat split; discriminate|].
  exfalso. apply H. exists exam. unfold accepted. repeat split; try assumption.
  now exists course.
Qed.

Lemma no_record_of_pair sid eid (gs : list Grade.t) :
  ~ In (sid, eid) (map grade_key gs) <->
  Forall (fun x => UMSApplication.same_grade_key sid eid x = false) gs.
Proof.
  rewrite Forall_forall. split.
  - intros H x Hx. apply (proj2 (same_grade_key_false sid eid x)). intros E.
    apply H. rewrite <- E. now apply in_map.
  - intros H Hin. apply in_map_iff in Hin as (x & E & Hx).
    specialize (H x Hx). apply (proj1 (same_grade_key_false sid eid x)) in H.
    contradiction.
Qed.

(** X22: [enterGrades] touches the database only when every check
    passes: the first course of the identifier is taught by the current
    user, the first exam of the identifier belongs to the course, the
    student has an enrollment of status [enrolled] and the marks lie
    between 0 and the total of the exam.  Then the first grade of the
    student for the exam, if there is one, takes the marks, the letter
    and the comments where it stands, later grades of the same pair
    staying as they are; without one a grade is appended.  In every
    other case the database is left as it was. *)
Theorem enterGrades_only_when_accepted db user cid eid sid marks comments :
  let r := UMSApplication.enterGrades db user cid eid sid marks comments in
  (~ (exists exam, accepted db user cid eid sid exam marks) ->
   fst r = db /\ snd r <> "Grade updated successfully!" /\
   snd r <> "Grade entered successfully!") /\
  (forall exam, accepted db user cid eid sid exam marks ->
     let new := Grade.mk sid eid marks
                  (UMSApplication.letterGrade_of marks (Exam.totalMarks exam))
                  comments in
     (forall l1 g l2,
        DatabaseManager.grades db = l1 ++ g :: l2 ->
        ~ In (sid, eid) (map grade_key l1) -> grade_key g = (sid, eid) ->
        r = (DatabaseManager.set_grades (l1 ++ new :: l2) db,
             "Grade updated successfully!")) /\
     (~ In (sid, eid) (map grade_key (DatabaseManager.grades db)) ->
      r = (DatabaseManager.set_grades (DatabaseManager.grades db ++ [new]) db,
           "Grade entered successfully!"))).
Proof.
  intros r. split; [apply enterGrades_refused|].
  intros exam Ha new. unfold r. rewrite (enterGrades_accepted _ _ _ _ _ _ _ comments Ha).
  split.
  - intros l1 g l2 E H1 H2.
    exact (store_grade_update _ _ _ _ _ _ l1 g l2 E
             (proj1 (no_record_of_pair _ _ _) H1) H2).
  - intros H.
    exact (store_grade_append _ _ _ _ _ _ (proj1 (no_record_of_pair _ _ _) H)).
Qed.

(** A teacher who does not teach the course of the sample database. *)
Lemma enterGrades_only_when_accepted_witness :
  fst (UMSApplication.enterGrades sample_db
         (User.mk "TCH002" "teacher2" "0" "teacher" "Prof. Doe" "doe@university.edu"
                  "" "" "D1" "0")
         "CS101" "EX001" "STU001" 90 "Well done")
  = sample_db.
Proof.
  refine (proj1 (proj1 (enterGrades_only_when_accepted sample_db
            (User.mk "TCH002" "teacher2" "0" "teacher" "Prof. Doe"
                     "doe@university.edu" "" "" "D1" "0")
            "CS101" "EX001" "STU001" 90 "Well done") _)).
  intros (exam & (course & Hc & Ht) & _). injection Hc as <-. discriminate Ht.
Defined.

Lemma letterGrade_of_zero_total : UMSApplication.letterGrade_of 0 0 = "F".
Proof. vm_compute. reflexivity. Qed.

(** X23: the grade that [enterGrades] stores agrees with the exam.
    When the checks pass and the total of the exam is an [int], the
    grades afterwards hold, for the student and the exam, the marks
    entered, which lie between 0 and the total, with the letter of the
    ladder on the exact percentage; for an exam whose total is 0, where
    the percentage is not a number, the letter is [F]. *)
Theorem enterGrades_stores_the_letter db user cid eid sid exam marks comments :
  accepted db user cid eid sid exam marks -> is_int (Exam.totalMarks exam) ->
  let letter :=
    if (Exam.totalMarks exam =? 0)%Z then "F"
    else ladder (exact_percentage marks (Exam.totalMarks exam)) in
  (0 <= marks <= Exam.totalMarks exam)%Z /\
  In (Grade.mk sid eid marks letter comments)
     (DatabaseManager.grades
        (fst (UMSApplication.enterGrades db user cid eid sid marks comments))).
Proof.
  intros Ha Hint letter.
  assert (Hm : (0 <= marks <= Exam.totalMarks exam)%Z) by apply Ha.
  split; [exact Hm|].
  assert (El : UMSApplication.letterGrade_of marks (Exam.totalMarks exam) = letter).
  { unfold letter. destruct (Z.eqb_spec (Exam.totalMarks exam) 0) as [E | E].
    - rewrite E in *. replace marks with 0%Z by lia. apply letterGrade_of_zero_total.
    - apply letterGrade_of_exact; [|exact Hm]. unfold is_int in Hint. lia. }
  rewrite (enterGrades_accepted _ _ _ _ _ _ _ comments Ha), El.
  assert (Dk : forall a b : string * string, {a = b} + {a <> b})
    by (decide equality; apply string_dec).
  destruct (in_dec Dk (sid, eid) (map grade_key (DatabaseManager.grades db)))
    as [Hin | Hin].
  - assert (E : exists l1 g l2, DatabaseManager.grades db = l1 ++ g :: l2 /\
                  ~ In (sid, eid) (map grade_key l1) /\ grade_key g = (sid, eid)).
    { clear - Hin Dk. induction (DatabaseManager.grades db) as [|x v IH]; [contradiction|].
      destruct (Dk (grade_key x) (sid, eid)) as [E | N].
      - exists [], x, v. simpl. tauto.
      - destruct Hin as [Hx | Hin]; [contradiction|].
        destruct (IH Hin) as (l1 & g & l2 & -> & H1 & H2).
        exists (x :: l1), g, l2. simpl. repeat split; tauto. }
    destruct E as (l1 & g & l2 & E & H1 & H2).
    rewrite (store_grade_update _ _ _ _ _ _ l1 g l2 E
               (proj1 (no_record_of_pair _ _ _) H1) H2).
    simpl. apply in_or_app. right. now left.
  - rewrite (store_grade_append _ _ _ _ _ _ (proj1 (no_record_of_pair _ _ _) Hin)).
    simpl. apply in_or_app. right. now left.
Qed.

(** 45 marks out of 100 for the first student of the sample database. *)
Lemma enterGrades_stores_the_letter_witness :
  In (Grade.mk "STU001" "EX001" 45 "F" "See me")
     (DatabaseManager.grades
        (fst (UMSApplication.enterGrades sample_db sample_teacher "CS101" "EX001"
                "STU001" 45 "See me"))).
Proof.
  refine (proj2 (enterGrades_stores_the_letter sample_db sample_teacher "CS101"
                   "EX001" "STU001" sample_exam 45 "See me" _ _)).
  - apply sample_db_accepted. lia.
  - unfold is_int, INT_MIN, INT_MAX. simpl. lia.
Defined.

(** ** The scale of letters *)

(** Settles the comparisons of two cleared ladders. *)
Ltac settle_ladders :=
  repeat match goal with
         | |- context [(?a <=? ?b)%Z] => destruct (Z.leb_spec a b); try lia
         end.

(** X24: more marks never give a lower letter.  For marks between 0
    and the total of the exam, the place on the scale of the letter
    computed in [double] grows with the marks; no marks at all give [F]
    and full marks give [A+]. *)
Theorem letterGrade_of_monotone marks1 marks2 totalMarks :
  (0 < totalMarks <= INT_MAX)%Z -> (0 <= marks1 <= marks2)%Z ->
  (marks2 <= totalMarks)%Z ->
  (grade_rank (UMSApplication.letterGrade_of marks1 totalMarks)
   <= grade_rank (UMSApplication.letterGrade_of marks2 totalMarks))%nat /\
  UMSApplication.letterGrade_of 0 totalMarks = "F" /\
  UMSApplication.letterGrade_of totalMarks totalMarks = "A+".
Proof.
  intros Ht H1 H2.
  rewrite !letterGrade_of_exact by lia.
  rewrite !ladder_exact_percentage by lia.
  repeat split.
  - settle_ladders; vm_compute; lia.
  - settle_ladders. reflexivity.
  - settle_ladders. reflexivity.
Qed.

(** Out of 100, 84 marks and 85 marks. *)
Lemma letterGrade_of_monotone_witness :
  (grade_rank (UMSApplication.letterGrade_of 84 100)
   <= grade_rank (UMSApplication.letterGrade_of 85 100))%nat.
Proof.
  refine (proj1 (letterGrade_of_monotone 84 85 100 _ _ _));
    unfold INT_MAX; lia.
Defined.

Lemma same_ratio_same_band c m1 t1 m2 t2 :
  (0 < t1)%Z -> (0 < t2)%Z -> (m1 * t2 = m2 * t1)%Z ->
  (c * t1 <=? 100 * m1)%Z = (c * t2 <=? 100 * m2)%Z.
Proof.
  intros H1 H2 E.
  destruct (Z.leb_spec (c * t1) (100 * m1)); destruct (Z.leb_spec (c * t2) (100 * m2));
    try reflexivity; exfalso; nia.
Qed.

(** X25: the letter depends on the ratio of the marks to the total
    only.  Two results with the same ratio, out of whatever totals, get
    the same letter from the computation in [double]: 45 out of 50 is
    graded as 90 out of 100. *)
Theorem letterGrade_of_ratio marks1 total1 marks2 total2 :
  (0 < total1 <= INT_MAX)%Z -> (0 < total2 <= INT_MAX)%Z ->
  (0 <= marks1 <= total1)%Z -> (0 <= marks2 <= total2)%Z ->
  (marks1 * total2 = marks2 * total1)%Z ->
  UMSApplication.letterGrade_of marks1 total1
    = UMSApplication.letterGrade_of marks2 total2.
Proof.
  intros Ht1 Ht2 Hm1 Hm2 E.
  rewrite !letterGrade_of_exact by assumption.
  rewrite !ladder_exact_percentage by lia.
  now rewrite !(same_ratio_same_band _ marks1 total1 marks2 total2) by lia.
Qed.

(** 45 out of 50 and 90 out of 100. *)
Lemma letterGrade_of_ratio_witness :
  UMSApplication.letterGrade_of 45 50 = UMSApplication.letterGrade_of 90 100.
Proof.
  apply letterGrade_of_ratio; unfold INT_MAX; lia.
Defined.

(** ** What was created is found *)

Lemma find_key_last {A} (key : A -> string) k v x :
  ~ In k (map key v) -> key x = k ->
  find (fun y => (key y =? k)%string) (v ++ [x]) = Some x.
Proof. apply find_key_first_found. Qed.

(** X26: the lookups find what the operations have just created.
    After a creation under a free identifier, [findDepartment],
    [findSemester], [findUserById] and [findUser], [findCourse] and
    [findExam] give the new record; the new course is among the courses
    of its teacher, the new exam among the exams of its course, the new
    enrollment among the enrollments of the student and the grade
    entered among the grades of the student. *)
Theorem created_records_are_found db :
  (forall i a b c,
     ~ In i (map Department.deptId (DatabaseManager.departments db)) ->
     DatabaseManager.findDepartment
       (fst (UMSApplication.createDepartment db i a b c)) i
     = Some (Department.mk i a b c)) /\
  (forall i a b c,
     ~ In i (map Semester.semesterId (DatabaseManager.semesters db)) ->
     DatabaseManager.findSemester
       (fst (UMSApplication.createSemester db i a b c)) i
     = Some (Semester.mk i a b c "upcoming")) /\
  (forall env role id username password name email,
     ~ In id (map User.id (DatabaseManager.users db)) ->
     ~ In username (map User.username (DatabaseManager.users db)) ->
     let db' := fst (UMSApplication.createUser env db role id username password
                       name email) in
     let user := User.mk id username (SimpleHash.hash env password) role name email
                         "" "" "" (to_string (time_now env)) in
     DatabaseManager.findUserById db' id = Some user /\
     DatabaseManager.findUser db' username = Some user) /\
  (forall cid cname tid did sid credits schedule maxStudents db',
     UMSApplication.createCourse db cid cname tid did sid credits schedule maxStudents
       = (db', "Course created successfully!") ->
     exists course,
       DatabaseManager.findCourse db' cid = Some course /\
       Course.courseId course = cid /\ Course.teacherId course = tid /\
       In course (DatabaseManager.getTeacherCourses db' tid)) /\
  (forall user cid name date time type total db' msg,
     UMSApplication.createExam db user cid name date time type total = Ok (db', msg) ->
     db' <> db ->
     exists exam,
       msg = ("Exam created successfully! Exam ID: " ++ Exam.examId exam)%string /\
       DatabaseManager.findExam db' (Exam.examId exam) = Some exam /\
       Exam.courseId exam = cid /\ Exam.totalMarks exam = total /\
       In exam (DatabaseManager.getCourseExams db' cid)) /\
  (forall user cid sid db',
     UMSApplication.enrollStudent db user cid sid
       = (db', "Student enrolled successfully!") ->
     In (Enrollment.mk sid cid "" "enrolled")
        (DatabaseManager.getStudentEnrollments db' sid)) /\
  (forall user cid eid sid exam marks comments,
     accepted db user cid eid sid exam marks ->
     In (Grade.mk sid eid marks
           (UMSApplication.letterGrade_of marks (Exam.totalMarks exam)) comments)
        (DatabaseManager.getStudentGrades
           (fst (UMSApplication.enterGrades db user cid eid sid marks comments))
           sid)).
Proof.
  split; [|split; [|split; [|split; [|split; [|split]]]]].
  - intros i a b c H. unfold UMSApplication.createDepartment, DatabaseManager.findDepartment.
    rewrite (find_key_none Department.deptId i (DatabaseManager.departments db))
      by assumption. simpl.
    now apply (find_key_last Department.deptId).
  - intros i a b c H. unfold UMSApplication.createSemester, DatabaseManager.findSemester.
    rewrite (find_key_none Semester.semesterId i (DatabaseManager.semesters db))
      by assumption. simpl.
    now apply (find_key_last Semester.semesterId).
  - intros env role id username password name email H1 H2 db' user.
    assert (E : db' = DatabaseManager.set_users (DatabaseManager.users db ++ [user]) db).
    { unfold db', UMSApplication.createUser, DatabaseManager.findUserById,
        DatabaseManager.findUser.
      now rewrite !find_key_none by assumption. }
    rewrite E. unfold DatabaseManager.findUserById, DatabaseManager.findUser. simpl.
    split; [now apply (find_key_last User.id) | now apply (find_key_last User.username)].
  - intros cid cname tid did sid credits schedule maxStudents db' Hr.
    unfold UMSApplication.createCourse in Hr.
    destruct (DatabaseManager.findCourse db cid) as [c0|] eqn:Ec; [discriminate|].
    destruct (match DatabaseManager.findUserById db tid with
              | Some teacher => _ | None => _ end); [discriminate|].
    destruct (_ && _)%bool; [discriminate|].
    destruct (_ && _)%bool; [discriminate|].
    injection Hr as <-. eexists. split; [|split; [|split]].
    + unfold DatabaseManager.findCourse. simpl. unfold push_back.
      apply (find_key_last Course.courseId); [|reflexivity].
      intros Hin. unfold DatabaseManager.findCourse in Ec.
      destruct (find_key_some _ _ _ Hin) as (? & ? & ? & _ & _ & _ & E). congruence.
    + reflexivity.
    + reflexivity.
    + unfold DatabaseManager.getTeacherCourses. simpl. apply filter_In.
      split; [apply in_or_app; right; now left | apply String.eqb_refl].
  - intros user cid name date time type total db' msg Hr Hne.
    unfold UMSApplication.createExam in Hr.
    destruct (UMSApplication.not_own_course db user cid);
      [injection Hr as <- _; now elim Hne|].
    destruct (DatabaseManager.generateNextId _ _) as [examId|e] eqn:Eg; [|discriminate].
    cbn [bind] in Hr. injection Hr as <- <-.
    exists (Exam.mk examId cid name date time type total).
    split; [reflexivity|]. split; [|split; [reflexivity | split; [reflexivity|]]].
    + unfold DatabaseManager.findExam. simpl. unfold push_back.
      apply (find_key_last Exam.examId); [|reflexivity].
      now apply (generateNextId_fresh "EX").
    + unfold DatabaseManager.getCourseExams. simpl. apply filter_In.
      split; [apply in_or_app; right; now left | apply String.eqb_refl].
  - intros user cid sid db' Hr. unfold UMSApplication.enrollStudent in Hr.
    destruct (UMSApplication.not_own_course db user cid); [discriminate|].
    destruct (match DatabaseManager.findUserById db sid with
              | Some student => _ | None => _ end); [discriminate|].
    destruct (DatabaseManager.isStudentEnrolled db sid cid); [discriminate|].
    injection Hr as <-. unfold DatabaseManager.getStudentEnrollments. simpl.
    apply filter_In. split; [apply in_or_app; right; now left | apply String.eqb_refl].
  - intros user cid eid sid exam marks comments Ha.
    rewrite (enterGrades_accepted _ _ _ _ _ _ _ comments Ha).
    unfold DatabaseManager.getStudentGrades. apply filter_In.
    split; [|apply String.eqb_refl].
    unfold UMSApplication.store_grade.
    destruct (Nat.ltb_spec
                (find_if (UMSApplication.same_grade_key sid eid) (DatabaseManager.grades db))
                (List.length (DatabaseManager.grades db))) as [Hlt | Hge].
    + destruct (find_if_split _ _ Hlt) as (l1 & u & l2 & E & Hi & Hu & _).
      simpl. rewrite E at 1. rewrite Hi, assign_middle.
      apply same_grade_key_true in Hu. injection Hu as -> ->.
      apply in_or_app. right. now left.
    + simpl. apply in_or_app. right. now left.
Qed.

(** The new department of an empty database. *)
Lemma created_records_are_found_witness :
  DatabaseManager.findDepartment
    (fst (UMSApplication.createDepartment empty_db "CSE" "Computer Science"
            "Dr. Smith" "Computing")) "CSE"
  = Some (Department.mk "CSE" "Computer Science" "Dr. Smith" "Computing").
Proof.
  apply (proj1 (created_records_are_found empty_db)). simpl. tauto.
Defined.

(** ** The transcript *)

Lemma transcript_fold db (es : list Enrollment.t) : forall total,
  Forall (fun e => Enrollment.grade e = EmptyString \/ Enrollment.grade e = "F") es ->
  snd (fold_left
         (fun (totals : float * float) enrollment =>
            let (totalCredits, earnedCredits) := totals in
            match DatabaseManager.findCourse db (Enrollment.courseId enrollment) with
            | Some course =>
                let totalCredits :=
                  (totalCredits
                   + UMSApplication.double_of_int (Course.credits course))%float in
                if negb (Enrollment.grade enrollment =? "F")%string
                   && negb (empty (Enrollment.grade enrollment))
                then (totalCredits,
                      (earnedCredits
                       + UMSApplication.double_of_int (Course.credits course))%float)
                else (totalCredits, earnedCredits)
            | None => totals
            end) es (total, 0%float)) = 0%float.
Proof.
  induction es as [|e es IH]; intros total H; [reflexivity|].
  inversion H as [|? ? He Hes]; subst. cbn [fold_left].
  destruct (DatabaseManager.findCourse db (Enrollment.courseId e)) as [course|];
    [|now apply IH].
  destruct He as [-> | ->]; cbn [String.eqb Ascii.eqb Bool.eqb negb andb empty];
    now apply IH.
Qed.

(** X27: the transcript counts a course as earned only through the
    grade of the enrollment, which [enrollStudent] leaves empty and
    [enterGrades] never writes.  While every enrollment has that empty
    grade, the credits earned on the transcript of every user are 0,
    before and after any grade is entered for an exam. *)
Theorem transcript_earns_nothing db student :
  Forall (fun e => Enrollment.grade e = EmptyString) (DatabaseManager.enrollments db) ->
  snd (UMSApplication.printTranscript db student) = 0%float /\
  (forall teacher cid sid,
     Forall (fun e => Enrollment.grade e = EmptyString)
            (DatabaseManager.enrollments
               (fst (UMSApplication.enrollStudent db teacher cid sid)))) /\
  (forall teacher cid eid sid marks comments,
     let db' := fst (UMSApplication.enterGrades db teacher cid eid sid marks comments) in
     DatabaseManager.enrollments db' = DatabaseManager.enrollments db /\
     snd (UMSApplication.printTranscript db' student) = 0%float).
Proof.
  intros H.
  assert (T : forall db0,
            DatabaseManager.enrollments db0 = DatabaseManager.enrollments db ->
            snd (UMSApplication.printTranscript db0 student) = 0%float).
  { intros db0 E. unfold UMSApplication.printTranscript. apply transcript_fold.
    unfold DatabaseManager.getStudentEnrollments. rewrite E.
    apply Forall_forall. intros e He. apply filter_In in He as [He _].
    left. revert e He. now apply Forall_forall. }
  split; [now apply T|]. split.
  - intros teacher cid sid. unfold UMSApplication.enrollStudent.
    destruct (UMSApplication.not_own_course db teacher cid); [exact H|].
    destruct (match DatabaseManager.findUserById db sid with
              | Some s => _ | None => _ end); [exact H|].
    destruct (DatabaseManager.isStudentEnrolled db sid cid); [exact H|].
    simpl. unfold push_back. apply Forall_app. split; [exact H|].
    now repeat constructor.
  - intros teacher cid eid sid marks comments db'.
    assert (E : DatabaseManager.enrollments db' = DatabaseManager.enrollments db).
    { unfold db'.
      destruct (accepted_dec db teacher cid eid sid marks) as [(exam & Ha) | Hn].
      - rewrite (enterGrades_accepted _ _ _ _ _ _ _ comments Ha).
        unfold UMSApplication.store_grade. now destruct (_ <? _)%nat.
      - now rewrite (proj1 (enterGrades_refused _ _ _ _ _ _ comments Hn)). }
    split; [exact E | now apply T].
Qed.

(** The first student of the sample database after a grade of 95 out
    of 100. *)
Lemma transcript_earns_nothing_witness :
  snd (UMSApplication.printTranscript
         (fst (UMSApplication.enterGrades sample_db sample_teacher "CS101" "EX001"
                 "STU001" 95 "Excellent"))
         (User.mk "STU001" "student1" "0" "student" "Alice" "alice@student.edu"
                  "" "" "D1" "0"))
  = 0%float.
Proof.
  refine (proj2 (proj2 (proj2 (transcript_earns_nothing sample_db _ _))
                   sample_teacher "CS101" "EX001" "STU001" 95%Z "Excellent")).
  repeat constructor.
Defined.

(** ** Seeding *)

Lemma User_new_safe env id username password role name email phone address dept :
  Forall (fun s => comma_free s /\ newline_free s)
         [id; username; role; name; email; phone; address; dept] ->
  file_safe (User_fields (User.new env id username password role name email phone
                                   address dept)).
Proof.
  intros H.
  repeat match goal with
         | H : Forall _ (_ :: _) |- _ =>
             let h := fresh "h" in
             inversion H as [|? ? h ?]; subst; clear H; destruct h
         end.
  unfold file_safe, csv_safe, User_fields, User.new, SimpleHash.hash. simpl.
  repeat match goal with
         | |- _ /\ _ => split
         | |- Forall _ _ => constructor
         end;
    try assumption; try apply comma_free_to_string;
    try apply to_string_newline_free; apply to_string_nonempty.
Qed.

(** Settles the safety of records given by their fields. *)
Ltac safe_constants :=
  unfold file_safe, csv_safe, newline_free, comma_free, is_int, INT_MIN, INT_MAX;
  simpl;
  repeat match goal with
         | |- _ /\ _ => split
         | |- Forall _ _ => constructor
         end; try reflexivity; try discriminate; try lia.



(** ** From one run to the next *)

(** An identifier that the allocator returns holds no comma and no line
    break when the prefix holds none. *)
Lemma generateNextId_clean prefix ids s :
  comma_free prefix -> newline_free prefix ->
  DatabaseManager.generateNextId prefix ids = Ok s ->
  comma_free s /\ newline_free s.
Proof.
  intros Hc Hn Hgen. pose proof (maxNum_of_bounds prefix ids) as Hb.
  destruct (Z_lt_ge_dec (maxNum_of prefix ids) 999) as [Hlt | Hge];
    [|rewrite generateNextId_from_999 in Hgen by lia; discriminate].
  rewrite generateNextId_below_999 in Hgen by assumption. injection Hgen as <-.
  assert (Hd : all_digits (zero_pad3 (to_string (maxNum_of prefix ids + 1))) = true).
  { unfold zero_pad3. apply all_digits_zeros.
    destruct (maxNum_of prefix ids + 1)%Z as [|p|p] eqn:E; try lia.
    rewrite to_string_pos. apply string_of_uint_digits. }
  unfold comma_free, newline_free in *. rewrite !free_of_app, Hc, Hn.
  split; [now apply all_digits_free | now apply all_digits_newline_free].
Qed.

(** X29: a registration survives the end of the run.  After a
    [performSignup] that changed a database whose records can be
    written, with a user name, name, email, phone and address free of
    commas and line breaks, [saveAllData] followed, in a new manager, by
    [loadAllData] gives the same database again, and [performLogin] with
    the user name and the password of the registration logs the new
    user in, provided [std::hash] gives the password the same value. *)
Theorem signup_survives_restart env env' db fs choice username password name email
    phone address deptId db1 msg :
  storable db -> all_writable fs ->
  Forall (fun s => comma_free s /\ newline_free s)
         [username; name; email; phone; address] ->
  UMSApplication.performSignup env db choice username password name email phone
    address deptId = Ok (db1, msg) ->
  db1 <> db ->
  SimpleHash.hash env' password = SimpleHash.hash env password ->
  let fs1 := snd (DatabaseManager.saveAllData (db1, fs)) in
  DatabaseManager.loadAllData env' (empty_db, fs1) = Ok (db1, fs1) /\
  exists user,
    fst (UMSApplication.performLogin env' db1 username password) = Some user /\
    In user (DatabaseManager.users db1) /\
    ~ In user (DatabaseManager.users db) /\
    User.username user = username /\
    User.role user = (if (choice =? 1)%Z then "student" else "teacher").
Proof.
  intros Hs Hw Htyped Hr Hne Hh fs1.
  destruct (performSignup_cases _ _ _ _ _ _ _ _ _ _ _ _ Hr)
    as [-> | (newId & (N3 & Hfree & Hdept) & Hgen & E)]; [now elim Hne|].
  set (role := if (choice =? 1)%Z then "student" else "teacher") in *.
  set (dept := if vempty (DatabaseManager.departments db) then "" else deptId) in *.
  set (user := User.mk newId username (SimpleHash.hash env password) role name email
                       phone address dept (to_string (time_now env))) in *.
  assert (Hid : comma_free newId /\ newline_free newId).
  { apply (generateNextId_clean _ _ _) in Hgen; [exact Hgen | |];
      now destruct (choice =? 1)%Z. }
  assert (Hd : comma_free dept /\ newline_free dept).
  { unfold dept. destruct (DatabaseManager.departments db) as [|d0 ds] eqn:Ed;
      [now split|]. cbn [vempty].
    specialize (Hdept ltac:(discriminate)).
    apply in_map_iff in Hdept as (d & <- & Hin).
    destruct Hs as (_ & Hds & _). rewrite Ed in Hds.
    rewrite Forall_forall in Hds. destruct (Hds d Hin) as [[Hc _] Hn].
    inversion Hc; subst. inversion Hn; subst. now split. }
  assert (Hsafe : file_safe (User_fields user)).
  { change user with (User.new env newId username password role name email phone
                               address dept).
    apply User_new_safe.
    repeat match goal with
           | H : Forall _ (_ :: _) |- _ =>
               let h := fresh "h" in
               inversion H as [|? ? h ?]; subst; clear H
           end.
    repeat constructor; try tauto; unfold role; now destruct (choice =? 1)%Z. }
  assert (Hs1 : storable db1).
  { rewrite E. destruct Hs as (Hu & Hrest). split; [|exact Hrest].
    simpl. apply Forall_app. split; [exact Hu|].
    apply Forall_cons; [exact Hsafe | apply Forall_nil]. }
  split.
  - apply saveAllData_loadAllData; try assumption.
    rewrite E. simpl. now destruct (DatabaseManager.users db).
  - exists user. rewrite E. split; [|split; [|split; [|split]]].
    + unfold UMSApplication.performLogin, DatabaseManager.findUser. simpl.
      rewrite (find_key_last User.username) by (assumption || reflexivity).
      change (User.passwordHash user) with (SimpleHash.hash env password).
      now rewrite Hh, String.eqb_refl.
    + simpl. apply in_or_app. right. now left.
    + intros Hin. apply Hfree. change username with (User.username user).
      now apply in_map.
    + reflexivity.
    + reflexivity.
Qed.

(** The first student of a new installation. *)
Lemma signup_survives_restart_witness :
  let db := DatabaseManager.set_users [DatabaseManager.default_admin sample_env]
              empty_db in
  let db1 := DatabaseManager.set_users
               [DatabaseManager.default_admin sample_env;
                User.new sample_env "STU001" "alice" "secret" "student"
                         "Alice Johnson" "alice.j@student.edu" "123-456-7892"
                         "125 Campus St" ""] empty_db in
  DatabaseManager.loadAllData sample_env
    (empty_db, snd (DatabaseManager.saveAllData (db1, empty_directory)))
  = Ok (db1, snd (DatabaseManager.saveAllData (db1, empty_directory))).
Proof.
  intros db db1.
  refine (proj1 (signup_survives_restart sample_env sample_env db empty_directory 1
                   "alice" "secret" "Alice Johnson" "alice.j@student.edu"
                   "123-456-7892" "125 Campus St" "" db1
                   ("student registration successful! Your ID is: STU001" ++ endl
                    ++ "You can now login with your credentials.")%string
                   _ _ _ _ _ _)).
  - unfold storable. simpl.
    split; [apply Forall_cons; [apply default_admin_safe | apply Forall_nil]|].
    repeat split; apply Forall_nil.
  - intros path _. reflexivity.
  - safe_constants.
  - reflexivity.
  - discriminate.
  - reflexivity.
Defined.

(** X30: the identifiers that the administrator types are not
    checked against the allocator.  Once [createUser] has created a user
    whose identifier reads, after [STU] or [TCH], as a number from 999
    on, every registration of that kind that passes the checks ends in
    [std::length_error], until the user is deleted. *)
Theorem typed_identifier_blocks_signup env db role id username password name email
    choice n :
  ~ In id (map User.id (DatabaseManager.users db)) ->
  ~ In username (map User.username (DatabaseManager.users db)) ->
  choice <> 3%Z ->
  suffix_number (if (choice =? 1)%Z then "STU" else "TCH") id = Some n ->
  (999 <= n)%Z ->
  let db' := fst (UMSApplication.createUser env db role id username password name
                    email) in
  forall env' username' password' name' email' phone' address' deptId',
    ~ In username' (map User.username (DatabaseManager.users db')) ->
    (DatabaseManager.departments db <> [] ->
     In deptId' (map Department.deptId (DatabaseManager.departments db))) ->
    UMSApplication.performSignup env' db' choice username' password' name' email'
      phone' address' deptId' = Throw length_error.
Proof.
  intros Hid Hname N3 Hs Hn db' env' username' password' name' email' phone' address'
    deptId' Hfree Hdept.
  assert (E : db' = DatabaseManager.set_users
                      (DatabaseManager.users db ++
                       [User.new env id username password role name email "" "" ""]) db).
  { unfold db', UMSApplication.createUser, DatabaseManager.findUserById,
      DatabaseManager.findUser.
    now rewrite !find_key_none by assumption. }
  apply performSignup_from_999; try assumption.
  - now rewrite E.
  - apply Z.le_trans with n; [exact Hn|].
    apply (proj1 (maxNum_of_is_max _ _) id n); [|exact Hs].
    rewrite E. simpl. rewrite map_app. apply in_or_app. right. now left.
Qed.

(** A student created by hand under [STU999]. *)
Lemma typed_identifier_blocks_signup_witness :
  UMSApplication.performSignup sample_env
    (fst (UMSApplication.createUser sample_env sample_db "student" "STU999" "zoe"
            "secret" "Zoe Last" "zoe@student.edu"))
    1 "yann" "secret" "Yann Next" "yann@student.edu" "" "" ""
  = Throw length_error.
Proof.
  refine (typed_identifier_blocks_signup sample_env sample_db "student" "STU999" "zoe"
            "secret" "Zoe Last" "zoe@student.edu" 1 999 _ _ _ _ _
            sample_env "yann" "secret" "Yann Next" "yann@student.edu" "" "" "" _ _).
  - simpl. intros [H | []]. discriminate H.
  - simpl. intros [H | []]. discriminate H.
  - discriminate.
  - reflexivity.
  - lia.
  - simpl. intros [H | [H | []]]; discriminate H.
  - intros H. now elim H.
Defined.
